(** * biblioteca-qa-api: the per-tenant document store of [server.js]

    A shallow embedding of the [DatabaseManager] class, of the two
    middlewares and of the route handlers that wrap them, followed by the
    properties of the store that the specification states and by further
    properties read off the code.

    Conventions of the embedding.
    - A JSON value is a [JValue].  The numbers of a document are the
      integers among the doubles, written as a [Z]; fractional numbers are
      outside the model.  What the program computes from them is a
      [Number]: a double that is an integer, an infinity or NaN; sums and
      products are rounded as IEEE 754 rounds them.
    - A JS object used as a record (a book, a request body, a query) is a
      [gmap string JValue] of its own properties; [undefined] is the [None]
      of a lookup.
    - A string is the UTF-8 encoding of the JS string, which is taken to be
      well formed; [length] counts UTF-16 code units.
    - The file system is a finite map from paths to file states: a file is
      the JSON document that its text denotes, text that [JSON.parse]
      rejects, or a file that cannot be opened.  The clock is an oracle
      consulted once per [new Date()], and every [fs.writeFile] is recorded
      in a journal.
    - What the JavaScript engine decides and the program does not is a
      parameter, the class [Engine]: the relational operators and loose
      equality on primitive values, the order in which
      [Array.prototype.sort] calls its comparator, the Unicode case
      mappings, the division and rounding of the averages, and the calendar
      fields of a date in the local time zone.  The conversion of arrays and
      objects to primitives, which can throw, is part of the model. *)

From Stdlib Require Import ZArith Lia Ascii String.
From stdpp Require Import gmap strings list fin_maps pretty.

#[local] Open Scope string_scope.
#[local] Open Scope Z_scope.

(** ** JSON values and the JavaScript operations on them *)

Module JS.

#[warnings="-register-all"] Inductive JValue : Type :=
  | JNull
  | JBool (b : bool)
  | JNum (n : Z)
  | JStr (s : string)
  | JArr (l : list JValue)
  | JObj (m : gmap string JValue).

(** A runtime value read from an object: JSON data, [undefined], or a member
    inherited from [Object.prototype] (a native function, or the prototype
    itself for [__proto__]). *)
Inductive Value : Type :=
  | VUndefined
  | VJson (v : JValue)
  | VNative (name : string).

Inductive Error : Type := ENOENT | EACCES | SyntaxError | TypeError.

Inductive Result (A : Type) : Type :=
  | Ok (a : A)
  | Raise (e : Error).
Arguments Ok {A} a.
Arguments Raise {A} e.

Definition rbind {A B} (r : Result A) (k : A -> Result B) : Result B :=
  match r with
  | Ok a => k a
  | Raise e => Raise e
  end.

Notation "'let+' x ':=' r 'in' k" := (rbind r (fun x => k))
  (at level 10, x name, r at level 100, k at level 200, only parsing).

(** The names every plain object inherits from [Object.prototype]. *)
Definition object_prototype_names : list string :=
  [ "constructor"; "__defineGetter__"; "__defineSetter__"; "hasOwnProperty";
    "__lookupGetter__"; "__lookupSetter__"; "isPrototypeOf";
    "propertyIsEnumerable"; "toString"; "valueOf"; "__proto__";
    "toLocaleString" ].

Definition inherited (k : string) : bool :=
  bool_decide (k ∈ object_prototype_names).

(** [o[k]] on a plain object with own properties [o]. *)
Definition get (o : gmap string JValue) (k : string) : Value :=
  match o !! k with
  | Some v => VJson v
  | None => if inherited k then VNative k else VUndefined
  end.

Definition of_lookup (o : option JValue) : Value :=
  match o with
  | Some v => VJson v
  | None => VUndefined
  end.

(** [undefined], [null], a boolean, a number or a string. *)
Definition primitive (x : Value) : bool :=
  match x with
  | VJson (JArr _) | VJson (JObj _) | VNative _ => false
  | _ => true
  end.

(** ToBoolean. *)
Definition truthy (v : JValue) : bool :=
  match v with
  | JNull => false
  | JBool b => b
  | JNum n => negb (n =? 0)
  | JStr s => negb (String.eqb s "")
  | JArr _ | JObj _ => true
  end.

Definition truthy_opt (o : option JValue) : bool :=
  match o with
  | Some v => truthy v
  | None => false
  end.

(** [x === y] between values that come from two different JSON documents:
    primitives are compared by value, and two arrays or two objects are
    never the same reference. *)
Definition strict_eq (x y : option JValue) : bool :=
  match x, y with
  | None, None => true
  | Some JNull, Some JNull => true
  | Some (JBool a), Some (JBool b) => Bool.eqb a b
  | Some (JNum a), Some (JNum b) => a =? b
  | Some (JStr a), Some (JStr b) => String.eqb a b
  | _, _ => false
  end.

(** *** Numbers

    The doubles that are integers, the infinities and NaN.  The zero of
    either sign is [Finite 0]: the program never divides by a zero, and
    [JSON.stringify] prints both as [0]. *)

Inductive Number : Type :=
  | Finite (n : Z)
  | PosInf
  | NegInf
  | NaN.

(** The double nearest to an integer, ties going to the even significand;
    an integer of magnitude below [2^53] is a double already. *)
Definition to_double (n : Z) : Number :=
  let m := Z.abs n in
  if m <? 2 ^ 53 then Finite n
  else
    let e := Z.log2 m - 52 in
    let q := m / 2 ^ e in
    let r := m mod 2 ^ e in
    let half := 2 ^ (e - 1) in
    let q' := if (half <? r) || ((r =? half) && Z.odd q) then q + 1 else q in
    let v := q' * 2 ^ e in
    if 2 ^ 1024 <=? v then (if n <? 0 then NegInf else PosInf)
    else Finite (Z.sgn n * v).

(** [n + 1] on an integer that is a double: the sum stays finite. *)
Definition num_succ (n : Z) : Z :=
  match to_double (n + 1) with
  | Finite k => k
  | _ => n
  end.

(** [x + y]. *)
Definition num_add (x y : Number) : Number :=
  match x, y with
  | NaN, _ | _, NaN => NaN
  | PosInf, NegInf | NegInf, PosInf => NaN
  | PosInf, _ | _, PosInf => PosInf
  | NegInf, _ | _, NegInf => NegInf
  | Finite a, Finite b => to_double (a + b)
  end.

Definition num_neg (x : Number) : Number :=
  match x with
  | Finite a => Finite (- a)
  | PosInf => NegInf
  | NegInf => PosInf
  | NaN => NaN
  end.

(** [x * y]. *)
Definition num_mul (x y : Number) : Number :=
  match x, y with
  | NaN, _ | _, NaN => NaN
  | Finite a, Finite b => to_double (a * b)
  | Finite a, inf | inf, Finite a =>
      if a =? 0 then NaN else if 0 <? a then inf else num_neg inf
  | PosInf, PosInf | NegInf, NegInf => PosInf
  | PosInf, NegInf | NegInf, PosInf => NegInf
  end.

(** [x < y]; a comparison with NaN is false. *)
Definition num_lt (x y : Number) : bool :=
  match x, y with
  | NaN, _ | _, NaN => false
  | Finite a, Finite b => a <? b
  | NegInf, NegInf | PosInf, _ => false
  | NegInf, _ | _, PosInf => true
  | Finite _, NegInf => false
  end.

(** [Math.ceil(a / b)] for integers [a] and [b <> 0]. *)
Definition ceil_div (a b : Z) : Z := - ((- a) / b).

(** [Math.ceil(len / n)] for the length of an array: the quotient of the
    two doubles is rounded, but never across an integer. *)
Definition num_ceil_div (len : Z) (n : Number) : Number :=
  match n with
  | Finite b =>
      if b =? 0 then (if len =? 0 then NaN else PosInf)
      else Finite (ceil_div len b)
  | PosInf | NegInf => Finite 0
  | NaN => NaN
  end.

(** The number as [JSON.stringify] writes it. *)
Definition number_json (x : Number) : JValue :=
  match x with
  | Finite n => JNum n
  | _ => JNull
  end.

(** *** Text *)

Definition lower_ascii (c : ascii) : ascii :=
  let n := Ascii.N_of_ascii c in
  if ((65 <=? n) && (n <=? 90))%N then Ascii.ascii_of_N (n + 32) else c.

Definition upper_ascii (c : ascii) : ascii :=
  let n := Ascii.N_of_ascii c in
  if ((97 <=? n) && (n <=? 122))%N then Ascii.ascii_of_N (n - 32) else c.

(** The case mappings on the ASCII letters, every other byte left as it
    is: what [toLowerCase] and [toUpperCase] come to on ASCII text. *)
Fixpoint lowercase_ascii (s : string) : string :=
  match s with
  | EmptyString => EmptyString
  | String c r => String (lower_ascii c) (lowercase_ascii r)
  end.

Fixpoint uppercase_ascii (s : string) : string :=
  match s with
  | EmptyString => EmptyString
  | String c r => String (upper_ascii c) (uppercase_ascii r)
  end.

(** Text of ASCII characters only. *)
Fixpoint is_ascii (s : string) : bool :=
  match s with
  | EmptyString => true
  | String c r => (Ascii.N_of_ascii c <? 128)%N && is_ascii r
  end.

(** Text with one of the letters [a] to [z] in it. *)
Fixpoint has_lower (s : string) : bool :=
  match s with
  | EmptyString => false
  | String c r =>
      let n := Ascii.N_of_ascii c in
      ((97 <=? n) && (n <=? 122))%N || has_lower r
  end.

Fixpoint starts_with (t s : string) : bool :=
  match t, s with
  | EmptyString, _ => true
  | String a t', String b s' => Ascii.eqb a b && starts_with t' s'
  | String _ _, EmptyString => false
  end.

(** [s.includes(t)]. *)
Fixpoint includes (s t : string) : bool :=
  starts_with t s ||
  match s with
  | EmptyString => false
  | String _ r => includes r t
  end.

(** [s.length]: one UTF-16 code unit for a character of the basic plane,
    two for the others. *)
Fixpoint utf16_length (s : string) : nat :=
  match s with
  | EmptyString => 0
  | String c r =>
      let n := Ascii.N_of_ascii c in
      ((if ((128 <=? n) && (n <? 192))%N then 0
        else if (240 <=? n)%N then 2 else 1) + utf16_length r)%nat
  end.

(** [s.substring(n)] for text whose first [n] characters are ASCII. *)
Fixpoint substring_from (n : nat) (s : string) : string :=
  match n, s with
  | O, _ => s
  | S n', String _ r => substring_from n' r
  | S _, EmptyString => EmptyString
  end.

(** [s.split(' ')[0]]. *)
Fixpoint first_word (s : string) : string :=
  match s with
  | EmptyString => EmptyString
  | String c r => if Ascii.eqb c " " then EmptyString else String c (first_word r)
  end.

(** *** ToString *)

(** The shortest decimal [s * 10^(n - k)], with [k] digits [s], that is
    read back as the double [x]; of two such decimals the nearer one, and
    of two equally near the even one.  [n] starts as the number of digits
    of [x] and is one more when the digits round up to a power of ten. *)
Fixpoint shortest_digits (fuel : nat) (k n x : Z) : Z * Z * Z :=
  match fuel with
  | O => (x, n, n)
  | S fuel =>
      let scale := 10 ^ (n - k) in
      let low := x / scale in
      let high := low + 1 in
      let reads s :=
        (10 ^ (k - 1) <=? s)
        && match to_double (s * scale) with
           | Finite y => y =? x
           | _ => false
           end in
      let above := if high <? 10 ^ k then (high, k, n)
                   else (10 ^ (k - 1), k, n + 1) in
      if reads low && reads high then
        let under := x - low * scale in
        let over := high * scale - x in
        if under <? over then (low, k, n)
        else if over <? under then above
        else if Z.even low then (low, k, n) else above
      else if reads low then (low, k, n)
      else if reads high then above
      else shortest_digits fuel (k + 1) n x
  end.

(** Number::toString on a positive integer of 22 digits or more. *)
Definition exponent_text (x : Z) : string :=
  let '(s, k, n) :=
    shortest_digits 17 1 (Z.of_nat (String.length (pretty x))) x in
  match pretty s with
  | String d rest =>
      String d (if String.eqb rest "" then "" else "." ++ rest)
      ++ "e+" ++ pretty (n - 1)
  | EmptyString => EmptyString
  end.

(** Number::toString on an integer. *)
Definition integer_text (n : Z) : string :=
  if Z.abs n <? 10 ^ 21 then pretty n
  else (if n <? 0 then "-" else "") ++ exponent_text (Z.abs n).

Definition number_text (x : Number) : string :=
  match x with
  | Finite n => integer_text n
  | PosInf => "Infinity"
  | NegInf => "-Infinity"
  | NaN => "NaN"
  end.

(** ToString on JSON values, which is also their conversion to a primitive
    and to a property key.  An array joins its elements with commas and
    prints [null] elements as the empty string.  An object of a document
    prints as [[object Object]], unless it has a [toString] property of its
    own: that property is JSON data, not a function, the inherited
    [valueOf] gives the object back, and the conversion throws. *)
Fixpoint ToString (v : JValue) : Result string :=
  match v with
  | JNull => Ok "null"
  | JBool true => Ok "true"
  | JBool false => Ok "false"
  | JNum n => Ok (integer_text n)
  | JStr s => Ok s
  | JArr l =>
      let+ parts :=
        (fix join (l : list JValue) : Result (list string) :=
           match l with
           | [] => Ok []
           | x :: r =>
               let+ s := match x with
                         | JNull => Ok ""
                         | _ => ToString x
                         end in
               let+ rest := join r in
               Ok (s :: rest)
           end) l in
      Ok (String.concat "," parts)
  | JObj m =>
      match m !! "toString" with
      | Some _ => Raise TypeError
      | None => Ok "[object Object]"
      end
  end.

Definition ToString_opt (o : option JValue) : Result string :=
  match o with
  | Some v => ToString v
  | None => Ok "undefined"
  end.

(** [String(Object.prototype[k])] under V8. *)
Definition native_text (k : string) : string :=
  if String.eqb k "__proto__" then "[object Object]"
  else "function " ++ (if String.eqb k "constructor" then "Object" else k)
       ++ "() { [native code] }".

(** The conversion of a runtime value to text. *)
Definition value_text (x : Value) : Result string :=
  match x with
  | VUndefined => Ok "undefined"
  | VJson v => ToString v
  | VNative k => Ok (native_text k)
  end.

(** *** [parseInt] *)

Definition is_space (c : ascii) : bool :=
  let n := Ascii.N_of_ascii c in
  ((n =? 9) || (n =? 10) || (n =? 11) || (n =? 12) || (n =? 13) || (n =? 32))%N.

(** The white space and line terminators outside ASCII, in UTF-8: U+00A0
    is two bytes, the others are three. *)
Definition is_space2 (a b : ascii) : bool :=
  ((Ascii.N_of_ascii a =? 194) && (Ascii.N_of_ascii b =? 160))%N.

Definition is_space3 (a b c : ascii) : bool :=
  let x := Ascii.N_of_ascii a in
  let y := Ascii.N_of_ascii b in
  let z := Ascii.N_of_ascii c in
  ((x =? 225) && (y =? 154) && (z =? 128)
   || (x =? 226) && (y =? 128)
      && ((128 <=? z) && (z <=? 138) || (z =? 168) || (z =? 169) || (z =? 175))
   || (x =? 226) && (y =? 129) && (z =? 159)
   || (x =? 227) && (y =? 128) && (z =? 128)
   || (x =? 239) && (y =? 187) && (z =? 191))%N.

Fixpoint skip_spaces (s : string) : string :=
  match s with
  | EmptyString => s
  | String a r =>
      if is_space a then skip_spaces r
      else
        match r with
        | EmptyString => s
        | String b r' =>
            if is_space2 a b then skip_spaces r'
            else
              match r' with
              | EmptyString => s
              | String c r'' =>
                  if is_space3 a b c then skip_spaces r'' else s
              end
        end
  end.

Definition digit_value (radix : Z) (c : ascii) : option Z :=
  let n := Z.of_N (Ascii.N_of_ascii c) in
  let d :=
    if (48 <=? n) && (n <=? 57) then Some (n - 48)
    else if (97 <=? n) && (n <=? 122) then Some (n - 87)
    else if (65 <=? n) && (n <=? 90) then Some (n - 55)
    else None in
  match d with
  | Some k => if k <? radix then Some k else None
  | None => None
  end.

(** The value of the longest prefix of digits, [None] when it is empty. *)
Fixpoint digits (radix : Z) (s : string) (acc : option Z) : option Z :=
  match s with
  | EmptyString => acc
  | String c r =>
      match digit_value radix c with
      | Some d => digits radix r (Some (radix * default 0 acc + d))
      | None => acc
      end
  end.

(** [parseInt(s)] on a string: the integer that the digits write, as the
    double nearest to it. *)
Definition parseInt_string (s : string) : Number :=
  let s := skip_spaces s in
  let '(sign, s) :=
    match s with
    | String "-" r => (-1, r)
    | String "+" r => (1, r)
    | _ => (1, s)
    end in
  let '(radix, s) :=
    match s with
    | String "0" (String "x" r) | String "0" (String "X" r) => (16, r)
    | _ => (10, s)
    end in
  match digits radix s None with
  | Some n => to_double (sign * n)
  | None => NaN
  end.

(** [parseInt(x)] converts its argument to a string first. *)
Definition parseInt (x : option JValue) : Result Number :=
  let+ s := ToString_opt x in
  Ok (parseInt_string s).

(** [n || d]: NaN and 0 give the default. *)
Definition number_or (n : Number) (d : Z) : Number :=
  match n with
  | NaN => Finite d
  | Finite k => if k =? 0 then Finite d else n
  | _ => n
  end.

(** [parseInt(x) || d]. *)
Definition parseInt_or (x : option JValue) (d : Z) : Result Number :=
  let+ n := parseInt x in
  Ok (number_or n d).

(** *** Arrays *)

(** [Array.prototype.slice(start, end)] with its relative (negative)
    indices. *)
Definition slice {A} (l : list A) (start stop : Z) : list A :=
  let len := Z.of_nat (length l) in
  let k := if start <? 0 then Z.max (len + start) 0 else Z.min start len in
  let final := if stop <? 0 then Z.max (len + stop) 0 else Z.min stop len in
  take (Z.to_nat (Z.max (final - k) 0)) (drop (Z.to_nat k) l).

(** ToIntegerOrInfinity on an argument of [slice]: NaN counts as 0 and an
    infinity as the nearer end of the array. *)
Definition slice_index (x : Number) (len : Z) : Z :=
  match x with
  | Finite n => n
  | PosInf => len
  | NegInf | NaN => 0
  end.

Definition slice_at {A} (l : list A) (start stop : Number) : list A :=
  let len := Z.of_nat (length l) in
  slice l (slice_index start len) (slice_index stop len).

(** [Array.prototype.findIndex]; [None] is -1. *)
Fixpoint findIndex {A} (p : A -> bool) (l : list A) : option nat :=
  match l with
  | [] => None
  | x :: r => if p x then Some 0%nat else S <$> findIndex p r
  end.

(** [filter] with a callback that may throw. *)
Fixpoint filter_r {A} (p : A -> Result bool) (l : list A) : Result (list A) :=
  match l with
  | [] => Ok []
  | x :: r =>
      let+ keep := p x in
      let+ r' := filter_r p r in
      Ok (if keep then x :: r' else r')
  end.

(** [map] with a callback that may throw. *)
Fixpoint map_r {A B} (f : A -> Result B) (l : list A) : Result (list B) :=
  match l with
  | [] => Ok []
  | x :: r =>
      let+ y := f x in
      let+ r' := map_r f r in
      Ok (y :: r')
  end.

(** *** Addition

    What [+] accumulates: a number, or text once an operand was text or an
    object. *)

Inductive Prim : Type :=
  | PNum (x : Number)
  | PText (s : string).

Definition prim_text (p : Prim) : string :=
  match p with
  | PNum x => number_text x
  | PText s => s
  end.

(** [acc + x]: concatenation when either side is text after its conversion
    to a primitive, the sum of the two numbers otherwise. *)
Definition js_add (acc : Prim) (x : Value) : Result Prim :=
  match x with
  | VJson (JNum n) =>
      Ok (match acc with
          | PNum a => PNum (num_add a (Finite n))
          | PText s => PText (s ++ integer_text n)
          end)
  | VJson (JBool b) =>
      Ok (match acc with
          | PNum a => PNum (num_add a (Finite (if b then 1 else 0)))
          | PText s => PText (s ++ (if b then "true" else "false"))
          end)
  | VJson JNull =>
      Ok (match acc with
          | PNum a => PNum (num_add a (Finite 0))
          | PText s => PText (s ++ "null")
          end)
  | VUndefined =>
      Ok (match acc with
          | PNum a => PNum NaN
          | PText s => PText (s ++ "undefined")
          end)
  | _ =>
      let+ t := value_text x in
      Ok (PText (prim_text acc ++ t))
  end.

(** *** The engine

    What the engine decides on primitives, that is on [undefined], [null],
    booleans, numbers and strings: [prim_lt x y] is [x < y], [prim_ge x n]
    is [x >= n] for a number [n], and [prim_loose_eq] is [==].
    [array_sort] is [Array.prototype.sort] under a comparator that may
    throw.  [toLowerCase] and [toUpperCase] are the methods of
    [String.prototype], which follow the Unicode tables of the engine.
    [mean_rounded sum n] is [Math.round(sum / n)] and [mean_fixed sum n] is
    the text [(sum / n).toFixed(1)], which [parseFloat] then reads.
    [same_year x t] is
    [new Date(x).getFullYear() === new Date().getFullYear()] for a
    primitive [x] when the clock reads [t], in the time zone of the server,
    and [same_month] asks the same of the month as well.

    The laws are those of the case mappings that the proofs use: what they
    are on ASCII text, that lower-casing makes no text empty, and that
    upper-casing leaves none of the letters [a] to [z]. *)
Class Engine : Type := {
  prim_lt : Value -> Value -> bool;
  prim_ge : Value -> Number -> bool;
  prim_loose_eq : Value -> Value -> bool;
  array_sort :
    (gmap string JValue -> gmap string JValue -> Result Z) ->
    list (gmap string JValue) -> Result (list (gmap string JValue));
  toLowerCase : string -> string;
  toUpperCase : string -> string;
  mean_rounded : Prim -> Z -> Number;
  mean_fixed : Prim -> Z -> string;
  same_year : Value -> string -> bool;
  same_month : Value -> string -> bool;
  toLowerCase_ascii :
    forall s, is_ascii s = true -> toLowerCase s = lowercase_ascii s;
  toUpperCase_ascii :
    forall s, is_ascii s = true -> toUpperCase s = uppercase_ascii s;
  toLowerCase_empty : forall s, toLowerCase s = "" -> s = "";
  toUpperCase_capitals : forall s, has_lower (toUpperCase s) = false
}.

(** ToPrimitive: an array or an object of the document becomes its text,
    or the conversion throws; a native member becomes its text. *)
Definition to_primitive (x : Value) : Result Value :=
  match x with
  | VJson (JArr _) | VJson (JObj _) =>
      let+ t := value_text x in
      Ok (VJson (JStr t))
  | VNative k => Ok (VJson (JStr (native_text k)))
  | _ => Ok x
  end.

Section Operators.

Context {engine : Engine}.

(** [x < y]. *)
Definition js_lt (x y : Value) : Result bool :=
  let+ px := to_primitive x in
  let+ py := to_primitive y in
  Ok (prim_lt px py).

(** [x >= n] for a number [n]. *)
Definition js_ge (x : Value) (n : Number) : Result bool :=
  let+ px := to_primitive x in
  Ok (prim_ge px n).

(** [x == y] between values of two different documents: two arrays or
    objects are never the same reference, two native members are the same
    when they have the same name, [null] and [undefined] equal nothing but
    each other, and an object is compared with a primitive through its
    conversion. *)
Definition js_loose_eq (x y : Value) : Result bool :=
  let nullish v :=
    match v with
    | VUndefined | VJson JNull => true
    | _ => false
    end in
  match x, y with
  | VNative a, VNative b => Ok (String.eqb a b)
  | _, _ =>
      if primitive x && primitive y then Ok (prim_loose_eq x y)
      else if negb (primitive x) && negb (primitive y) then Ok false
      else if nullish x || nullish y then Ok false
      else
        let+ px := to_primitive x in
        let+ py := to_primitive y in
        Ok (prim_loose_eq px py)
  end.

(** [x.toLowerCase()] as a method call on an arbitrary value: only strings
    have the method. *)
Definition call_toLowerCase (x : Value) : Result string :=
  match x with
  | VJson (JStr s) => Ok (toLowerCase s)
  | _ => Raise TypeError
  end.

End Operators.

End JS.
Export JS.


(** ** Data model *)

(** A book is the object stored in the [books] array, with whatever
    properties it has. *)
Abbreviation Book := (gmap string JValue) (only parsing).

(** The metadata object, with the five properties the program writes; each
    may be missing from a document read from disk. *)
Record Metadata : Type := {
  createdAt : option string;
  lastAccess : option string;
  totalOperations : option Z;
  resetAt : option string;
  previousOperations : option Z
}.

(** The tenant document: [{ user, books, metadata }]; [metadata] may be
    missing, which the code allows for with [data.metadata?.]. *)
Record Doc : Type := {
  user : JValue;
  books : list Book;
  metadata : option Metadata
}.

(** The [pagination] argument of [getBooks] and the listing it returns. *)
Record Pagination : Type := {
  page : option JValue;
  limit : option JValue
}.

Record PageInfo : Type := {
  currentPage : Number;
  totalPages : Number;
  totalBooks : Z;
  booksPerPage : Number;
  hasNext : bool;
  hasPrev : bool
}.

Record Listing : Type := {
  listing_books : list Book;
  listing_pagination : PageInfo
}.

(** The value of [getStats].  [averageRating] is the number that
    [parseFloat] reads from the text held here. *)
Module Stats.
Record Library : Type := {
  totalBooks : Z;
  booksRead : Z;
  booksReading : Z;
  booksToRead : Z;
  booksAbandoned : Z
}.
Record Reading : Type := {
  totalPages : Prim;
  averagePages : Number;
  averageRating : string;
  booksThisYear : Z;
  booksThisMonth : Z
}.
Record Preferences : Type := {
  favoriteGenre : string;
  favoriteAuthor : string;
  topRatedBooks : list Book
}.
Record Timeline : Type := {
  firstBook : option JValue;
  lastBook : option JValue;
  mostProductiveDay : string
}.
Record t : Type := {
  library : Library;
  reading : Reading;
  preferences : Preferences;
  timeline : Timeline
}.
End Stats.

(** The value of [resetDatabase]. *)
Module ResetResult.
Record t : Type := {
  deletedBooks : Z;
  totalOperations : Z
}.
End ResetResult.

(** An HTTP response: [res.status(code).json(body)]. *)
Record Response : Type := {
  status : nat;
  body : JValue
}.

(** An object literal as it is serialised: properties whose value is
    [undefined] are left out. *)
Definition object_of (l : list (string * option JValue)) : gmap string JValue :=
  list_to_map (omap (fun e => pair e.1 <$> e.2) l).

Definition BOOK_STATUSES : list string :=
  [ "to-read"; "reading"; "read"; "abandoned" ].

(** ** Storage, clock and the effect monad *)

(** A path holds a parseable document, bytes that [JSON.parse] rejects, or
    cannot be opened at all. *)
Inductive File : Type :=
  | Holds (d : Doc)
  | Garbled
  | Denied.

Record World : Type := {
  files : gmap string File;
  journal : list (string * Doc);
  ticks : nat;
  clock : nat -> string
}.

Definition M (A : Type) : Type := World -> Result A * World.

Definition ret {A} (a : A) : M A := fun w => (Ok a, w).

Definition bind {A B} (m : M A) (k : A -> M B) : M B :=
  fun w =>
    match m w with
    | (Ok a, w') => k a w'
    | (Raise e, w') => (Raise e, w')
    end.

Definition throw {A} (e : Error) : M A := fun w => (Raise e, w).

Definition catch {A} (m : M A) (h : Error -> M A) : M A :=
  fun w =>
    match m w with
    | (Ok a, w') => (Ok a, w')
    | (Raise e, w') => h e w'
    end.

Definition lift {A} (r : Result A) : M A := fun w => (r, w).

Notation "'let*' x ':=' m 'in' k" := (bind m (fun x => k))
  (at level 10, x name, m at level 100, k at level 200, only parsing).

(** [new Date().toISOString()]. *)
Definition now : M string :=
  fun w =>
    (Ok (clock w (ticks w)),
     {| files := files w; journal := journal w;
        ticks := S (ticks w); clock := clock w |}).

(** [n] readings of the clock whose values are dropped. *)
Definition clock_reads (n : nat) : M unit :=
  fun w =>
    (Ok tt,
     {| files := files w; journal := journal w;
        ticks := (n + ticks w)%nat; clock := clock w |}).

(** [JSON.parse(await fs.readFile(path, 'utf8'))]. *)
Definition read_json (path : string) : M Doc :=
  fun w =>
    match files w !! path with
    | None => (Raise ENOENT, w)
    | Some Denied => (Raise EACCES, w)
    | Some Garbled => (Raise SyntaxError, w)
    | Some (Holds d) => (Ok d, w)
    end.

(** [await fs.writeFile(path, JSON.stringify(data, null, 2))]. *)
Definition write_json (path : string) (d : Doc) : M unit :=
  fun w =>
    match files w !! path with
    | Some Denied => (Raise EACCES, w)
    | _ =>
        (Ok tt,
         {| files := <[path := Holds d]> (files w);
            journal := journal w ++ [(path, d)];
            ticks := ticks w; clock := clock w |})
    end.

(** ** [DatabaseManager] *)

Section Manager.

Context {engine : Engine}.

(** The path below [__dirname].  [path.join] only normalises separators
    and dot segments, and the names that reach this function through
    [validateStudent] have neither. *)
Definition getDbPath (studentId : string) : string :=
  "data/db_" ++ toLowerCase studentId ++ ".json".

Definition createEmptyDb : M Doc :=
  let* created := now in
  let* accessed := now in
  ret {| user := JNull;
         books := [];
         metadata := Some {| createdAt := Some created;
                             lastAccess := Some accessed;
                             totalOperations := Some 0;
                             resetAt := None;
                             previousOperations := None |} |}.

Definition readStudentDb (studentId : string) : M Doc :=
  catch (read_json (getDbPath studentId))
    (fun error =>
       match error with
       | ENOENT => createEmptyDb
       | _ => throw error
       end).

(** [x || 0] on an optional number. *)
Definition or_zero (x : option Z) : Z := default 0 x.

(** The metadata written by [writeStudentDb]: the old fields, with
    [lastAccess] and [totalOperations] replaced.  The counter is a double,
    and so is the sum. *)
Definition stamp (md : option Metadata) (t : string) : Metadata :=
  {| createdAt := md ≫= createdAt;
     lastAccess := Some t;
     totalOperations := Some (num_succ (or_zero (md ≫= totalOperations)));
     resetAt := md ≫= resetAt;
     previousOperations := md ≫= previousOperations |}.

Definition writeStudentDb (studentId : string) (data : Doc) : M Doc :=
  let dbPath := getDbPath studentId in
  let* t := now in
  let data :=
    {| user := user data; books := books data;
       metadata := Some (stamp (metadata data) t) |} in
  let* _ := write_json dbPath data in
  ret data.

(** *** Queries *)

(** [book.genre?.toLowerCase().includes(needle.toLowerCase())], and the same
    for [author]: the optional chain stops at a null or missing field. *)
Definition field_includes (field : string) (needle : JValue) (book : Book)
  : Result bool :=
  match book !! field with
  | None | Some JNull => Ok false
  | Some v =>
      let+ hay := call_toLowerCase (VJson v) in
      let+ ndl := call_toLowerCase (VJson needle) in
      Ok (includes hay ndl)
  end.

(** The comparator handed to [books.sort]. *)
Definition compareBooks (sortField : string) (order : Z) (a b : Book)
  : Result Z :=
  let aVal := get a sortField in
  let bVal := get b sortField in
  let+ vals :=
    match aVal with
    | VJson (JStr s) =>
        let aLow := toLowerCase s in
        let+ bLow := call_toLowerCase bVal in
        Ok (VJson (JStr aLow), VJson (JStr bLow))
    | _ => Ok (aVal, bVal)
    end in
  let+ less := js_lt vals.1 vals.2 in
  if less then Ok (-1 * order)
  else
    let+ more := js_lt vals.2 vals.1 in
    if more then Ok (1 * order) else Ok 0.

(** The filtering and sorting part of [getBooks]: the sequence that is then
    cut into pages.  The rating to compare with is parsed at each call of
    the callback, and the sort field becomes a property key at each call of
    the comparator. *)
Definition selectBooks (filters : gmap string JValue) (all : list Book)
  : Result (list Book) :=
  let books := all in
  let+ books :=
    match filters !! "genre" with
    | Some g => if truthy g then filter_r (field_includes "genre" g) books
                else Ok books
    | None => Ok books
    end in
  let books :=
    if truthy_opt (filters !! "status")
    then filter (fun book => strict_eq (book !! "status") (filters !! "status")) books
    else books in
  let+ books :=
    match filters !! "author" with
    | Some a => if truthy a then filter_r (field_includes "author" a) books
                else Ok books
    | None => Ok books
    end in
  let+ books :=
    match filters !! "year" with
    | Some y => if truthy y
                then filter_r (fun book =>
                                 js_loose_eq (of_lookup (book !! "year")) (VJson y))
                       books
                else Ok books
    | None => Ok books
    end in
  let+ books :=
    if truthy_opt (filters !! "rating")
    then filter_r (fun book =>
                     let+ least := parseInt (filters !! "rating") in
                     js_ge (of_lookup (book !! "rating")) least)
           books
    else Ok books in
  match filters !! "sort" with
  | Some f =>
      if truthy f then
        let order := if strict_eq (filters !! "order") (Some (JStr "desc"))
                     then -1 else 1 in
        array_sort (fun a b =>
                      let+ sortField := ToString f in
                      compareBooks sortField order a b)
          books
      else Ok books
  | None => Ok books
  end.

(** [(page - 1) * limit] and [startIndex + limit]. *)
Definition startIndex (page limit : Number) : Number :=
  num_mul (num_add page (Finite (-1))) limit.

Definition endIndex (page limit : Number) : Number :=
  num_add (startIndex page limit) limit.

Definition paginate (books : list Book) (pagination : Pagination)
  : Result Listing :=
  let+ page := parseInt_or (page pagination) 1 in
  let+ limit := parseInt_or (limit pagination) 10 in
  let startIndex := startIndex page limit in
  let endIndex := endIndex page limit in
  let paginatedBooks := slice_at books startIndex endIndex in
  Ok {| listing_books := paginatedBooks;
        listing_pagination :=
          {| currentPage := page;
             totalPages := num_ceil_div (Z.of_nat (length books)) limit;
             totalBooks := Z.of_nat (length books);
             booksPerPage := limit;
             hasNext := num_lt endIndex (Finite (Z.of_nat (length books)));
             hasPrev := num_lt (Finite 1) page |} |}.

Definition getBooks (studentId : string) (filters : gmap string JValue)
    (pagination : Pagination) : M Listing :=
  let* db := readStudentDb studentId in
  let* books := lift (selectBooks filters (books db)) in
  lift (paginate books pagination).

(** [book => book.id === bookId]. *)
Definition has_id (bookId : string) (book : Book) : bool :=
  strict_eq (book !! "id") (Some (JStr bookId)).

(** *** Mutations *)

Definition allowedFields : list string :=
  [ "title"; "author"; "genre"; "year"; "pages"; "rating"; "status"; "notes" ].

(** The [allowedFields.forEach] loop of [updateBook]. *)
Definition applyAllowed (updateData : gmap string JValue) (book : Book) : Book :=
  foldl (fun book field =>
           match updateData !! field with
           | Some v => <[field := v]> book
           | None => book
           end) book allowedFields.

Definition updateBook (studentId bookId : string)
    (updateData : gmap string JValue) : M (option Book) :=
  let* db := readStudentDb studentId in
  match findIndex (has_id bookId) (books db) with
  | None => ret None
  | Some bookIndex =>
      let* t := now in
      let db :=
        {| user := user db;
           books := alter (fun book => <["updatedAt" := JStr t]>
                                         (applyAllowed updateData book))
                      bookIndex (books db);
           metadata := metadata db |} in
      let* _ := writeStudentDb studentId db in
      ret (books db !! bookIndex)
  end.

(** [splice(bookIndex, 1)] removes the element at [bookIndex] and yields
    it. *)
Definition deleteBook (studentId bookId : string) : M (option Book) :=
  let* db := readStudentDb studentId in
  match findIndex (has_id bookId) (books db) with
  | None => ret None
  | Some bookIndex =>
      let deletedBook := books db !! bookIndex in
      let db := {| user := user db;
                   books := delete bookIndex (books db);
                   metadata := metadata db |} in
      let* _ := writeStudentDb studentId db in
      ret deletedBook
  end.

(** *** Statistics *)

(** The value of a property of a counting object such as [genreCount]: a
    number, or the string that [+ 1] produces from a member inherited from
    [Object.prototype]. *)
Inductive Count : Type :=
  | CNum (n : Z)
  | CStr (s : string).

(** A counting object is the list of its own properties in creation
    order. *)
Fixpoint own (c : list (string * Count)) (k : string) : option Count :=
  match c with
  | [] => None
  | (k', v) :: r => if String.eqb k' k then Some v else own r k
  end.

Fixpoint assign (c : list (string * Count)) (k : string) (v : Count)
  : list (string * Count) :=
  match c with
  | [] => [(k, v)]
  | (k', v') :: r =>
      if String.eqb k' k then (k', v) :: r else (k', v') :: assign r k v
  end.

(** [count[g] = (count[g] || 0) + 1].  A first read of an inherited name
    finds the native member, which is truthy, and [+ 1] appends to its text;
    the assignment to [__proto__] of that string is ignored by the setter. *)
Definition bump (c : list (string * Count)) (g : string) : list (string * Count) :=
  match own c g with
  | Some (CNum n) => assign c g (CNum (n + 1))
  | Some (CStr s) =>
      assign c g (if String.eqb s "" then CNum 1 else CStr (s ++ "1"))
  | None =>
      if inherited g then
        if String.eqb g "__proto__" then c
        else assign c g (CStr (native_text g ++ "1"))
      else assign c g (CNum 1)
  end.

Definition tally (keys : list string) : list (string * Count) :=
  foldl bump [] keys.

(** [x > y] on two counts; a number against a string is a comparison with
    NaN. *)
Definition count_gt (x y : option Count) : bool :=
  match x, y with
  | Some (CNum a), Some (CNum b) => b <? a
  | Some (CStr a), Some (CStr b) => String.ltb b a
  | _, _ => false
  end.

(** A key is an array index when it is the canonical decimal form of an
    integer below [2^32 - 1]. *)
Definition array_index (k : string) : option Z :=
  match digits 10 k None with
  | Some n =>
      if String.eqb (pretty n) k && (n <=? 4294967294) then Some n else None
  | None => None
  end.

Fixpoint insert_index (e : Z * string) (l : list (Z * string))
  : list (Z * string) :=
  match l with
  | [] => [e]
  | e' :: r => if e.1 <? e'.1 then e :: l else e' :: insert_index e r
  end.

(** [Object.keys]: the array-index keys in ascending order, then the other
    keys in creation order. *)
Definition Object_keys (c : list (string * Count)) : list string :=
  let keys := map fst c in
  let indexed := omap (fun k => (fun n => (n, k)) <$> array_index k) keys in
  map snd (foldr insert_index [] indexed)
  ++ filter (fun k => array_index k = None) keys.

(** [keys.length > 0 ? keys.reduce((a, b) => count[a] > count[b] ? a : b)
    : 'N/A']. *)
Definition favorite (c : list (string * Count)) : string :=
  match Object_keys c with
  | [] => "N/A"
  | k :: ks =>
      foldl (fun a b => if count_gt (own c a) (own c b) then a else b) k ks
  end.

(** The keys counted for the favourite genre and the favourite author:
    each value becomes a property key, which throws for an object that
    cannot be converted. *)
Definition genre_keys (books : list Book) : Result (list string) :=
  map_r ToString
    (omap (fun b : Book =>
             match b !! "genre" with
             | Some g => if truthy g then Some g else None
             | None => None
             end) books).

Definition author_keys (books : list Book) : Result (list string) :=
  map_r (fun b : Book => ToString_opt (b !! "author")) books.

Definition count_status (books : list Book) (s : string) : Z :=
  Z.of_nat (length (filter (fun b : Book =>
                              strict_eq (b !! "status") (Some (JStr s))) books)).

(** [values.reduce((sum, x) => sum + x, 0)]. *)
Fixpoint sum_from (acc : Prim) (values : list Value) : Result Prim :=
  match values with
  | [] => Ok acc
  | x :: rest =>
      let+ acc := js_add acc x in
      sum_from acc rest
  end.

(** The truthy values of a field, in the order of the books. *)
Definition field_values (field : string) (books : list Book) : list Value :=
  omap (fun b : Book =>
          match b !! field with
          | Some v => if truthy v then Some (VJson v) else None
          | None => None
          end) books.

(** [books.filter(b => ...).length] for the two filters on [addedAt]: the
    callback makes the date of the book, which converts the value to a
    primitive, and then reads the clock. *)
Fixpoint count_dated (same : Value -> string -> bool) (books : list Book)
  : M Z :=
  match books with
  | [] => ret 0
  | b :: rest =>
      let* added := lift (to_primitive (of_lookup (b !! "addedAt"))) in
      let* t := now in
      let* n := count_dated same rest in
      ret ((if same added t then 1 else 0) + n)
  end.

Definition getStats (studentId : string) : M Stats.t :=
  let* db := readStudentDb studentId in
  let books := books db in
  let stats :=
    {| Stats.totalBooks := Z.of_nat (length books);
       Stats.booksRead := count_status books "read";
       Stats.booksReading := count_status books "reading";
       Stats.booksToRead := count_status books "to-read";
       Stats.booksAbandoned := count_status books "abandoned" |} in
  let pages := field_values "pages" books in
  let ratings := field_values "rating" books in
  (* the sum of the pages is taken twice, with the same outcome *)
  let* totalPages := lift (sum_from (PNum (Finite 0)) pages) in
  let averagePages :=
    if (0 <? length pages)%nat
    then mean_rounded totalPages (Z.of_nat (length pages))
    else Finite 0 in
  let* totalRating := lift (sum_from (PNum (Finite 0)) ratings) in
  let averageRating :=
    if (0 <? length ratings)%nat
    then mean_fixed totalRating (Z.of_nat (length ratings))
    else "0" in
  let* booksThisYear := count_dated same_year books in
  let* booksThisMonth := count_dated same_month books in
  let* genres := lift (genre_keys books) in
  let favoriteGenre := favorite (tally genres) in
  let* authors := lift (author_keys books) in
  let favoriteAuthor := favorite (tally authors) in
  let topRatedBooks :=
    map (fun b : Book =>
           object_of [("title", b !! "title"); ("rating", b !! "rating")])
      (slice (filter (fun b : Book =>
                        strict_eq (b !! "rating") (Some (JNum 5))) books) 0 3) in
  ret {| Stats.library := stats;
         Stats.reading :=
           {| Stats.totalPages := totalPages;
              Stats.averagePages := averagePages;
              Stats.averageRating := averageRating;
              Stats.booksThisYear := booksThisYear;
              Stats.booksThisMonth := booksThisMonth |};
         Stats.preferences :=
           {| Stats.favoriteGenre := favoriteGenre;
              Stats.favoriteAuthor := favoriteAuthor;
              Stats.topRatedBooks := topRatedBooks |};
         Stats.timeline :=
           {| Stats.firstBook :=
                match books with
                | [] => Some JNull
                | b :: _ => b !! "addedAt"
                end;
              Stats.lastBook :=
                match last books with
                | None => Some JNull
                | Some b => b !! "addedAt"
                end;
              Stats.mostProductiveDay := "Lunes" |} |}.

(** *** Reset *)

(** [s || fallback] on an optional string. *)
Definition nonempty (s : option string) : option string :=
  match s with
  | Some x => if String.eqb x "" then None else Some x
  | None => None
  end.

Definition resetDatabase (studentId : string) : M ResetResult.t :=
  let* db := readStudentDb studentId in
  let deletedCount := Z.of_nat (length (books db)) in
  let totalOps := or_zero (metadata db ≫= totalOperations) in
  let* created :=
    match nonempty (metadata db ≫= createdAt) with
    | Some c => ret c
    | None => now
    end in
  let* accessed := now in
  let* reset := now in
  let cleanDb :=
    {| user := user db;
       books := [];
       metadata := Some {| createdAt := Some created;
                           lastAccess := Some accessed;
                           totalOperations := Some 0;
                           resetAt := Some reset;
                           previousOperations := Some totalOps |} |} in
  let* _ := writeStudentDb studentId cleanDb in
  ret {| ResetResult.deletedBooks := deletedCount;
         ResetResult.totalOperations := totalOps |}.

(** ** Route handlers

    The bodies of the handlers, after [validateStudent] and [verifyToken]
    have let the request through. *)

Definition internal_error : Response :=
  {| status := 500;
     body := JObj {[ "error" := JStr "Error interno del servidor" ]} |}.

Definition book_not_found : Response :=
  {| status := 404;
     body := JObj {[ "error" := JStr "Libro no encontrado";
                     "code" := JStr "BOOK_NOT_FOUND" ]} |}.

Definition invalid_status : Response :=
  {| status := 400;
     body := JObj {[ "error" := JStr ("Estado inválido. Debe ser uno de: "
                                      ++ String.concat ", " BOOK_STATUSES);
                     "code" := JStr "INVALID_STATUS" ]} |}.

(** [BOOK_STATUSES.includes(x)]. *)
Definition valid_status (x : option JValue) : bool :=
  existsb (fun s => strict_eq (Some (JStr s)) x) BOOK_STATUSES.

(** [GET /:student/books]. *)
Definition get_books (studentId : string) (query : gmap string JValue)
  : M Response :=
  catch
    (let filters := query in
     let pagination := {| page := query !! "page"; limit := query !! "limit" |} in
     let* result := getBooks studentId filters pagination in
     let info := listing_pagination result in
     ret {| status := 200;
            body := JObj {[
              "books" := JArr (JObj <$> listing_books result);
              "pagination" := JObj {[
                "currentPage" := number_json (currentPage info);
                "totalPages" := number_json (totalPages info);
                "totalBooks" := JNum (totalBooks info);
                "booksPerPage" := number_json (booksPerPage info);
                "hasNext" := JBool (hasNext info);
                "hasPrev" := JBool (hasPrev info) ]};
              "filters" := JObj filters ]} |})
    (fun _ => ret internal_error).

(** [PUT /:student/books/:id]. *)
Definition put_book (studentId id : string) (updateData : gmap string JValue)
  : M Response :=
  catch
    (if truthy_opt (updateData !! "status")
        && negb (valid_status (updateData !! "status"))
     then ret invalid_status
     else
       let* book := updateBook studentId id updateData in
       match book with
       | None => ret book_not_found
       | Some book =>
           ret {| status := 200;
                  body := JObj {[
                    "message" := JStr "Libro actualizado exitosamente 📝";
                    "book" := JObj book ]} |}
       end)
    (fun _ => ret internal_error).

(** [DELETE /:student/books/:id]. *)
Definition delete_book (studentId id : string) : M Response :=
  catch
    (let* deletedBook := deleteBook studentId id in
     match deletedBook with
     | None => ret book_not_found
     | Some deletedBook =>
         ret {| status := 200;
                body := JObj {[
                  "message" := JStr "Libro eliminado de tu biblioteca 🗑️";
                  "deletedBook" := JObj (object_of [
                     ("id", deletedBook !! "id");
                     ("title", deletedBook !! "title");
                     ("author", deletedBook !! "author") ]) ]} |}
     end)
    (fun _ => ret internal_error).

End Manager.


(** ** Students, accounts and the remaining routes *)

Module Theme.
Record t : Type := {
  emoji : string;
  theme : string;
  color : string;
  description : string
}.
End Theme.

Module Student.
Record t : Type := {
  id : string;
  fullName : string;
  email : string;
  dbFile : string;
  theme : Theme.t
}.
End Student.

(** The [userData] argument of [createUser]. *)
Module UserData.
Record t : Type := {
  name : option JValue;
  email : option JValue;
  hashedPassword : option JValue
}.
End UserData.

(** What [createUser] comes to: the stored user, or the
    [Error('Usuario ya existe')] it throws for a tenant that has one. *)
Inductive Registration : Type :=
  | Registered (user : JValue)
  | UserExists.

(** What [jwt.verify] comes to: the decoded payload, a
    [TokenExpiredError], or any other error. *)
Inductive JwtOutcome : Type :=
  | Decoded (payload : gmap string JValue)
  | TokenExpired
  | TokenRejected.

Definition STUDENT_THEMES : list (string * Theme.t) :=
  [ ("ARGENIS", {| Theme.emoji := "🦅"; Theme.theme := "Águila Estudiosa";
                   Theme.color := "#1E40AF";
                   Theme.description := "Vuela alto en el conocimiento" |});
    ("CALEB", {| Theme.emoji := "🦁"; Theme.theme := "León Lector";
                 Theme.color := "#DC2626";
                 Theme.description := "Rey de la literatura" |});
    ("KATHERINE", {| Theme.emoji := "🦋"; Theme.theme := "Mariposa Sabia";
                     Theme.color := "#7C3AED";
                     Theme.description := "Transforma cada lectura" |});
    ("LUIS", {| Theme.emoji := "🐺"; Theme.theme := "Lobo Literario";
                Theme.color := "#059669";
                Theme.description := "Caza conocimiento en manada" |});
    ("SOFIA", {| Theme.emoji := "🦌"; Theme.theme := "Cierva Intelectual";
                 Theme.color := "#EA580C";
                 Theme.description := "Astuta coleccionista de sabiduría" |}) ].

(** [table[key]] on an object literal, given as its properties in order. *)
Fixpoint property {A} (table : list (string * A)) (key : string) : option A :=
  match table with
  | [] => None
  | (k, v) :: r => if String.eqb k key then Some v else property r key
  end.

Definition theme_of (key : string) : Theme.t :=
  default {| Theme.emoji := ""; Theme.theme := ""; Theme.color := "";
             Theme.description := "" |} (property STUDENT_THEMES key).

Definition STUDENTS : list (string * Student.t) :=
  [ ("ARGENIS", {| Student.id := "ARGENIS";
                   Student.fullName := "Argenis Bennett Cubero";
                   Student.email := "argenis@biblioteca.com";
                   Student.dbFile := "db_argenis.json";
                   Student.theme := theme_of "ARGENIS" |});
    ("CALEB", {| Student.id := "CALEB";
                 Student.fullName := "Caleb Masis Vasquez";
                 Student.email := "caleb@biblioteca.com";
                 Student.dbFile := "db_caleb.json";
                 Student.theme := theme_of "CALEB" |});
    ("KATHERINE", {| Student.id := "KATHERINE";
                     Student.fullName := "Katherine Denise Steward Vargas";
                     Student.email := "katherine@biblioteca.com";
                     Student.dbFile := "db_katherine.json";
                     Student.theme := theme_of "KATHERINE" |});
    ("LUIS", {| Student.id := "LUIS";
                Student.fullName := "Luis Salazar";
                Student.email := "luis@biblioteca.com";
                Student.dbFile := "db_luis.json";
                Student.theme := theme_of "LUIS" |});
    ("SOFIA", {| Student.id := "SOFIA";
                 Student.fullName := "Sofia Natasha Aguilar Chacon";
                 Student.email := "sofia@biblioteca.com";
                 Student.dbFile := "db_sofia.json";
                 Student.theme := theme_of "SOFIA" |}) ].

Definition theme_json (t : Theme.t) : JValue :=
  JObj {[ "emoji" := JStr (Theme.emoji t); "theme" := JStr (Theme.theme t);
          "color" := JStr (Theme.color t);
          "description" := JStr (Theme.description t) ]}.

Definition student_not_found : Response :=
  {| status := 404;
     body := JObj {[ "error" := JStr "Estudiante no encontrado";
                     "code" := JStr "STUDENT_NOT_FOUND";
                     "availableStudents" := JArr (JStr <$> map fst STUDENTS) ]} |}.

Section Accounts.

Context {engine : Engine}.

(** The [validateStudent] middleware on the path parameter: the response
    it sends, or the [studentId] and [studentConfig] it attaches to the
    request.  An upper-cased name has none of the letters [a] to [z] and
    so is never the name of a member inherited from [Object.prototype]:
    [STUDENTS[studentId]] reads own properties only. *)
Definition validateStudent (student : string)
  : Response + (string * Student.t) :=
  let studentId := toUpperCase student in
  if String.eqb studentId "" then inl student_not_found
  else
    match property STUDENTS studentId with
    | None => inl student_not_found
    | Some config => inr (studentId, config)
    end.

Definition createUser (studentId : string) (userData : UserData.t)
  : M Registration :=
  let* db := readStudentDb studentId in
  if truthy (user db) then ret UserExists
  else
    let userId := toLowerCase studentId ++ "_001" in
    let* created := now in
    let newUser :=
      JObj (object_of [
        ("id", Some (JStr userId));
        ("name", UserData.name userData);
        ("email", UserData.email userData);
        ("studentId", Some (JStr (toUpperCase studentId)));
        ("password", UserData.hashedPassword userData);
        ("createdAt", Some (JStr created));
        ("active", Some (JBool true)) ]) in
    let db := {| user := newUser; books := books db;
                 metadata := metadata db |} in
    let* _ := writeStudentDb studentId db in
    ret (Registered newUser).

Definition getUser (studentId : string) : M JValue :=
  let* db := readStudentDb studentId in
  ret (user db).

(** [db.books.find(book => book.id === bookId)]. *)
Definition getBookById (studentId bookId : string) : M (option Book) :=
  let* db := readStudentDb studentId in
  ret (find (has_id bookId) (books db)).

(** [x || fallback] on a property that may be missing. *)
Definition or_else (x : option JValue) (fallback : JValue) : JValue :=
  match x with
  | Some v => if truthy v then v else fallback
  | None => fallback
  end.

(** [addBook]; [uuid] is the value that [uuidv4()] returns. *)
Definition addBook (uuid : string) (studentId : string)
    (bookData : gmap string JValue) : M Book :=
  let* db := readStudentDb studentId in
  let* added := now in
  let* updated := now in
  let newBook : Book :=
    object_of [
      ("id", Some (JStr uuid));
      ("title", bookData !! "title");
      ("author", bookData !! "author");
      ("genre", Some (or_else (bookData !! "genre") JNull));
      ("year", Some (or_else (bookData !! "year") JNull));
      ("pages", Some (or_else (bookData !! "pages") JNull));
      ("rating", Some (or_else (bookData !! "rating") JNull));
      ("status", Some (or_else (bookData !! "status") (JStr "to-read")));
      ("notes", Some (or_else (bookData !! "notes") (JStr "")));
      ("addedAt", Some (JStr added));
      ("updatedAt", Some (JStr updated)) ] in
  let db := {| user := user db; books := books db ++ [newBook];
               metadata := metadata db |} in
  let* _ := writeStudentDb studentId db in
  ret newBook.

(** *** The [verifyToken] middleware

    [jwt_verify] is [jwt.verify(token, JWT_SECRET)]; a payload that is not
    an object has no [studentId] and is the empty payload.  The value is the
    response sent, or the user attached to the request. *)

(** The double quote character. *)
Definition dquote : string := String (Ascii.ascii_of_nat 34) EmptyString.

Definition auth_error (code : nat) (message tag : string) : Response :=
  {| status := code;
     body := JObj {[ "error" := JStr message; "code" := JStr tag ]} |}.

Definition no_token : Response :=
  auth_error 401
    ("Token requerido. Incluye " ++ dquote ++ "Authorization: Bearer {token}"
     ++ dquote)
    "NO_TOKEN".

(** [user.active] on a truthy value. *)
Definition active (user : JValue) : bool :=
  match user with
  | JObj m => truthy_opt (m !! "active")
  | _ => false
  end.

Definition verifyToken (jwt_verify : string -> JwtOutcome)
    (authorization : option string) (studentId : string)
  : M (Response + JValue) :=
  match authorization with
  | None =>
      ret (inl no_token)
  | Some authHeader =>
      if negb (starts_with "Bearer " authHeader) then
        ret (inl no_token)
      else
        let token := substring_from 7 authHeader in
        match jwt_verify token with
        | TokenExpired => ret (inl (auth_error 401 "Token expirado" "TOKEN_EXPIRED"))
        | TokenRejected => ret (inl (auth_error 401 "Token inválido" "INVALID_TOKEN"))
        | Decoded decoded =>
            if negb (strict_eq (decoded !! "studentId") (Some (JStr studentId)))
            then ret (inl (auth_error 403 "Token no válido para este estudiante"
                             "TOKEN_MISMATCH"))
            else
              catch
                (let* user := getUser studentId in
                 if negb (truthy user) || negb (active user)
                 then ret (inl (auth_error 403 "Usuario no encontrado o inactivo"
                                  "USER_INVALID"))
                 else ret (inr user))
                (fun _ => ret (inl (auth_error 401 "Token inválido"
                                      "INVALID_TOKEN")))
        end
  end.

(** *** Routes *)

Definition internal_error_coded : Response :=
  {| status := 500;
     body := JObj {[ "error" := JStr "Error interno del servidor";
                     "code" := JStr "INTERNAL_ERROR" ]} |}.

(** [{ ...user }] without its [password]. *)
Definition without_password (user : JValue) : JValue :=
  match user with
  | JObj m => JObj (delete "password" m)
  | other => other
  end.

(** [password.length < 6] on a truthy value: the length of a string or
    of an array, the [length] property of an object, [undefined] on a
    number or on [true]. *)
Definition too_short (password : JValue) : Result bool :=
  match password with
  | JStr s => Ok (utf16_length s <? 6)%nat
  | JArr l => Ok (length l <? 6)%nat
  | JObj m =>
      match m !! "length" with
      | Some v => js_lt (VJson v) (VJson (JNum 6))
      | None => Ok false
      end
  | _ => Ok false
  end.

(** [POST /:student/auth/register]; [hash] is [bcrypt.hash(password, 10)],
    [None] when it rejects. *)
Definition register (hash : JValue -> option string) (studentId : string)
    (studentConfig : Student.t) (body : gmap string JValue) : M Response :=
  match body !! "name", body !! "email", body !! "password" with
  | Some name, Some email, Some password =>
      if negb (truthy name) || negb (truthy email) || negb (truthy password)
      then ret {| status := 400;
                  body := JObj {[
                    "error" := JStr "Nombre, email y password son requeridos";
                    "code" := JStr "MISSING_FIELDS" ]} |}
      else
        match too_short password with
        | Raise _ => ret internal_error_coded
        | Ok true =>
            ret {| status := 400;
                   body := JObj {[
                     "error" := JStr "La contraseña debe tener al menos 6 caracteres";
                     "code" := JStr "PASSWORD_TOO_SHORT" ]} |}
        | Ok false =>
        match hash password with
        | None => ret internal_error_coded
        | Some hashedPassword =>
            catch
              (let* outcome :=
                 createUser studentId
                   {| UserData.name := Some name; UserData.email := Some email;
                      UserData.hashedPassword := Some (JStr hashedPassword) |} in
               match outcome with
               | UserExists =>
                   ret {| status := 409;
                          body := JObj {[
                            "error" := JStr "Ya existe un usuario registrado para este estudiante";
                            "code" := JStr "USER_ALREADY_EXISTS" ]} |}
               | Registered user =>
                   match name with
                   | JStr n =>
                       ret {| status := 201;
                              body := JObj {[
                                "message" :=
                                  JStr ("¡Bienvenido a tu biblioteca personal, "
                                        ++ first_word n ++ "! "
                                        ++ Theme.emoji (Student.theme studentConfig));
                                "user" := without_password user;
                                "theme" := theme_json (Student.theme studentConfig) ]} |}
                   | _ => ret internal_error_coded
                   end
               end)
              (fun _ => ret internal_error_coded)
        end
        end
  | _, _, _ =>
      ret {| status := 400;
             body := JObj {[
               "error" := JStr "Nombre, email y password son requeridos";
               "code" := JStr "MISSING_FIELDS" ]} |}
  end.

(** [POST /:student/books]. *)
Definition post_book (uuid : string) (studentId : string)
    (bookData : gmap string JValue) : M Response :=
  catch
    (if negb (truthy_opt (bookData !! "title"))
        || negb (truthy_opt (bookData !! "author"))
     then ret {| status := 400;
                 body := JObj {[
                   "error" := JStr "Título y autor son requeridos";
                   "code" := JStr "MISSING_REQUIRED_FIELDS" ]} |}
     else if truthy_opt (bookData !! "status")
             && negb (valid_status (bookData !! "status"))
     then ret invalid_status
     else
       let* book := addBook uuid studentId bookData in
       ret {| status := 201;
              body := JObj {[
                "message" := JStr "¡Libro agregado exitosamente a tu biblioteca! 📚";
                "book" := JObj book ]} |})
    (fun _ => ret internal_error).

(** [GET /:student/books/:id]. *)
Definition get_book (studentId id : string) : M Response :=
  catch
    (let* book := getBookById studentId id in
     match book with
     | None => ret book_not_found
     | Some book => ret {| status := 200; body := JObj {[ "book" := JObj book ]} |}
     end)
    (fun _ => ret internal_error).

(** [DELETE /:student/reset]; [!x || x !== c] is [x !== c] for a truthy
    constant [c]. *)
Definition delete_reset (studentId : string) (body : gmap string JValue)
  : M Response :=
  catch
    (if negb (strict_eq (body !! "confirmReset") (Some (JBool true)))
     then ret {| status := 400;
                 body := JObj {[
                   "error" := JStr ("Debes confirmar el reseteo con " ++ dquote
                                    ++ "confirmReset: true" ++ dquote);
                   "code" := JStr "CONFIRMATION_REQUIRED" ]} |}
     else if negb (strict_eq (body !! "confirmation")
                     (Some (JStr "DELETE_ALL_MY_DATA")))
     then ret {| status := 400;
                 body := JObj {[
                   "error" := JStr ("Debes incluir " ++ dquote
                                    ++ "confirmation: DELETE_ALL_MY_DATA"
                                    ++ dquote);
                   "code" := JStr "INVALID_CONFIRMATION" ]} |}
     else
       let* result := resetDatabase studentId in
       let* answered := now in
       ret {| status := 200;
              body := JObj {[
                "message" := JStr "🚨 Base de datos completamente reseteada";
                "warning" := JStr "Todos tus libros han sido eliminados permanentemente";
                "student" := JStr studentId;
                "resetAt" := JStr answered;
                "deletedItems" := JObj {[
                  "deletedBooks" := JNum (ResetResult.deletedBooks result);
                  "totalOperations" := JNum (ResetResult.totalOperations result) ]};
                "nextStep" := JStr "Puedes comenzar a agregar libros nuevamente" ]} |})
    (fun _ => ret internal_error).

End Accounts.


(** ** A reference engine

    An instance of [Engine] for running the model on examples: V8 on
    ASCII text, with the server in the UTC time zone.  Numbers are
    doubles, computed exactly; the case mappings are those of the ASCII
    letters and leave every other character as it is, which is what V8
    does on ASCII text only; a date is read from text in the form
    [toISOString] writes, which is the form the program stores, and other
    text counts as no date. *)

Module Reference.

(** *** Doubles *)

(** A finite double is [m * 2^e]. *)
Inductive Double : Type :=
  | Fin (m e : Z)
  | Inf (negative : bool)
  | NoNumber.

(** The double nearest to [p / q] for [q > 0], ties going to the even
    significand; the exponent stops at that of the subnormal numbers. *)
Definition nearest (p q : Z) : Double :=
  if p =? 0 then Fin 0 0
  else
    let a := Z.abs p in
    let k := Z.log2 a - Z.log2 q in
    let below := if 0 <=? k then a <? q * 2 ^ k else a * 2 ^ (- k) <? q in
    let k := if below then k - 1 else k in
    let e := Z.max (k - 52) (-1074) in
    let num := if 0 <=? e then a else a * 2 ^ (- e) in
    let den := if 0 <=? e then q * 2 ^ e else q in
    let q0 := num / den in
    let r := num mod den in
    let m := if (den <? 2 * r) || ((2 * r =? den) && Z.odd q0)
             then q0 + 1 else q0 in
    if 2 ^ 1024 <=? m * 2 ^ e then Inf (p <? 0)
    else Fin (if p <? 0 then - m else m) e.

Definition of_number (x : Number) : Double :=
  match x with
  | Finite n => nearest n 1
  | PosInf => Inf false
  | NegInf => Inf true
  | NaN => NoNumber
  end.

(** The order of two doubles, [None] when one is NaN. *)
Definition compare (x y : Double) : option comparison :=
  match x, y with
  | NoNumber, _ | _, NoNumber => None
  | Inf a, Inf b =>
      Some (if a then (if b then Eq else Lt) else (if b then Gt else Eq))
  | Inf a, Fin _ _ => Some (if a then Lt else Gt)
  | Fin _ _, Inf b => Some (if b then Gt else Lt)
  | Fin m1 e1, Fin m2 e2 =>
      let e := Z.min e1 e2 in
      Some (m1 * 2 ^ (e1 - e) ?= m2 * 2 ^ (e2 - e))
  end.

(** [x / n] for an integer [n > 0]. *)
Definition divide (x : Double) (n : Z) : Double :=
  match x with
  | Fin m e => nearest (m * 2 ^ Z.max e 0) (n * 2 ^ Z.max (- e) 0)
  | other => other
  end.

(** [Math.round]: the nearest integer, halves going up. *)
Definition round (x : Double) : Number :=
  match x with
  | Fin m e =>
      if 0 <=? e then Finite (m * 2 ^ e)
      else Finite ((2 * m + 2 ^ (- e)) / 2 ^ (1 - e))
  | Inf false => PosInf
  | Inf true => NegInf
  | NoNumber => NaN
  end.

(** [x.toFixed(1)]: the tenths nearest to the magnitude, halves going up,
    and the text of the number itself from [1e21] on. *)
Definition fixed1 (x : Double) : string :=
  match x with
  | Fin m e =>
      let a := Z.abs m in
      if (0 <=? e) && (10 ^ 21 <=? a * 2 ^ e) then integer_text (m * 2 ^ e)
      else
        let tenths :=
          if 0 <=? e then 10 * a * 2 ^ e
          else (20 * a + 2 ^ (- e)) / 2 ^ (1 - e) in
        (if m <? 0 then "-" else "")
        ++ pretty (tenths / 10) ++ "." ++ pretty (tenths mod 10)
  | Inf false => "Infinity"
  | Inf true => "-Infinity"
  | NoNumber => "NaN"
  end.

(** *** StringToNumber *)

(** The value and the number of the digits at the front, and the rest. *)
Fixpoint span_digits (radix : Z) (s : string) (value count : Z)
  : Z * Z * string :=
  match s with
  | EmptyString => (value, count, s)
  | String c r =>
      match digit_value radix c with
      | Some d => span_digits radix r (radix * value + d) (count + 1)
      | None => (value, count, s)
      end
  end.

Definition blank (s : string) : bool := String.eqb (skip_spaces s) "".

(** A run of digits in the radix of a prefix such as [0x], and nothing but
    white space after it. *)
Definition prefixed (radix : Z) (s : string) : Double :=
  let '(value, count, rest) := span_digits radix s 0 0 in
  if (0 <? count) && blank rest then nearest value 1 else NoNumber.

(** [digits * 10^exponent], without the powers of ten that only give an
    infinity or a zero. *)
Definition scaled (negative : bool) (mantissa exponent : Z) : Double :=
  if mantissa =? 0 then Fin 0 0
  else
    let size := Z.of_nat (String.length (pretty mantissa)) + exponent in
    if 400 <? size then Inf negative
    else if size <? -400 then Fin 0 0
    else
      let signed := if negative then - mantissa else mantissa in
      nearest (signed * 10 ^ Z.max exponent 0) (10 ^ Z.max (- exponent) 0).

(** An optional power of ten, [e] followed by an integer, and the rest. *)
Definition span_exponent (s : string) : Z * string :=
  match s with
  | String "e" r | String "E" r =>
      let '(negative, r') :=
        match r with
        | String "-" t => (true, t)
        | String "+" t => (false, t)
        | _ => (false, r)
        end in
      let '(value, count, rest) := span_digits 10 r' 0 0 in
      if 0 <? count then (if negative then - value else value, rest)
      else (0, s)
  | _ => (0, s)
  end.

(** A decimal literal with an optional sign, and nothing but white space
    after it. *)
Definition decimal (s : string) : Double :=
  let '(negative, s) :=
    match s with
    | String "-" r => (true, r)
    | String "+" r => (false, r)
    | _ => (false, s)
    end in
  if starts_with "Infinity" s then
    if blank (substring_from 8 s) then Inf negative else NoNumber
  else
    let '(whole, n_whole, s) := span_digits 10 s 0 0 in
    let '(fraction, n_fraction, s) :=
      match s with
      | String "." r => span_digits 10 r 0 0
      | _ => (0, 0, s)
      end in
    let '(exponent, s) := span_exponent s in
    if (0 <? n_whole + n_fraction) && blank s
    then scaled negative (whole * 10 ^ n_fraction + fraction)
           (exponent - n_fraction)
    else NoNumber.

Definition string_to_number (s : string) : Double :=
  match skip_spaces s with
  | EmptyString => Fin 0 0
  | String "0" (String "x" r) | String "0" (String "X" r) => prefixed 16 r
  | String "0" (String "o" r) | String "0" (String "O" r) => prefixed 8 r
  | String "0" (String "b" r) | String "0" (String "B" r) => prefixed 2 r
  | s => decimal s
  end.

(** ToNumber on a primitive. *)
Definition to_number (x : Value) : Double :=
  match x with
  | VJson JNull => Fin 0 0
  | VJson (JBool b) => Fin (if b then 1 else 0) 0
  | VJson (JNum n) => nearest n 1
  | VJson (JStr s) => string_to_number s
  | _ => NoNumber
  end.

(** *** The operators on primitives *)

(** The order of two strings is that of their UTF-16 code units, in which
    the characters outside the basic plane come before those from U+E000
    on; in UTF-8 the latter start with the bytes [EE] and [EF]. *)
Definition unit_rank (c : ascii) : N :=
  let n := Ascii.N_of_ascii c in
  if ((n =? 238) || (n =? 239))%N then (n + 16)%N else n.

Fixpoint text_lt (a b : string) : bool :=
  match a, b with
  | _, EmptyString => false
  | EmptyString, String _ _ => true
  | String x a', String y b' =>
      if Ascii.eqb x y then text_lt a' b' else (unit_rank x <? unit_rank y)%N
  end.

Definition lt (x y : Value) : bool :=
  match x, y with
  | VJson (JStr a), VJson (JStr b) => text_lt a b
  | _, _ =>
      match compare (to_number x) (to_number y) with
      | Some Lt => true
      | _ => false
      end
  end.

Definition ge (x : Value) (n : Number) : bool :=
  match compare (to_number x) (of_number n) with
  | Some Lt | None => false
  | Some _ => true
  end.

Definition loose_eq (x y : Value) : bool :=
  match x, y with
  | VUndefined, VUndefined => true
  | VUndefined, VJson JNull | VJson JNull, VUndefined => true
  | VJson JNull, VJson JNull => true
  | VUndefined, _ | _, VUndefined | VJson JNull, _ | _, VJson JNull => false
  | VJson (JStr a), VJson (JStr b) => String.eqb a b
  | _, _ =>
      match compare (to_number x) (to_number y) with
      | Some Eq => true
      | _ => false
      end
  end.

(** *** The averages *)

Definition prim_number (p : Prim) : Double :=
  match p with
  | PNum x => of_number x
  | PText s => string_to_number s
  end.

Definition rounded_mean (sum : Prim) (n : Z) : Number :=
  round (divide (prim_number sum) n).

Definition fixed_mean (sum : Prim) (n : Z) : string :=
  fixed1 (divide (prim_number sum) n).

(** *** Dates *)

(** The year and the month, counted from 0, of a day counted from the
    first of January 1970. *)
Definition civil (day : Z) : Z * Z :=
  let z := day + 719468 in
  let era := z / 146097 in
  let doe := z - era * 146097 in
  let yoe := (doe - doe / 1460 + doe / 36524 - doe / 146096) / 365 in
  let doy := doe - (365 * yoe + yoe / 4 - yoe / 100) in
  let mp := (5 * doy + 2) / 153 in
  let month := if mp <? 10 then mp + 3 else mp - 9 in
  (yoe + era * 400 + (if month <=? 2 then 1 else 0), month - 1).

(** Exactly [n] decimal digits at the front. *)
Fixpoint fixed_digits (n : nat) (s : string) (value : Z) : option (Z * string) :=
  match n, s with
  | O, _ => Some (value, s)
  | S n', String c r =>
      match digit_value 10 c with
      | Some d => fixed_digits n' r (10 * value + d)
      | None => None
      end
  | S _, EmptyString => None
  end.

Definition expect (c : ascii) (s : string) : option string :=
  match s with
  | String c' r => if Ascii.eqb c c' then Some r else None
  | EmptyString => None
  end.

(** The year and month of text of the form [YYYY-MM-DDTHH:mm:ss.sssZ]. *)
Definition iso_year_month (s : string) : option (Z * Z) :=
  '(year, s) ← fixed_digits 4 s 0;
  s ← expect "-" s;
  '(month, s) ← fixed_digits 2 s 0;
  s ← expect "-" s;
  '(day, s) ← fixed_digits 2 s 0;
  s ← expect "T" s;
  '(hour, s) ← fixed_digits 2 s 0;
  s ← expect ":" s;
  '(minute, s) ← fixed_digits 2 s 0;
  s ← expect ":" s;
  '(second, s) ← fixed_digits 2 s 0;
  s ← expect "." s;
  '(_, s) ← fixed_digits 3 s 0;
  s ← expect "Z" s;
  if String.eqb s "" && (1 <=? month) && (month <=? 12)
     && (1 <=? day) && (day <=? 31) && (hour <=? 23) && (minute <=? 59)
     && (second <=? 59)
  then Some (year, month - 1)
  else None.

(** The year and month of [new Date(x)] for a primitive [x]; a number
    counts milliseconds and is a date up to 8.64e15 of them. *)
Definition year_month (x : Value) : option (Z * Z) :=
  let of_time (ms : Z) :=
    if Z.abs ms <=? 8640000000000000 then Some (civil (ms / 86400000))
    else None in
  match x with
  | VJson (JStr s) => iso_year_month s
  | VJson (JNum n) => of_time n
  | VJson JNull => of_time 0
  | VJson (JBool b) => of_time (if b then 1 else 0)
  | _ => None
  end.

Definition year_matches (x : Value) (t : string) : bool :=
  match year_month x, iso_year_month t with
  | Some (y, _), Some (y', _) => y =? y'
  | _, _ => false
  end.

Definition month_matches (x : Value) (t : string) : bool :=
  match year_month x, iso_year_month t with
  | Some (y, m), Some (y', m') => (y =? y') && (m =? m')
  | _, _ => false
  end.

(** *** Sorting *)

(** The sort of V8 on arrays below its merge threshold (64 elements): the
    leading run, ascending or strictly descending, is found by comparing
    each element with the one before it, a descending run is reversed, and
    the remaining elements are placed by binary insertion.  The comparator
    receives the later element first. *)
Fixpoint extend_run (cmp : Book -> Book -> Result Z) (descending : bool)
    (previous : Book) (rest : list Book) : Result (list Book * list Book) :=
  match rest with
  | [] => Ok ([], [])
  | current :: rest' =>
      let+ order := cmp current previous in
      if (if descending then 0 <=? order else order <? 0) then Ok ([], rest)
      else
        let+ r := extend_run cmp descending current rest' in
        Ok (current :: r.1, r.2)
  end.

Definition make_run (cmp : Book -> Book -> Result Z) (l : list Book)
  : Result (list Book * list Book) :=
  match l with
  | low :: high :: rest =>
      let+ order := cmp high low in
      let descending := order <? 0 in
      let+ r := extend_run cmp descending high rest in
      let run := low :: high :: r.1 in
      Ok (if descending then reverse run else run, r.2)
  | _ => Ok (l, [])
  end.

Fixpoint insertion_point (fuel : nat) (cmp : Book -> Book -> Result Z)
    (pivot : Book) (sorted : list Book) (left right : nat) : Result nat :=
  match fuel with
  | O => Ok left
  | S fuel =>
      if (left <? right)%nat then
        let mid := (left + (right - left) / 2)%nat in
        match sorted !! mid with
        | Some m =>
            let+ order := cmp pivot m in
            if order <? 0 then insertion_point fuel cmp pivot sorted left mid
            else insertion_point fuel cmp pivot sorted (S mid) right
        | None => Ok left
        end
      else Ok left
  end.

Definition insert_pivot (cmp : Book -> Book -> Result Z) (sorted : list Book)
    (pivot : Book) : Result (list Book) :=
  let+ i := insertion_point (S (length sorted)) cmp pivot sorted 0
              (length sorted) in
  Ok (take i sorted ++ pivot :: drop i sorted)%list.

Definition sort (cmp : Book -> Book -> Result Z) (l : list Book)
  : Result (list Book) :=
  let+ r := make_run cmp l in
  foldl (fun acc pivot => let+ sorted := acc in insert_pivot cmp sorted pivot)
    (Ok r.1) r.2.

#[global] Instance engine : Engine := {
  prim_lt := lt;
  prim_ge := ge;
  prim_loose_eq := loose_eq;
  array_sort := sort;
  toLowerCase := lowercase_ascii;
  toUpperCase := uppercase_ascii;
  mean_rounded := rounded_mean;
  mean_fixed := fixed_mean;
  same_year := year_matches;
  same_month := month_matches;
  toLowerCase_ascii := fun s _ => eq_refl;
  toUpperCase_ascii := fun s _ => eq_refl;
  toLowerCase_empty :=
    ltac:(intros [|c r]; [reflexivity|discriminate]);
  toUpperCase_capitals :=
    ltac:(intros s; induction s as [|c r IH]; [reflexivity|];
          cbn [uppercase_ascii has_lower]; rewrite IH, orb_false_r;
          destruct c as [[] [] [] [] [] [] [] []]; reflexivity)
}.

End Reference.


#[local] Open Scope list_scope.

(** ** Sample data *)

Module Sample.

Definition time (n : nat) : string :=
  ("2025-03-01T09:00:" ++ (if (n <? 10)%nat then "0" else "") ++ pretty n
   ++ ".000Z")%string.

Definition book (id title author : string) (genre : JValue) (status : string)
  : Book :=
  {[ "id" := JStr id; "title" := JStr title; "author" := JStr author;
     "genre" := genre; "year" := JNull; "pages" := JNull; "rating" := JNull;
     "status" := JStr status; "notes" := JStr "";
     "addedAt" := JStr "2024-11-05T08:30:00.000Z";
     "updatedAt" := JStr "2024-11-05T08:30:00.000Z" ]}.

Definition dune : Book := book "b1" "Dune" "Herbert" (JStr "SciFi") "to-read".
Definition emma : Book := book "b2" "Emma" "Austen" (JStr "Novel") "read".
Definition ulysses : Book := book "b3" "Ulysses" "Joyce" JNull "reading".
Definition hobbit : Book := book "b4" "The Hobbit" "Tolkien" (JStr "Fantasy") "read".
Definition solaris : Book := book "b5" "Solaris" "Lem" (JStr "SciFi") "abandoned".

Definition reader : JValue :=
  JObj {[ "id" := JStr "sofia_001"; "name" := JStr "Sofia";
          "email" := JStr "sofia@biblioteca.com"; "studentId" := JStr "SOFIA";
          "password" := JStr "$2b$10$hash";
          "createdAt" := JStr "2024-10-01T12:00:00.000Z"; "active" := JBool true ]}.

Definition document (books : list Book) (operations : Z) : Doc :=
  {| user := reader;
     books := books;
     metadata := Some {| createdAt := Some "2024-10-01T12:00:00.000Z";
                         lastAccess := Some "2024-11-05T08:30:00.000Z";
                         totalOperations := Some operations;
                         resetAt := None;
                         previousOperations := None |} |}.

(** A world in which SOFIA's document is [d] and nothing else is stored. *)
Definition world (d : Doc) : World :=
  {| files := {[ getDbPath "SOFIA" := Holds d ]};
     journal := [];
     ticks := 0;
     clock := time |}.

Definition library : list Book := [dune; emma; ulysses; hobbit; solaris].

End Sample.

(** ** Vocabulary of the statements *)

(** The tenant's file holds the document [d]. *)
Definition stored {engine : Engine} (w : World) (studentId : string) (d : Doc)
  : Prop :=
  files w !! getDbPath studentId = Some (Holds d).

(** The document [writeStudentDb] persists and returns. *)
Definition saved_doc (data : Doc) (t : string) : Doc :=
  {| user := user data; books := books data;
     metadata := Some (stamp (metadata data) t) |}.

(** The world after a successful [writeStudentDb]. *)
Definition after_save {engine : Engine} (w : World) (studentId : string)
    (d : Doc) : World :=
  {| files := <[getDbPath studentId := Holds d]> (files w);
     journal := journal w ++ [(getDbPath studentId, d)];
     ticks := S (ticks w);
     clock := clock w |}.

(** The world after one reading of the clock. *)
Definition tick (w : World) : World :=
  {| files := files w; journal := journal w;
     ticks := S (ticks w); clock := clock w |}.

(** The record [updateBook] leaves in place of [book]. *)
Definition updated (updateData : gmap string JValue) (t : string) (book : Book)
  : Book :=
  <["updatedAt" := JStr t]> (applyAllowed updateData book).

(** The slice [[lo, hi)] of a sequence as the specification words it: the
    elements whose position [i], counted from 0, satisfies
    [lo <= i < hi]. *)
Fixpoint positions_from {A} (i : Z) (l : list A) : list (Z * A) :=
  match l with
  | [] => []
  | x :: r => (i, x) :: positions_from (i + 1) r
  end.

Definition interval_slice {A} (l : list A) (lo hi : Z) : list A :=
  snd <$> filter (fun e => lo <= e.1 < hi) (positions_from 0 l).

(** A number that is at least [k]. *)
Definition at_least (x : Number) (k : Z) : Prop :=
  match x with
  | Finite v => k <= v
  | PosInf => True
  | _ => False
  end.

(** Fetching a run of pages one request after the other and appending
    their books. *)
Fixpoint fetch_pages {engine : Engine} (studentId : string) (filters : gmap string JValue)
    (limit : option JValue) (pages : list (option JValue)) : M (list Book) :=
  match pages with
  | [] => ret []
  | pg :: rest =>
      let* r := getBooks studentId filters {| page := pg; limit := limit |} in
      let* more := fetch_pages studentId filters limit rest in
      ret (listing_books r ++ more)
  end.

(** The value of a property converts to a primitive without throwing. *)
Definition converts (o : option JValue) : bool :=
  match to_primitive (of_lookup o) with
  | Ok _ => true
  | Raise _ => false
  end.

(** The fields that [getStats] adds up or turns into dates all convert. *)
Definition readable (b : Book) : bool :=
  converts (b !! "pages") && converts (b !! "rating")
  && converts (b !! "addedAt").

(** So do, moreover, the fields that it counts. *)
Definition countable (b : Book) : bool :=
  readable b && converts (b !! "genre") && converts (b !! "author").

(** The world after [n] readings of the clock. *)
Definition later (w : World) (n : nat) : World :=
  {| files := files w; journal := journal w;
     ticks := (n + ticks w)%nat; clock := clock w |}.

(** How many of the counted keys are [k]. *)
Definition occurrences (k : string) (keys : list string) : Z :=
  Z.of_nat (length (filter (fun x => x = k) keys)).

(** The distinct keys in the order of their first occurrence. *)
Definition first_seen (keys : list string) : list string :=
  foldl (fun acc k => if decide (k ∈ acc) then acc else acc ++ [k]) [] keys.

(** [fav] is, in the key order of the counting object, the last of the
    keys with the highest count. *)
Definition last_maximum (keys : list string) (fav : string) : Prop :=
  exists before after,
    Object_keys (tally keys) = before ++ fav :: after
    /\ fav ∈ keys
    /\ (forall k, occurrences k keys <= occurrences fav keys)
    /\ Forall (fun k => occurrences k keys < occurrences fav keys) after.

(** A computation that only reads: it changes no file and writes
    nothing. *)
Definition reads_only {A} (m : M A) : Prop :=
  forall w, files (m w).2 = files w /\ journal (m w).2 = journal w.

(** A computation that leaves the files, the journal and the clock
    function alone, whatever its outcome: at most it reads the clock. *)
Definition quiet {A} (m : M A) : Prop :=
  forall w,
    files (m w).2 = files w /\ journal (m w).2 = journal w
    /\ clock (m w).2 = clock w.

(** A computation whose writes all go to [path]: the other files are as
    they were and every new journal entry is for [path]. *)
Definition writes_only {A} (path : string) (m : M A) : Prop :=
  forall w,
    (forall p, p <> path -> files (m w).2 !! p = files w !! p)
    /\ exists entries,
         journal (m w).2 = journal w ++ entries
         /\ Forall (fun e => e.1 = path) entries.

(** The tenant's file is there and cannot be used: its bytes do not parse
    or it cannot be opened. *)
Definition faulty {engine : Engine} (w : World) (studentId : string) : Prop :=
  files w !! getDbPath studentId = Some Garbled
  \/ files w !! getDbPath studentId = Some Denied.

(** No two books of the sequence have the same [id] property. *)
Definition unique_ids (l : list Book) : Prop :=
  NoDup ((fun b : Book => b !! "id") <$> l).

(** The operation counter of a document, 0 when it is missing. *)
Definition operations (d : Doc) : Z := or_zero (metadata d ≫= totalOperations).

(** A value that is neither [null] nor a string. *)
Definition not_text (v : JValue) : Prop :=
  v <> JNull /\ forall s, v <> JStr s.

(** The record [addBook] builds from the request, the identifier drawn and
    the two clock readings. *)
Definition new_book (uuid : string) (bookData : gmap string JValue)
    (added updated : string) : Book :=
  object_of [
    ("id", Some (JStr uuid));
    ("title", bookData !! "title");
    ("author", bookData !! "author");
    ("genre", Some (or_else (bookData !! "genre") JNull));
    ("year", Some (or_else (bookData !! "year") JNull));
    ("pages", Some (or_else (bookData !! "pages") JNull));
    ("rating", Some (or_else (bookData !! "rating") JNull));
    ("status", Some (or_else (bookData !! "status") (JStr "to-read")));
    ("notes", Some (or_else (bookData !! "notes") (JStr "")));
    ("addedAt", Some (JStr added));
    ("updatedAt", Some (JStr updated)) ].

(** The properties a created book can have. *)
Definition book_fields : list string :=
  [ "id"; "title"; "author"; "genre"; "year"; "pages"; "rating"; "status";
    "notes"; "addedAt"; "updatedAt" ].

(** No book of the sequence has the identifier. *)
Definition fresh_id (id : string) (l : list Book) : Prop :=
  Forall (fun x : Book => x !! "id" <> Some (JStr id)) l.

(** The four status counters of [getStats] added up. *)
Definition counted (l : list Book) : Z :=
  count_status l "read" + count_status l "reading"
  + count_status l "to-read" + count_status l "abandoned".

(** Sample data for the accounts and the remaining routes. *)
Module Fixture.

Definition sofia : Student.t :=
  {| Student.id := "SOFIA";
     Student.fullName := "Sofia Natasha Aguilar Chacon";
     Student.email := "sofia@biblioteca.com";
     Student.dbFile := "db_sofia.json";
     Student.theme := theme_of "SOFIA" |}.

(** A document with books and no user yet. *)
Definition unregistered : Doc :=
  {| user := JNull; books := Sample.library; metadata := None |}.

Definition signup : gmap string JValue :=
  {[ "name" := JStr "Sofia Aguilar"; "email" := JStr "sofia@biblioteca.com";
     "password" := JStr "secreto1" ]}.

Definition hash (password : JValue) : option string :=
  match password with
  | JStr _ => Some "$2b$10$abcdefghijklmnopqrstuv"
  | _ => None
  end.

(** A verifier that knows one token for SOFIA and one that has expired. *)
Definition jwt (token : string) : JwtOutcome :=
  if String.eqb token "sofia.token" then
    Decoded {[ "userId" := JStr "sofia_001";
               "email" := JStr "sofia@biblioteca.com";
               "studentId" := JStr "SOFIA" ]}
  else if String.eqb token "old.token" then TokenExpired
  else TokenRejected.

(** A world in which SOFIA's file cannot be parsed. *)
Definition corrupt : World :=
  {| files := {[ getDbPath "SOFIA" := Garbled ]};
     journal := []; ticks := 0; clock := Sample.time |}.

(** A world with no file at all. *)
Definition blank : World :=
  {| files := ∅; journal := []; ticks := 0; clock := Sample.time |}.

Definition moby : gmap string JValue :=
  {[ "title" := JStr "Moby Dick"; "author" := JStr "Melville";
     "rating" := JNum 0; "genre" := JStr "" ]}.

End Fixture.

(** ** The JavaScript layer on examples *)

Example parseInt_examples :
  parseInt (Some (JStr "  42px")) = Ok (Finite 42)
  /\ parseInt (Some (JStr "-7")) = Ok (Finite (-7))
  /\ parseInt (Some (JStr "0x1F")) = Ok (Finite 31)
  /\ parseInt (Some (JStr "abc")) = Ok NaN
  /\ parseInt None = Ok NaN
  /\ parseInt (Some (JArr [JStr "3"])) = Ok (Finite 3)
  /\ parseInt (Some (JStr " 2")) = Ok (Finite 2)
  /\ parseInt (Some (JStr " ﻿ 2")) = Ok (Finite 2)
  /\ parseInt (Some (JStr "9007199254740993")) = Ok (Finite 9007199254740992)
  /\ parseInt (Some (JStr ("1" ++ String.concat "" (replicate 309 "0"))))
     = Ok PosInf
  /\ parseInt (Some (JObj {[ "toString" := JNum 1 ]})) = Raise TypeError
  /\ parseInt_or (Some (JStr "0")) 10 = Ok (Finite 10)
  /\ parseInt_or None 1 = Ok (Finite 1).
Proof. repeat split; vm_compute; reflexivity. Qed.

Example number_examples :
  num_succ 12 = 13
  /\ num_succ (2 ^ 53) = 2 ^ 53
  /\ num_add (Finite (2 ^ 53)) (Finite 3) = Finite (2 ^ 53 + 4)
  /\ num_mul (Finite 0) PosInf = NaN
  /\ num_ceil_div 5 PosInf = Finite 0
  /\ number_json PosInf = JNull.
Proof. repeat split; vm_compute; reflexivity. Qed.

Example slice_examples :
  slice [1; 2; 3; 4; 5] 2 4 = [3; 4]
  /\ slice [1; 2; 3; 4; 5] 4 10 = [5]
  /\ slice [1; 2; 3; 4; 5] 7 9 = []
  /\ slice [1; 2; 3; 4; 5] (-2) (-1) = [4]
  /\ slice [1; 2; 3; 4; 5] 0 (-3) = [1; 2]
  /\ slice_at [1; 2; 3; 4; 5] NaN NaN = []
  /\ slice_at [1; 2; 3; 4; 5] (Finite 3) PosInf = [4; 5].
Proof. repeat split; reflexivity. Qed.

Example ceil_div_examples :
  ceil_div 5 2 = 3 /\ ceil_div 4 2 = 2 /\ ceil_div 0 10 = 0
  /\ ceil_div 2 (-1) = -2.
Proof. repeat split; reflexivity. Qed.

Example ToString_examples :
  ToString (JArr [JNum 1; JNull; JArr [JStr "a"; JBool true]]) = Ok "1,,a,true"
  /\ ToString (JObj ∅) = Ok "[object Object]"
  /\ ToString (JObj {[ "toString" := JNum 1 ]}) = Raise TypeError
  /\ ToString (JArr [JNum 1; JObj {[ "toString" := JNull ]}]) = Raise TypeError
  /\ ToString (JNum (-12)) = Ok "-12"
  /\ ToString (JNum (10 ^ 21)) = Ok "1e+21"
  /\ ToString (JNum (2 ^ 70)) = Ok "1.1805916207174113e+21".
Proof. repeat split; vm_compute; reflexivity. Qed.

Example operator_examples :
  js_lt (VJson (JStr "10")) (VJson (JNum 9)) = Ok false
  /\ js_lt (VJson (JStr "1.5")) (VJson (JNum 2)) = Ok true
  /\ js_lt (VJson (JStr "a")) (VJson (JStr "b")) = Ok true
  /\ js_lt (VJson (JObj {[ "toString" := JNum 1 ]})) (VJson (JNum 2))
     = Raise TypeError
  /\ js_lt (VJson (JArr [JNum 1])) (VJson (JNum 2)) = Ok true
  /\ js_ge (VJson (JStr "4.5")) (Finite 4) = Ok true
  /\ js_ge VUndefined (Finite 4) = Ok false
  /\ js_loose_eq (VJson (JNum 1999)) (VJson (JStr "1999")) = Ok true
  /\ js_loose_eq (VJson JNull) VUndefined = Ok true
  /\ js_loose_eq (VJson JNull) (VJson (JObj {[ "toString" := JNum 1 ]}))
     = Ok false
  /\ js_loose_eq (VJson (JObj {[ "toString" := JNum 1 ]})) (VJson (JStr "x"))
     = Raise TypeError.
Proof. repeat split; vm_compute; reflexivity. Qed.

Example js_add_examples :
  sum_from (PNum (Finite 0)) [VJson (JNum 300); VJson (JNum 250)]
  = Ok (PNum (Finite 550))
  /\ sum_from (PNum (Finite 0)) [VJson (JStr "300"); VJson (JNum 250)]
     = Ok (PText "0300250")
  /\ sum_from (PNum (Finite 0)) [VJson (JBool true); VJson (JNum 2)]
     = Ok (PNum (Finite 3))
  /\ sum_from (PNum (Finite 0)) [VJson (JObj {[ "toString" := JNum 1 ]})]
     = Raise TypeError
  /\ mean_rounded (PNum (Finite 550)) 2 = Finite 275
  /\ mean_fixed (PNum (Finite 13)) 3 = "4.3"
  /\ mean_fixed (PNum (Finite 87)) 20 = "4.3"
  /\ mean_fixed (PNum (Finite 17)) 4 = "4.3".
Proof. repeat split; vm_compute; reflexivity. Qed.

Example length_examples :
  utf16_length "secreto1" = 8%nat
  /\ utf16_length "ñññ" = 3%nat
  /\ too_short (JStr "ñññ") = Ok true
  /\ too_short (JStr "secreto1") = Ok false
  /\ too_short (JObj {[ "length" := JNum 3 ]}) = Ok true
  /\ too_short (JObj {[ "length" := JObj {[ "toString" := JNum 1 ]} ]})
     = Raise TypeError
  /\ too_short (JNum 123456) = Ok false.
Proof. repeat split; vm_compute; reflexivity. Qed.

Example Object_keys_order :
  Object_keys (tally ["b"; "10"; "2"; "a"; "007"; "2"])
  = ["2"; "10"; "b"; "a"; "007"].
Proof. vm_compute. reflexivity. Qed.

Example tally_inherited_name :
  tally ["constructor"; "a"; "constructor"; "__proto__"]
  = [("constructor", CStr "function Object() { [native code] }11");
     ("a", CNum 1)].
Proof. vm_compute. reflexivity. Qed.

Example compareBooks_examples :
  compareBooks "title" 1 Sample.dune Sample.emma = Ok (-1)
  /\ compareBooks "title" (-1) Sample.dune Sample.emma = Ok 1
  /\ compareBooks "genre" 1 Sample.ulysses Sample.dune = Ok 0
  /\ compareBooks "genre" 1 Sample.dune Sample.ulysses = Raise TypeError
  /\ compareBooks "pages" 1 (<["pages" := JObj {[ "toString" := JNum 1 ]}]> Sample.dune)
       Sample.emma = Raise TypeError.
Proof. repeat split; vm_compute; reflexivity. Qed.

Example sort_by_title :
  selectBooks {[ "sort" := JStr "title" ]} Sample.library
  = Ok [Sample.dune; Sample.emma; Sample.solaris; Sample.hobbit; Sample.ulysses]
  /\ selectBooks {[ "sort" := JStr "title"; "order" := JStr "desc" ]}
       Sample.library
     = Ok [Sample.ulysses; Sample.hobbit; Sample.solaris; Sample.emma; Sample.dune]
  /\ selectBooks {[ "status" := JStr "read"; "genre" := JStr "FANT" ]}
       Sample.library
     = Ok [Sample.hobbit].
Proof. repeat split; vm_compute; reflexivity. Qed.

(** ** Object literals *)

(** Distinct literal keys. *)
Ltac distinct_keys :=
  repeat (apply NoDup_cons_2;
          [rewrite ?not_elem_of_cons; repeat split;
           first [discriminate | apply not_elem_of_nil]|]);
  apply NoDup_nil_2.

Lemma object_of_absent (l : list (string * option JValue)) k :
  k ∉ map fst l -> object_of l !! k = None.
Proof.
  unfold object_of. induction l as [|[k0 o] l IH]; intros Hk; simpl.
  - apply lookup_empty.
  - apply not_elem_of_cons in Hk as [Hne Hk].
    destruct o as [v|]; simpl; [|now apply IH].
    rewrite lookup_insert_ne by (intros ->; now apply Hne). now apply IH.
Qed.

(** A property of an object literal with distinct keys. *)
Lemma object_of_lookup (l : list (string * option JValue)) k :
  NoDup (map fst l) ->
  object_of l !! k = default None (property l k).
Proof.
  induction l as [|[k0 o] l IH]; intros Hnd.
  - apply lookup_empty.
  - inversion Hnd as [|? ? Hk0 Hnd']; subst. cbn [property].
    destruct (String.eqb_spec k0 k) as [->|Hne].
    + destruct o as [v|]; simpl.
      * unfold object_of. simpl. apply lookup_insert_eq.
      * change (object_of l !! k = None). now apply object_of_absent.
    + rewrite <- (IH Hnd'). unfold object_of. simpl.
      destruct o as [v|]; simpl; [|reflexivity].
      now rewrite lookup_insert_ne by congruence.
Qed.

(** ** The document store: save, load and reset *)

Section Store.

Context {engine : Engine}.

Implicit Types (s : string) (w : World) (d data db : Doc).

(** Up to [2^53] the counter is incremented exactly. *)
Lemma num_succ_exact n : - 2 ^ 53 <= n + 1 <= 2 ^ 53 -> num_succ n = n + 1.
Proof.
  intros H. unfold num_succ, to_double.
  destruct (Z.ltb_spec (Z.abs (n + 1)) (2 ^ 53)); [reflexivity|].
  assert (Hn : n + 1 = 2 ^ 53 \/ n + 1 = - 2 ^ 53) by lia.
  destruct Hn as [-> | ->]; vm_compute; reflexivity.
Qed.

Lemma readStudentDb_stored w s d :
  stored w s d -> readStudentDb s w = (Ok d, w).
Proof.
  intros H. unfold readStudentDb, catch, read_json. now rewrite H.
Qed.

Lemma writeStudentDb_ok w s data :
  files w !! getDbPath s <> Some Denied ->
  writeStudentDb s data w =
    (Ok (saved_doc data (clock w (ticks w))),
     after_save w s (saved_doc data (clock w (ticks w)))).
Proof.
  intros H. unfold writeStudentDb, bind, now, write_json. simpl.
  destruct (files w !! getDbPath s) as [[d| |]|] eqn:E; try reflexivity.
  congruence.
Qed.

(** A tenant without a file loads as a fresh empty document; nothing is
    written. *)
Lemma readStudentDb_missing w s :
  files w !! getDbPath s = None ->
  exists d w',
    readStudentDb s w = (Ok d, w')
    /\ books d = [] /\ user d = JNull
    /\ files w' = files w /\ journal w' = journal w.
Proof.
  intros H. eexists _, _. unfold readStudentDb, catch, read_json.
  rewrite H. unfold createEmptyDb, bind, now, ret. simpl.
  repeat split; reflexivity.
Qed.

(** A storage fault surfaces as the error and leaves the files alone. *)
Lemma writeStudentDb_denied w s data :
  files w !! getDbPath s = Some Denied ->
  (writeStudentDb s data w).1 = Raise EACCES
  /\ files (writeStudentDb s data w).2 = files w
  /\ journal (writeStudentDb s data w).2 = journal w.
Proof.
  intros H. unfold writeStudentDb, bind, now, write_json. simpl.
  rewrite H. repeat split; reflexivity.
Qed.

Lemma stored_after_save w s d : stored (after_save w s d) s d.
Proof. unfold stored, after_save. simpl. apply lookup_insert_eq. Qed.

Lemma stored_not_denied w s d :
  stored w s d -> files w !! getDbPath s <> Some Denied.
Proof. unfold stored. intros ->. discriminate. Qed.


(** *** Reset *)

Lemma resetDatabase_stored w s db :
  stored w s db ->
  let fresh := nonempty (metadata db ≫= createdAt) in
  let t0 := match fresh with Some _ => ticks w | None => S (ticks w) end in
  let clean :=
    saved_doc
      {| user := user db;
         books := [];
         metadata :=
           Some {| createdAt := Some (default (clock w (ticks w)) fresh);
                   lastAccess := Some (clock w t0);
                   totalOperations := Some 0;
                   resetAt := Some (clock w (S t0));
                   previousOperations :=
                     Some (or_zero (metadata db ≫= totalOperations)) |} |}
      (clock w (S (S t0))) in
  resetDatabase s w =
    (Ok {| ResetResult.deletedBooks := Z.of_nat (length (books db));
           ResetResult.totalOperations := or_zero (metadata db ≫= totalOperations) |},
     {| files := <[getDbPath s := Holds clean]> (files w);
        journal := journal w ++ [(getDbPath s, clean)];
        ticks := S (S (S t0));
        clock := clock w |}).
Proof.
  intros H. simpl. unfold resetDatabase.
  unfold bind at 1. rewrite (readStudentDb_stored _ _ _ H).
  pose proof (stored_not_denied _ _ _ H) as Hd.
  destruct (nonempty (metadata db ≫= createdAt)) as [c|] eqn:E;
    unfold bind, ret, now; simpl;
    rewrite writeStudentDb_ok by exact Hd; reflexivity.
Qed.

(** C1, as amended. For a tenant whose document is stored, [resetDatabase]
    persists a document with no books, the same [user], the original
    non-empty [createdAt], [previousOperations] set to the operation count
    before the reset and [resetAt] set to a clock reading taken during the
    reset; it returns the number of books removed and the count before the
    reset. The persisted [totalOperations] is 1: the counter is set to 0 and
    the save of the clean document counts as the first operation. *)
Theorem reset_restarts_counter s w db :
  stored w s db ->
  exists w' clean md,
    resetDatabase s w =
      (Ok {| ResetResult.deletedBooks := Z.of_nat (length (books db));
             ResetResult.totalOperations := or_zero (metadata db ≫= totalOperations) |},
       w')
    /\ stored w' s clean
    /\ journal w' = journal w ++ [(getDbPath s, clean)]
    /\ books clean = []
    /\ user clean = user db
    /\ metadata clean = Some md
    /\ totalOperations md = Some 1
    /\ previousOperations md = Some (or_zero (metadata db ≫= totalOperations))
    /\ (forall c, metadata db ≫= createdAt = Some c -> c <> "" ->
                  createdAt md = Some c)
    /\ (exists n, (ticks w <= n < ticks w')%nat /\ resetAt md = Some (clock w n)).
Proof.
  intros H. eexists _, _, _.
  split; [apply (resetDatabase_stored _ _ _ H)|].
  split; [unfold stored; simpl; apply lookup_insert_eq|].
  repeat (split; [reflexivity|]).
  split.
  - intros c Hc Hne. simpl. rewrite Hc. simpl.
    destruct (String.eqb c "") eqn:E; [apply String.eqb_eq in E; contradiction|].
    reflexivity.
  - simpl. eexists. split; [|reflexivity].
    destruct (nonempty _); simpl; lia.
Qed.

End Store.



Lemma reset_restarts_counter_witness :
  exists w' clean md,
    resetDatabase "SOFIA" (Sample.world (Sample.document Sample.library 12)) =
      (Ok {| ResetResult.deletedBooks := 5; ResetResult.totalOperations := 12 |}, w')
    /\ stored w' "SOFIA" clean
    /\ journal w' = [(getDbPath "SOFIA", clean)]
    /\ books clean = []
    /\ user clean = Sample.reader
    /\ metadata clean = Some md
    /\ totalOperations md = Some 1
    /\ previousOperations md = Some 12
    /\ (forall c, Some "2024-10-01T12:00:00.000Z" = Some c -> c <> "" ->
                  createdAt md = Some c)
    /\ (exists n, (0 <= n < ticks w')%nat /\ resetAt md = Some (Sample.time n)).
Proof.
  apply (reset_restarts_counter "SOFIA"
           (Sample.world (Sample.document Sample.library 12))
           (Sample.document Sample.library 12)).
  vm_compute. reflexivity.
Defined.

(** C1 as stated fails on the scenario of the specification: after a reset
    of a tenant with 5 books and operation counter 12 the persisted counter
    is 1, not 0. *)
Lemma reset_counter_is_one :
  let w' := (resetDatabase "SOFIA"
               (Sample.world (Sample.document Sample.library 12))).2 in
  exists clean md,
    stored w' "SOFIA" clean
    /\ books clean = []
    /\ metadata clean = Some md
    /\ previousOperations md = Some 12
    /\ totalOperations md = Some 1
    /\ totalOperations md <> Some 0.
Proof.
  eexists _, _. vm_compute. repeat split; try reflexivity. discriminate.
Qed.

(** ** Mutations: delete and update *)

Section Mutations.

Context {engine : Engine}.

Implicit Types (s id : string) (w : World) (d : Doc) (u : gmap string JValue).

Lemma findIndex_Some {A} (p : A -> bool) (l : list A) (i : nat) :
  findIndex p l = Some i <->
  exists x, l !! i = Some x /\ p x = true
            /\ forall j y, l !! j = Some y -> (j < i)%nat -> p y = false.
Proof.
  revert i. induction l as [|a l IH]; intros i; simpl.
  - split; [discriminate|]. intros (x & Hx & _). discriminate.
  - destruct (p a) eqn:Ha.
    + split.
      * intros [= <-]. exists a. repeat split; auto. intros j y _ Hj. lia.
      * intros (x & Hx & Hp & Hlt). destruct i as [|i]; [reflexivity|].
        specialize (Hlt 0%nat a eq_refl ltac:(lia)). congruence.
    + split.
      * destruct (findIndex p l) as [k|] eqn:E; [|discriminate].
        intros [= <-]. destruct (proj1 (IH k) eq_refl) as (x & Hx & Hp & Hlt).
        exists x. repeat split; auto.
        intros [|j] y Hy Hj; simpl in Hy; [congruence|].
        apply (Hlt j); [exact Hy|lia].
      * intros (x & Hx & Hp & Hlt). destruct i as [|i]; simpl in Hx.
        { congruence. }
        rewrite (proj2 (IH i)); [reflexivity|].
        exists x. repeat split; auto.
        intros j y Hy Hj. apply (Hlt (S j)); [exact Hy|lia].
Qed.

Lemma findIndex_None {A} (p : A -> bool) (l : list A) :
  findIndex p l = None <-> Forall (fun x => p x = false) l.
Proof.
  induction l as [|a l IH]; simpl.
  - split; auto.
  - destruct (p a) eqn:Ha.
    + split; [discriminate|]. intros H. inversion H; congruence.
    + destruct (findIndex p l); split; try discriminate; auto.
      * intros H. inversion H as [|? ? _ Hl]. apply IH in Hl. discriminate.
      * intros _. constructor; [exact Ha|]. now apply IH.
Qed.

Lemma has_id_true id (b : Book) :
  has_id id b = true <-> b !! "id" = Some (JStr id).
Proof.
  unfold has_id, strict_eq.
  destruct (b !! "id") as [[| | |x| |]|]; split; try discriminate.
  - intros H. apply String.eqb_eq in H. now subst.
  - intros [= ->]. apply String.eqb_refl.
Qed.

Lemma has_id_false id (b : Book) :
  has_id id b = false <-> b !! "id" <> Some (JStr id).
Proof.
  rewrite <- has_id_true. destruct (has_id id b); split; congruence.
Qed.

(** The index found in a sequence where exactly one book has the id. *)
Lemma findIndex_unique id (l1 l2 : list Book) (b : Book) :
  b !! "id" = Some (JStr id) ->
  Forall (fun x : Book => x !! "id" <> Some (JStr id)) l1 ->
  findIndex (has_id id) (l1 ++ b :: l2) = Some (length l1).
Proof.
  intros Hb H1. apply findIndex_Some. exists b. split; [|split].
  - now rewrite list_lookup_middle.
  - now apply has_id_true.
  - intros j y Hy Hj. rewrite lookup_app_l in Hy by exact Hj.
    apply has_id_false. rewrite Forall_forall in H1. apply H1.
    eapply list_elem_of_lookup_2, Hy.
Qed.

Lemma findIndex_absent id (l : list Book) :
  Forall (fun x : Book => x !! "id" <> Some (JStr id)) l ->
  findIndex (has_id id) l = None.
Proof.
  intros H. apply findIndex_None. eapply Forall_impl; [exact H|].
  intros x Hx. now apply has_id_false.
Qed.

Lemma delete_middle' {A} (l1 l2 : list A) (x : A) :
  delete (length l1) (l1 ++ x :: l2) = l1 ++ l2.
Proof. induction l1 as [|a l1 IH]; simpl; [reflexivity|]. now rewrite IH. Qed.

Lemma deleteBook_found s id w d i :
  stored w s d ->
  findIndex (has_id id) (books d) = Some i ->
  let d' := saved_doc {| user := user d; books := delete i (books d);
                         metadata := metadata d |} (clock w (ticks w)) in
  deleteBook s id w = (Ok (books d !! i), after_save w s d').
Proof.
  intros H Hi. simpl. unfold deleteBook, bind at 1.
  rewrite (readStudentDb_stored _ _ _ H), Hi.
  unfold bind. rewrite writeStudentDb_ok by exact (stored_not_denied _ _ _ H).
  reflexivity.
Qed.

Lemma deleteBook_missing s id w d :
  stored w s d ->
  findIndex (has_id id) (books d) = None ->
  deleteBook s id w = (Ok None, w).
Proof.
  intros H Hi. unfold deleteBook, bind.
  now rewrite (readStudentDb_stored _ _ _ H), Hi.
Qed.

(** C7. In a stored document whose book sequence is [l1 ++ b :: l2], where
    [b] is the only book with identifier [id], the first [DELETE] of [id]
    answers 200 with the message and a [deletedBook] object that has the
    [id], the [title] and the [author] of [b] and no other property, and
    persists the document with books [l1 ++ l2], one book shorter; the
    second [DELETE] answers 404 with the error [Libro no encontrado] and
    the code [BOOK_NOT_FOUND] and leaves the world as it was: no file
    changes and nothing is written. *)
Theorem delete_twice s id w d (l1 l2 : list Book) (b : Book) :
  stored w s d ->
  books d = l1 ++ b :: l2 ->
  b !! "id" = Some (JStr id) ->
  Forall (fun x : Book => x !! "id" <> Some (JStr id)) (l1 ++ l2) ->
  exists w1 d1 (deleted : gmap string JValue),
    delete_book s id w =
      (Ok {| status := 200;
             body := JObj {[
               "message" := JStr "Libro eliminado de tu biblioteca 🗑️";
               "deletedBook" := JObj deleted ]} |}, w1)
    /\ deleted !! "id" = Some (JStr id)
    /\ deleted !! "title" = b !! "title"
    /\ deleted !! "author" = b !! "author"
    /\ (forall k, k <> "id" -> k <> "title" -> k <> "author" ->
                  deleted !! k = None)
    /\ stored w1 s d1
    /\ journal w1 = journal w ++ [(getDbPath s, d1)]
    /\ files w1 = <[getDbPath s := Holds d1]> (files w)
    /\ books d1 = l1 ++ l2
    /\ S (length (books d1)) = length (books d)
    /\ user d1 = user d
    /\ delete_book s id w1 =
         (Ok {| status := 404;
                body := JObj {[ "error" := JStr "Libro no encontrado";
                                "code" := JStr "BOOK_NOT_FOUND" ]} |}, w1).
Proof.
  intros H Hl Hb Hothers.
  apply Forall_app in Hothers as [H1 H2].
  pose proof (findIndex_unique id l1 l2 b Hb H1) as Hi. rewrite <- Hl in Hi.
  pose proof (deleteBook_found s id w d _ H Hi) as Hdel. simpl in Hdel.
  assert (Hlook : books d !! length l1 = Some b)
    by (rewrite Hl; now apply list_lookup_middle).
  eexists _, _, _. split.
  { unfold delete_book, catch, bind. rewrite Hdel, Hlook. reflexivity. }
  assert (Hnd : NoDup (map fst [("id", b !! "id"); ("title", b !! "title");
                                ("author", b !! "author")]))
    by (simpl; distinct_keys).
  split; [rewrite object_of_lookup by exact Hnd; exact Hb|].
  split; [rewrite object_of_lookup by exact Hnd; reflexivity|].
  split; [rewrite object_of_lookup by exact Hnd; reflexivity|].
  split.
  { intros k K1 K2 K3. apply object_of_absent. simpl.
    rewrite !not_elem_of_cons. repeat split; auto. apply not_elem_of_nil. }
  split; [apply stored_after_save|].
  split; [reflexivity|].
  split; [reflexivity|].
  assert (Hrest : delete (length l1) (books d) = l1 ++ l2)
    by (rewrite Hl; apply delete_middle').
  split; [exact Hrest|].
  split.
  { simpl. rewrite Hrest, Hl, !length_app. simpl. lia. }
  split; [reflexivity|].
  unfold delete_book, catch, bind.
  erewrite deleteBook_missing; [reflexivity|apply stored_after_save|].
  simpl. rewrite Hrest. apply findIndex_absent. apply Forall_app. now split.
Qed.

(** *** Update *)

Lemma updateBook_found s id u w d i :
  stored w s d ->
  findIndex (has_id id) (books d) = Some i ->
  let books' := alter (updated u (clock w (ticks w))) i (books d) in
  let d' := saved_doc {| user := user d; books := books';
                         metadata := metadata d |} (clock w (S (ticks w))) in
  updateBook s id u w = (Ok (books' !! i), after_save (tick w) s d').
Proof.
  intros H Hi. simpl. unfold updateBook, bind at 1.
  rewrite (readStudentDb_stored _ _ _ H), Hi.
  unfold bind, now.
  rewrite writeStudentDb_ok by exact (stored_not_denied _ _ _ H).
  reflexivity.
Qed.

Lemma updateBook_missing s id u w d :
  stored w s d ->
  findIndex (has_id id) (books d) = None ->
  updateBook s id u w = (Ok None, w).
Proof.
  intros H Hi. unfold updateBook, bind.
  now rewrite (readStudentDb_stored _ _ _ H), Hi.
Qed.

Lemma apply_fields_lookup (u : gmap string JValue) (fields : list string)
    (b : Book) (f : string) :
  foldl (fun book field =>
           match u !! field with
           | Some v => <[field := v]> book
           | None => book
           end) b fields !! f
  = if decide (f ∈ fields)
    then match u !! f with Some v => Some v | None => b !! f end
    else b !! f.
Proof.
  revert b. induction fields as [|g fields IH]; intros b; simpl.
  - destruct (decide (f ∈ [])) as [Hin|_]; [inversion Hin|reflexivity].
  - rewrite IH.
    destruct (decide (f ∈ fields)) as [Hin|Hnin].
    + rewrite decide_True by (now right).
      destruct (u !! f) eqn:Ef; [reflexivity|].
      destruct (u !! g) eqn:Eg; [|reflexivity].
      rewrite lookup_insert_ne; [reflexivity|]. intros ->. congruence.
    + destruct (decide (f = g)) as [->|Hne].
      * rewrite decide_True by (now left).
        destruct (u !! g); [apply lookup_insert_eq|reflexivity].
      * rewrite decide_False by (intros [?|?]%elem_of_cons; contradiction).
        destruct (u !! g); [now rewrite lookup_insert_ne|reflexivity].
Qed.

Lemma updated_lookup u t (b : Book) f :
  updated u t b !! f
  = if decide (f = "updatedAt") then Some (JStr t)
    else if decide (f ∈ allowedFields)
         then match u !! f with Some v => Some v | None => b !! f end
         else b !! f.
Proof.
  unfold updated. destruct (decide (f = "updatedAt")) as [->|Hne].
  - apply lookup_insert_eq.
  - rewrite lookup_insert_ne by congruence. apply apply_fields_lookup.
Qed.

(** An update never changes the identifier of a book, so identifiers that
    are unique stay unique. *)
Lemma updated_keeps_id u t (b : Book) : updated u t b !! "id" = b !! "id".
Proof.
  rewrite updated_lookup. rewrite decide_False by discriminate.
  rewrite decide_False; [reflexivity|].
  intros Hin. unfold allowedFields in Hin.
  repeat (apply elem_of_cons in Hin as [Hin|Hin]; [discriminate|]).
  inversion Hin.
Qed.

(** C8, as amended. When [updateBook] finds the book, the record it
    persists and returns differs from the stored one only in the
    allow-listed fields that the request defines, which take the request's
    values, and in [updatedAt], which is set to the clock reading of the
    update. Every other field, whether or not the request names it, is as
    it was: absent if it was absent. The other books are untouched. *)
Theorem update_touches_allowed_and_updatedAt s id u w d i (book : Book) :
  stored w s d ->
  findIndex (has_id id) (books d) = Some i ->
  books d !! i = Some book ->
  exists w' d' (book' : Book),
    updateBook s id u w = (Ok (Some book'), w')
    /\ stored w' s d'
    /\ books d' !! i = Some book'
    /\ length (books d') = length (books d)
    /\ (forall j, j <> i -> books d' !! j = books d !! j)
    /\ (forall f,
          book' !! f
          = if decide (f = "updatedAt") then Some (JStr (clock w (ticks w)))
            else if decide (f ∈ allowedFields)
                 then match u !! f with Some v => Some v | None => book !! f end
                 else book !! f).
Proof.
  intros H Hi Hb.
  pose proof (updateBook_found s id u w d i H Hi) as Hup. simpl in Hup.
  assert (Hnew : alter (updated u (clock w (ticks w))) i (books d) !! i
                 = Some (updated u (clock w (ticks w)) book))
    by (now rewrite list_lookup_alter_eq, Hb).
  eexists _, _, _. split; [rewrite Hup, Hnew; reflexivity|].
  split; [apply stored_after_save|].
  split; [exact Hnew|].
  split; [simpl; apply length_alter|].
  split; [intros j Hj; simpl; now apply list_lookup_alter_ne|].
  apply updated_lookup.
Qed.

(** A request whose [status] is truthy and not one of [BOOK_STATUSES] is
    answered 400 before the document is even read. *)
Lemma put_book_rejects_invalid_status s id u w x :
  u !! "status" = Some x ->
  truthy x = true ->
  valid_status (Some x) = false ->
  put_book s id u w = (Ok invalid_status, w).
Proof.
  intros Hx Ht Hv. unfold put_book, catch. rewrite Hx. simpl. now rewrite Ht, Hv.
Qed.

End Mutations.

Lemma delete_twice_witness :
  exists w1 d1 (deleted : gmap string JValue),
    delete_book "SOFIA" "b3" (Sample.world (Sample.document Sample.library 12)) =
      (Ok {| status := 200;
             body := JObj {[
               "message" := JStr "Libro eliminado de tu biblioteca 🗑️";
               "deletedBook" := JObj deleted ]} |}, w1)
    /\ deleted !! "id" = Some (JStr "b3")
    /\ deleted !! "title" = Some (JStr "Ulysses")
    /\ deleted !! "author" = Some (JStr "Joyce")
    /\ (forall k, k <> "id" -> k <> "title" -> k <> "author" ->
                  deleted !! k = None)
    /\ stored w1 "SOFIA" d1
    /\ journal w1 = [(getDbPath "SOFIA", d1)]
    /\ files w1 = {[ getDbPath "SOFIA" := Holds d1 ]}
    /\ books d1 = [Sample.dune; Sample.emma; Sample.hobbit; Sample.solaris]
    /\ S (length (books d1)) = 5%nat
    /\ user d1 = Sample.reader
    /\ delete_book "SOFIA" "b3" w1 =
         (Ok {| status := 404;
                body := JObj {[ "error" := JStr "Libro no encontrado";
                                "code" := JStr "BOOK_NOT_FOUND" ]} |}, w1).
Proof.
  destruct (delete_twice "SOFIA" "b3"
              (Sample.world (Sample.document Sample.library 12))
              (Sample.document Sample.library 12)
              [Sample.dune; Sample.emma] [Sample.hobbit; Sample.solaris]
              Sample.ulysses) as (w1 & d1 & deleted & H).
  - vm_compute. reflexivity.
  - reflexivity.
  - vm_compute. reflexivity.
  - repeat constructor; vm_compute; discriminate.
  - exists w1, d1, deleted.
    destruct H as (H1 & H2 & H3 & H4 & H5 & H6 & H7 & H8 & H9 & H10 & H11 & H12).
    split; [exact H1|]. split; [exact H2|]. split; [exact H3|].
    split; [exact H4|]. split; [exact H5|]. split; [exact H6|].
    split; [exact H7|]. split; [rewrite H8; apply insert_insert_eq|].
    split; [exact H9|]. split; [exact H10|]. split; [exact H11|]. exact H12.
Defined.

Lemma update_touches_allowed_and_updatedAt_witness :
  exists w' d' (book' : Book),
    updateBook "SOFIA" "b2" {[ "rating" := JNum 4; "owner" := JStr "x" ]}
      (Sample.world (Sample.document Sample.library 12))
    = (Ok (Some book'), w')
    /\ stored w' "SOFIA" d'
    /\ books d' !! 1%nat = Some book'
    /\ length (books d') = 5%nat
    /\ (forall j, j <> 1%nat -> books d' !! j = Sample.library !! j)
    /\ (forall f,
          book' !! f
          = if decide (f = "updatedAt") then Some (JStr (Sample.time 0))
            else if decide (f ∈ allowedFields)
                 then match ({[ "rating" := JNum 4; "owner" := JStr "x" ]}
                               : gmap string JValue) !! f with
                      | Some v => Some v
                      | None => Sample.emma !! f
                      end
                 else Sample.emma !! f).
Proof.
  apply (update_touches_allowed_and_updatedAt "SOFIA" "b2"
           {[ "rating" := JNum 4; "owner" := JStr "x" ]}
           (Sample.world (Sample.document Sample.library 12))
           (Sample.document Sample.library 12) 1%nat Sample.emma).
  - vm_compute. reflexivity.
  - vm_compute. reflexivity.
  - reflexivity.
Defined.

(** C8 as stated fails: [updatedAt] is not on the allow-list, and an update
    that only sets the title changes it in the stored record. *)
Lemma update_changes_updatedAt :
  let w' := (updateBook "SOFIA" "b1" {[ "title" := JStr "Dune Messiah" ]}
               (Sample.world (Sample.document [Sample.dune] 3))).2 in
  exists d' (book' : Book),
    stored w' "SOFIA" d'
    /\ books d' = [book']
    /\ ("updatedAt" ∉ allowedFields)
    /\ Sample.dune !! "updatedAt" = Some (JStr "2024-11-05T08:30:00.000Z")
    /\ book' !! "updatedAt" = Some (JStr "2025-03-01T09:00:00.000Z")
    /\ book' !! "updatedAt" <> Sample.dune !! "updatedAt".
Proof.
  eexists _, _. split; [vm_compute; reflexivity|].
  split; [reflexivity|].
  split.
  { intros Hin. unfold allowedFields in Hin.
    repeat (apply elem_of_cons in Hin as [Hin|Hin]; [discriminate|]).
    inversion Hin. }
  split; [vm_compute; reflexivity|].
  split; [vm_compute; reflexivity|].
  vm_compute. discriminate.
Qed.

(** C3 fails for a status that is present but falsy: the route's guard
    [updateData.status && ...] skips the check, while [updateBook] copies
    every allow-listed field that is not [undefined]. [PUT] with
    [{"status": ""}] answers 200 and stores the empty string as the status
    of the book. *)
Lemma put_book_stores_empty_status :
  let request : gmap string JValue := {[ "status" := JStr "" ]} in
  let w := Sample.world (Sample.document [Sample.dune] 3) in
  let stored_book : Book :=
    <["status" := JStr ""]>
      (<["updatedAt" := JStr "2025-03-01T09:00:00.000Z"]> Sample.dune) in
  valid_status (request !! "status") = false
  /\ (put_book "SOFIA" "b1" request w).1
     = Ok {| status := 200;
             body := JObj {[
               "message" := JStr "Libro actualizado exitosamente 📝";
               "book" := JObj stored_book ]} |}
  /\ exists d', stored (put_book "SOFIA" "b1" request w).2 "SOFIA" d'
                /\ books d' = [stored_book].
Proof.
  split; [vm_compute; reflexivity|].
  split; [vm_compute; reflexivity|].
  eexists. split; vm_compute; reflexivity.
Qed.

(** ** Queries: pagination and sorting *)

Section Query.

Context {engine : Engine}.

Lemma positions_from_interval {A} (l : list A) (i lo hi : Z) :
  snd <$> filter (fun e => lo <= e.1 < hi) (positions_from i l)
  = take (Z.to_nat (hi - Z.max lo i)) (drop (Z.to_nat (lo - i)) l).
Proof.
  revert i. induction l as [|x l IH]; intros i.
  - now rewrite drop_nil, take_nil.
  - simpl positions_from. rewrite filter_cons. simpl.
    destruct (decide (lo <= i < hi)) as [Hin|Hout].
    + rewrite fmap_cons, IH. simpl.
      replace (Z.to_nat (lo - i)) with 0%nat by lia.
      replace (Z.to_nat (lo - (i + 1))) with 0%nat by lia.
      replace (Z.to_nat (hi - Z.max lo i))
        with (S (Z.to_nat (hi - Z.max lo (i + 1)))) by lia.
      reflexivity.
    + rewrite IH. destruct (Z_lt_le_dec i lo) as [Hlt|Hge].
      * replace (Z.to_nat (lo - i)) with (S (Z.to_nat (lo - (i + 1)))) by lia.
        simpl. f_equal. lia.
      * replace (Z.to_nat (hi - Z.max lo (i + 1))) with 0%nat by lia.
        replace (Z.to_nat (hi - Z.max lo i)) with 0%nat by lia.
        reflexivity.
Qed.

Lemma interval_slice_take_drop {A} (l : list A) (lo hi : Z) :
  0 <= lo ->
  interval_slice l lo hi = take (Z.to_nat (hi - lo)) (drop (Z.to_nat lo) l).
Proof.
  intros Hlo. unfold interval_slice. rewrite positions_from_interval.
  f_equal; f_equal; lia.
Qed.

Lemma slice_nonneg {A} (l : list A) (lo hi : Z) :
  0 <= lo -> 0 <= hi ->
  slice l lo hi = take (Z.to_nat (hi - lo)) (drop (Z.to_nat lo) l).
Proof.
  intros Hlo Hhi. unfold slice.
  destruct (lo <? 0) eqn:E1; [lia|]. destruct (hi <? 0) eqn:E2; [lia|].
  destruct (Z_lt_le_dec lo (Z.of_nat (length l))) as [Hin|Hout].
  - rewrite (Z.min_l lo) by lia.
    destruct (Z_le_gt_dec hi (Z.of_nat (length l))) as [Hh|Hh].
    + rewrite (Z.min_l hi) by lia. f_equal. lia.
    + rewrite (Z.min_r hi) by lia.
      rewrite !take_ge; [reflexivity| |]; rewrite length_drop; lia.
  - rewrite (drop_ge l (Z.to_nat lo)) by lia.
    rewrite (drop_ge l (Z.to_nat (Z.min lo _))) by lia.
    now rewrite !take_nil.
Qed.

Lemma slice_interval {A} (l : list A) (lo hi : Z) :
  0 <= lo -> 0 <= hi -> slice l lo hi = interval_slice l lo hi.
Proof.
  intros. rewrite slice_nonneg, interval_slice_take_drop by assumption.
  reflexivity.
Qed.

(** [ceil_div a n] is the least [T] with [a <= T * n]. *)
Lemma ceil_div_bounds (a n : Z) :
  1 <= n -> (ceil_div a n - 1) * n < a <= ceil_div a n * n.
Proof.
  intros Hn. unfold ceil_div.
  pose proof (Z.div_mod (- a) n ltac:(lia)) as Hdm.
  pose proof (Z.mod_pos_bound (- a) n ltac:(lia)) as Hm.
  nia.
Qed.

(** *** Doubles: exact below [2^53], never smaller than [2^53] above *)

Lemma to_double_small x : Z.abs x < 2 ^ 53 -> to_double x = Finite x.
Proof.
  intros H. unfold to_double.
  destruct (Z.ltb_spec (Z.abs x) (2 ^ 53)); [reflexivity|lia].
Qed.

Lemma to_double_large x : 2 ^ 53 <= x -> at_least (to_double x) (2 ^ 53).
Proof.
  intros Hx. unfold to_double. rewrite (Z.abs_eq x) by lia.
  destruct (Z.ltb_spec x (2 ^ 53)) as [Hlt|_]; [lia|].
  cbv zeta. set (e := Z.log2 x - 52).
  assert (He : 1 <= e).
  { pose proof (Z.log2_le_mono _ _ Hx) as Hl.
    rewrite Z.log2_pow2 in Hl by lia. subst e. lia. }
  assert (Hpe : 2 <= 2 ^ e).
  { change 2 with (2 ^ 1) at 1. apply Z.pow_le_mono_r; lia. }
  assert (Hq : 2 ^ 52 <= x / 2 ^ e).
  { apply Z.div_le_lower_bound; [lia|].
    rewrite <- Z.pow_add_r by lia.
    replace (e + 52) with (Z.log2 x) by (subst e; lia).
    apply Z.log2_spec. lia. }
  match goal with
  | |- context [if ?c then x / 2 ^ e + 1 else x / 2 ^ e] =>
      set (q' := if c then x / 2 ^ e + 1 else x / 2 ^ e)
  end.
  assert (Hq' : 2 ^ 52 <= q') by (subst q'; destruct (_ || _); lia).
  assert (Hv : 2 ^ 53 <= q' * 2 ^ e) by nia.
  destruct (2 ^ 1024 <=? q' * 2 ^ e).
  - destruct (Z.ltb_spec x 0); [lia|exact I].
  - rewrite Z.sgn_pos by lia. simpl. lia.
Qed.

Lemma to_double_at_least x k :
  0 <= k <= 2 ^ 53 -> k <= x -> at_least (to_double x) k.
Proof.
  intros Hk Hx. destruct (Z_lt_le_dec x (2 ^ 53)) as [Hs|Hl].
  - rewrite to_double_small by lia. exact Hx.
  - pose proof (to_double_large x Hl) as H.
    destruct (to_double x); simpl in *; try assumption; lia.
Qed.

Lemma slice_from_end {A} (l : list A) (start stop : Number) :
  at_least start (Z.of_nat (length l)) -> slice_at l start stop = [].
Proof.
  intros H. unfold slice_at, slice.
  assert (Hk : Z.of_nat (length l) <= slice_index start (Z.of_nat (length l)))
    by (destruct start; simpl in *; try lia; contradiction).
  destruct (Z.ltb_spec (slice_index start (Z.of_nat (length l))) 0); [lia|].
  rewrite (Z.min_r (slice_index start _)) by lia.
  rewrite drop_ge by lia. apply take_nil.
Qed.

Lemma slice_to_end {A} (l : list A) (lo : Z) (stop : Number) :
  0 <= lo -> at_least stop (Z.of_nat (length l)) ->
  slice_at l (Finite lo) stop = drop (Z.to_nat lo) l.
Proof.
  intros Hlo H. unfold slice_at, slice. simpl slice_index.
  set (len := Z.of_nat (length l)) in *.
  assert (Hk : len <= slice_index stop len)
    by (destruct stop; simpl in *; try lia; contradiction).
  destruct (Z.ltb_spec lo 0); [lia|].
  destruct (Z.ltb_spec (slice_index stop len) 0); [lia|].
  rewrite (Z.min_r (slice_index stop len)) by lia.
  destruct (Z_lt_le_dec lo len).
  - rewrite Z.min_l by lia. apply take_ge. rewrite length_drop. lia.
  - rewrite !drop_ge by lia. apply take_nil.
Qed.

Lemma start_index_cases (p n : Z) :
  1 <= p -> 1 <= n ->
  ((p - 1) * n < 2 ^ 53 /\ startIndex (Finite p) (Finite n) = Finite ((p - 1) * n))
  \/ (2 ^ 53 <= (p - 1) * n /\ at_least (startIndex (Finite p) (Finite n)) (2 ^ 53)).
Proof.
  intros Hp Hn. unfold startIndex. simpl num_add.
  replace (p + -1) with (p - 1) by lia.
  destruct (Z_lt_le_dec (p - 1) (2 ^ 53)) as [Hs|Hl].
  - rewrite to_double_small by lia. simpl num_mul.
    destruct (Z_lt_le_dec ((p - 1) * n) (2 ^ 53)) as [Hs'|Hl'].
    + left. split; [exact Hs'|]. apply to_double_small. nia.
    + right. split; [exact Hl'|]. now apply to_double_large.
  - right. split; [nia|].
    pose proof (to_double_large _ Hl) as Ha.
    destruct (to_double (p - 1)) as [a| | |]; simpl in Ha; try contradiction.
    + simpl num_mul. apply to_double_large. nia.
    + simpl. destruct (Z.eqb_spec n 0); [lia|].
      destruct (Z.ltb_spec 0 n); [exact I|lia].
Qed.

Lemma end_index_at_least (p n k : Z) :
  1 <= p -> 1 <= n -> 0 <= k <= 2 ^ 53 -> k <= p * n ->
  at_least (endIndex (Finite p) (Finite n)) k.
Proof.
  intros Hp Hn Hk Hle. unfold endIndex.
  destruct (start_index_cases p n Hp Hn) as [[Hs ->]|[Hl Ha]].
  - simpl num_add. apply to_double_at_least; [exact Hk|lia].
  - destruct (startIndex (Finite p) (Finite n)) as [a| | |]; simpl in Ha; try contradiction.
    + simpl num_add. apply to_double_at_least; [exact Hk|lia].
    + exact I.
Qed.

Lemma end_index_small (p n : Z) :
  1 <= p -> 1 <= n -> p * n < 2 ^ 53 -> endIndex (Finite p) (Finite n) = Finite (p * n).
Proof.
  intros Hp Hn Hs. unfold endIndex.
  destruct (start_index_cases p n Hp Hn) as [[_ ->]|[Hl _]]; [|nia].
  simpl num_add. rewrite to_double_small by nia. f_equal. lia.
Qed.

(** The slice of a page, for a sequence of at most [2^53] elements. *)
Lemma page_slice {A} (l : list A) (p n : Z) :
  1 <= p -> 1 <= n -> Z.of_nat (length l) <= 2 ^ 53 ->
  slice_at l (startIndex (Finite p) (Finite n)) (endIndex (Finite p) (Finite n))
  = take (Z.to_nat n) (drop (Z.to_nat ((p - 1) * n)) l).
Proof.
  intros Hp Hn Hlen.
  destruct (start_index_cases p n Hp Hn) as [[Hs Hst]|[Hl Ha]].
  - destruct (Z_lt_le_dec (p * n) (2 ^ 53)) as [Hes|Hel].
    + rewrite end_index_small, Hst by assumption.
      unfold slice_at. simpl slice_index. rewrite slice_nonneg by nia.
      f_equal. lia.
    + rewrite Hst, slice_to_end;
        [|nia|apply end_index_at_least; try assumption; lia].
      symmetry. apply take_ge. rewrite length_drop. nia.
  - rewrite slice_from_end.
    + rewrite drop_ge by nia. now rewrite take_nil.
    + destruct (startIndex (Finite p) (Finite n)); simpl in *; try assumption; lia.
Qed.

Lemma has_next_page (p n len : Z) :
  1 <= p -> 1 <= n -> 0 <= len <= 2 ^ 53 ->
  num_lt (endIndex (Finite p) (Finite n)) (Finite len) = bool_decide (p < ceil_div len n).
Proof.
  intros Hp Hn Hlen.
  pose proof (ceil_div_bounds len n Hn) as HT.
  destruct (Z_lt_le_dec (p * n) len) as [Hlt|Hge].
  - rewrite end_index_small by (assumption || lia). simpl.
    rewrite bool_decide_eq_true_2 by nia. apply Z.ltb_lt. exact Hlt.
  - rewrite bool_decide_eq_false_2 by nia.
    pose proof (end_index_at_least p n len Hp Hn Hlen Hge) as Ha.
    destruct (endIndex (Finite p) (Finite n)); simpl in *; try reflexivity; try contradiction.
    apply Z.ltb_ge. exact Ha.
Qed.

Lemma paginate_finite (l : list Book) pagination (p n : Z) :
  parseInt_or (page pagination) 1 = Ok (Finite p) ->
  parseInt_or (limit pagination) 10 = Ok (Finite n) ->
  paginate l pagination
  = Ok {| listing_books := slice_at l (startIndex (Finite p) (Finite n)) (endIndex (Finite p) (Finite n));
          listing_pagination :=
            {| currentPage := Finite p;
               totalPages := num_ceil_div (Z.of_nat (length l)) (Finite n);
               totalBooks := Z.of_nat (length l);
               booksPerPage := Finite n;
               hasNext := num_lt (endIndex (Finite p) (Finite n)) (Finite (Z.of_nat (length l)));
               hasPrev := num_lt (Finite 1) (Finite p) |} |}.
Proof. intros Hp Hn. unfold paginate. rewrite Hp, Hn. reflexivity. Qed.

Lemma getBooks_run s filters pagination w d w' l :
  readStudentDb s w = (Ok d, w') ->
  selectBooks filters (books d) = Ok l ->
  getBooks s filters pagination w = (paginate l pagination, w').
Proof.
  intros Hr Hs. unfold getBooks, bind, lift, ret. now rewrite Hr, Hs.
Qed.

(** C4, as amended. When the effective page number [p] and page size [n]
    (the parsed query values, 1 and 10 by default) are finite numbers, both
    at least 1, and the selection has at most [2^53] books, [getBooks]
    returns the slice [[(p-1)*n, p*n)] of the filtered and sorted sequence,
    and reports the current page [p], the page size [n], the number of
    matches, the total page count (the least [T] with [matches <= T * n],
    that is [ceil(matches / n)]), [hasNext] exactly when [p < T] and
    [hasPrev] exactly when [1 < p]; a page beyond [T] gives the empty slice
    with the same metadata and no error. *)
Theorem getBooks_page_slice s filters pagination w d w' l p n :
  readStudentDb s w = (Ok d, w') ->
  selectBooks filters (books d) = Ok l ->
  parseInt_or (page pagination) 1 = Ok (Finite p) ->
  parseInt_or (limit pagination) 10 = Ok (Finite n) ->
  1 <= p ->
  1 <= n ->
  Z.of_nat (length l) <= 2 ^ 53 ->
  let matches := Z.of_nat (length l) in
  exists r T,
    getBooks s filters pagination w = (Ok r, w')
    /\ listing_books r = interval_slice l ((p - 1) * n) (p * n)
    /\ listing_pagination r =
         {| currentPage := Finite p; totalPages := Finite T;
            totalBooks := matches;
            booksPerPage := Finite n;
            hasNext := bool_decide (p < T);
            hasPrev := bool_decide (1 < p) |}
    /\ T = ceil_div matches n
    /\ (T - 1) * n < matches <= T * n
    /\ (T < p -> listing_books r = []).
Proof.
  intros Hr Hs Hpage Hlimit Hp Hn Hlen matches.
  pose proof (ceil_div_bounds matches n Hn) as HT.
  eexists _, (ceil_div matches n).
  split.
  { rewrite (getBooks_run _ _ _ _ _ _ _ Hr Hs).
    rewrite (paginate_finite _ _ _ _ Hpage Hlimit). reflexivity. }
  assert (Hslice : slice_at l (startIndex (Finite p) (Finite n)) (endIndex (Finite p) (Finite n))
                   = interval_slice l ((p - 1) * n) (p * n)).
  { rewrite page_slice, interval_slice_take_drop by (assumption || nia).
    f_equal. f_equal. lia. }
  split; [exact Hslice|].
  split.
  { cbn [listing_pagination]. f_equal.
    - unfold num_ceil_div. destruct (Z.eqb_spec n 0); [lia|reflexivity].
    - apply has_next_page; try assumption. fold matches. lia.
    - simpl. destruct (Z.ltb_spec 1 p).
      + symmetry. now apply bool_decide_eq_true_2.
      + symmetry. apply bool_decide_eq_false_2. lia. }
  split; [reflexivity|].
  split; [exact HT|].
  intros Hout. cbn [listing_books]. rewrite Hslice.
  rewrite interval_slice_take_drop by nia.
  rewrite drop_ge by nia. apply take_nil.
Qed.

Lemma fetch_pages_run s filters lim (pages : list (option JValue))
    (numbers : list Z) w d l n :
  stored w s d ->
  selectBooks filters (books d) = Ok l ->
  parseInt_or lim 10 = Ok (Finite n) ->
  Forall2 (fun pg k => parseInt_or pg 1 = Ok (Finite k)) pages numbers ->
  fetch_pages s filters lim pages w
  = (Ok (concat ((fun k => slice_at l (startIndex (Finite k) (Finite n)) (endIndex (Finite k) (Finite n)))
                 <$> numbers)), w).
Proof.
  intros H Hs Hn Hpages.
  induction Hpages as [|pg k rest ks Hk _ IH]; simpl; [reflexivity|].
  unfold bind at 1.
  rewrite (getBooks_run s filters _ w d w l (readStudentDb_stored _ _ _ H) Hs).
  rewrite (paginate_finite l {| page := pg; limit := lim |} k n Hk Hn).
  unfold bind, ret. now rewrite IH.
Qed.

Lemma concat_pages {A} (l : list A) (n : Z) (j : nat) :
  1 <= n ->
  concat ((fun k => take (Z.to_nat n) (drop (Z.to_nat ((k - 1) * n)) l))
          <$> seqZ 1 (Z.of_nat j))
  = take (j * Z.to_nat n) l.
Proof.
  intros Hn. induction j as [|j IH].
  - reflexivity.
  - rewrite seqZ_S, fmap_app, concat_app, IH. simpl.
    rewrite app_nil_r.
    replace (Z.to_nat ((1 + Z.of_nat j - 1) * n)) with (j * Z.to_nat n)%nat by nia.
    rewrite take_take_drop. f_equal. lia.
Qed.

(** C5, as amended. For a stored document, any filters and sort under which
    the selection succeeds with at most [2^53] books, and a page size (the
    parsed [limit], 10 by default) that is a finite number of at least 1,
    requesting the pages 1, 2, ..., [totalPages] one after the other and
    appending their books gives back exactly the filtered and sorted
    sequence, and leaves the world unchanged. *)
Theorem pages_cover_selection s filters lim pages w d l n :
  stored w s d ->
  selectBooks filters (books d) = Ok l ->
  parseInt_or lim 10 = Ok (Finite n) ->
  1 <= n ->
  Z.of_nat (length l) <= 2 ^ 53 ->
  Forall2 (fun pg k => parseInt_or pg 1 = Ok (Finite k)) pages
    (seqZ 1 (ceil_div (Z.of_nat (length l)) n)) ->
  fetch_pages s filters lim pages w = (Ok l, w).
Proof.
  intros H Hs Hlim Hn Hlen Hpages.
  rewrite (fetch_pages_run s filters lim pages _ w d l n H Hs Hlim Hpages).
  do 2 f_equal.
  pose proof (ceil_div_bounds (Z.of_nat (length l)) _ Hn) as HT.
  set (T := ceil_div (Z.of_nat (length l)) n) in *.
  assert (HT0 : 0 <= T) by nia.
  transitivity
    (concat ((fun k => take (Z.to_nat n) (drop (Z.to_nat ((k - 1) * n)) l))
             <$> seqZ 1 T)).
  { f_equal. apply Forall_fmap_ext, Forall_forall. intros k Hk.
    apply elem_of_seqZ in Hk. apply page_slice; lia. }
  rewrite <- (Z2Nat.id T HT0), concat_pages by exact Hn.
  apply take_ge. nia.
Qed.

End Query.

Lemma getBooks_page_slice_witness :
  let pagination := {| page := Some (JStr "2"); limit := Some (JStr "2") |} in
  let w := Sample.world (Sample.document Sample.library 12) in
  exists r T,
    getBooks "SOFIA" ∅ pagination w = (Ok r, w)
    /\ listing_books r = interval_slice Sample.library ((2 - 1) * 2) (2 * 2)
    /\ listing_pagination r =
         {| currentPage := Finite 2; totalPages := Finite T; totalBooks := 5;
            booksPerPage := Finite 2;
            hasNext := bool_decide (2 < T);
            hasPrev := bool_decide (1 < 2) |}
    /\ T = ceil_div 5 2
    /\ (T - 1) * 2 < 5 <= T * 2
    /\ (T < 2 -> listing_books r = []).
Proof.
  apply (getBooks_page_slice "SOFIA" ∅
           {| page := Some (JStr "2"); limit := Some (JStr "2") |}
           (Sample.world (Sample.document Sample.library 12))
           (Sample.document Sample.library 12)
           (Sample.world (Sample.document Sample.library 12))
           Sample.library 2 2).
  - vm_compute. reflexivity.
  - reflexivity.
  - vm_compute. reflexivity.
  - vm_compute. reflexivity.
  - lia.
  - lia.
  - vm_compute. discriminate.
Defined.


(** C4 as stated fails for a page number or a page size below 1, which the
    code accepts. With two books, page -1 of size 1 is outside the pages
    1..2 and the slice [[-2, -1)] holds no position of the sequence, yet
    [slice] counts negative indices from the end and the first book is
    returned; page 1 of size -1 likewise returns the first book, with a
    total of -2 pages. *)
Lemma negative_page_returns_books :
  let all := [Sample.dune; Sample.emma] in
  let w := Sample.world (Sample.document all 3) in
  (exists r,
      getBooks "SOFIA" ∅
        {| page := Some (JStr "-1"); limit := Some (JStr "1") |} w = (Ok r, w)
      /\ currentPage (listing_pagination r) = Finite (-1)
      /\ booksPerPage (listing_pagination r) = Finite 1
      /\ totalPages (listing_pagination r) = Finite 2
      /\ interval_slice all ((-1 - 1) * 1) (-1 * 1) = []
      /\ listing_books r = [Sample.dune])
  /\ (exists r,
      getBooks "SOFIA" ∅
        {| page := Some (JStr "1"); limit := Some (JStr "-1") |} w = (Ok r, w)
      /\ currentPage (listing_pagination r) = Finite 1
      /\ booksPerPage (listing_pagination r) = Finite (-1)
      /\ totalPages (listing_pagination r) = Finite (-2)
      /\ interval_slice all ((1 - 1) * -1) (1 * -1) = []
      /\ listing_books r = [Sample.dune]).
Proof.
  split; eexists; (split; [vm_compute; reflexivity|]);
    repeat split; vm_compute; reflexivity.
Qed.

Lemma pages_cover_selection_witness :
  let pages := [Some (JStr "1"); Some (JStr "2"); Some (JStr "3")] in
  let w := Sample.world (Sample.document Sample.library 12) in
  fetch_pages "SOFIA" ∅ (Some (JStr "2")) pages w = (Ok Sample.library, w).
Proof.
  apply (pages_cover_selection "SOFIA" ∅ (Some (JStr "2"))
           [Some (JStr "1"); Some (JStr "2"); Some (JStr "3")]
           (Sample.world (Sample.document Sample.library 12))
           (Sample.document Sample.library 12) Sample.library 2).
  - vm_compute. reflexivity.
  - reflexivity.
  - vm_compute. reflexivity.
  - lia.
  - vm_compute. discriminate.
  - repeat constructor.
Defined.

(** C5 as stated fails for a page size below 1, which the code accepts:
    with one book and [limit=-1] the listing reports -1 pages in total, so
    there is no page from 1 up to [totalPages] and the concatenation is
    empty, while the selection holds the book. *)
Lemma negative_limit_leaves_no_pages :
  let all := [Sample.dune] in
  let lim := Some (JStr "-1") in
  let w := Sample.world (Sample.document all 3) in
  exists r,
    getBooks "SOFIA" ∅ {| page := None; limit := lim |} w = (Ok r, w)
    /\ booksPerPage (listing_pagination r) = Finite (-1)
    /\ totalPages (listing_pagination r) = Finite (-1)
    /\ seqZ 1 (-1) = []
    /\ fetch_pages "SOFIA" ∅ lim [] w = (Ok [], w)
    /\ selectBooks ∅ all = Ok all
    /\ all <> [].
Proof.
  eexists. split; [vm_compute; reflexivity|].
  repeat (split; [vm_compute; reflexivity|]). discriminate.
Qed.

(** *** The sort comparator *)

(** Whenever the first book's sort field is a string and the second's is
    anything else, the comparator throws. *)
Lemma compareBooks_raises {engine : Engine} f order (a b : Book) s :
  a !! f = Some (JStr s) ->
  (forall t, b !! f <> Some (JStr t)) ->
  compareBooks f order a b = Raise TypeError.
Proof.
  intros Ha Hb. unfold compareBooks, get. rewrite Ha.
  destruct (b !! f) as [[| | |t| |]|]; try reflexivity.
  - now destruct (Hb t).
  - now destruct (inherited f).
Qed.

(** C10 fails: the comparator lower-cases both values as soon as the first
    one is a string. Comparing a book whose genre is a string with one whose
    genre is [null] throws a [TypeError] under every engine, and listing
    with [sort=genre] three books of which the middle one has no genre is
    answered 500: whichever of two neighbours the engine passes first, one
    of the calls has the string first. *)
Lemma sort_by_genre_raises :
  (forall (engine : Engine) order,
      compareBooks "genre" order Sample.dune Sample.ulysses = Raise TypeError
      /\ compareBooks "genre" order Sample.emma Sample.ulysses = Raise TypeError)
  /\ let all := [Sample.dune; Sample.ulysses; Sample.emma] in
     let w := Sample.world (Sample.document all 3) in
     get_books "SOFIA" {[ "sort" := JStr "genre" ]} w = (Ok internal_error, w).
Proof.
  split.
  - intros E order. split.
    + apply (compareBooks_raises "genre" order _ _ "SciFi"); [reflexivity|].
      intros t. vm_compute. discriminate.
    + apply (compareBooks_raises "genre" order _ _ "Novel"); [reflexivity|].
      intros t. vm_compute. discriminate.
  - vm_compute. reflexivity.
Qed.

(** ** Frames: what an operation may touch *)

Lemma writes_only_ret {A} path (a : A) : writes_only path (ret a).
Proof.
  intros w. split; [auto|]. exists []. now rewrite app_nil_r.
Qed.

Lemma writes_only_throw {A} path e : writes_only path (@throw A e).
Proof.
  intros w. split; [auto|]. exists []. now rewrite app_nil_r.
Qed.

Lemma writes_only_lift {A} path (r : Result A) : writes_only path (lift r).
Proof.
  intros w. split; [auto|]. exists []. now rewrite app_nil_r.
Qed.

Lemma writes_only_now path : writes_only path now.
Proof.
  intros w. split; [auto|]. exists []. simpl. now rewrite app_nil_r.
Qed.

Lemma writes_only_clock_reads path n : writes_only path (clock_reads n).
Proof.
  intros w. split; [auto|]. exists []. simpl. now rewrite app_nil_r.
Qed.

Lemma writes_only_read_json path p : writes_only path (read_json p).
Proof.
  intros w. unfold read_json.
  destruct (files w !! p) as [[| |]|]; (split; [auto|]); exists [];
    now rewrite app_nil_r.
Qed.

Lemma writes_only_write_json path d : writes_only path (write_json path d).
Proof.
  intros w. unfold write_json.
  destruct (files w !! path) as [[| |]|]; simpl;
    try (split; [intros p Hp; now rewrite lookup_insert_ne by congruence|];
         exists [(path, d)]; split; [reflexivity|now repeat constructor]).
  split; [auto|]. exists []. now rewrite app_nil_r.
Qed.

Lemma writes_only_bind {A B} path (m : M A) (k : A -> M B) :
  writes_only path m -> (forall a, writes_only path (k a)) ->
  writes_only path (bind m k).
Proof.
  intros Hm Hk w. unfold bind.
  destruct (Hm w) as (Hf & e1 & Hj & He1).
  destruct (m w) as [[a|e] w1]; simpl in *.
  - destruct (Hk a w1) as (Hf2 & e2 & Hj2 & He2). split.
    + intros p Hp. rewrite Hf2, Hf by assumption. reflexivity.
    + exists (e1 ++ e2). rewrite Hj2, Hj, app_assoc. split; [reflexivity|].
      apply Forall_app. now split.
  - split; [exact Hf|]. now exists e1.
Qed.

Lemma writes_only_catch {A} path (m : M A) (h : Error -> M A) :
  writes_only path m -> (forall e, writes_only path (h e)) ->
  writes_only path (catch m h).
Proof.
  intros Hm Hh w. unfold catch.
  destruct (Hm w) as (Hf & e1 & Hj & He1).
  destruct (m w) as [[a|e] w1]; simpl in *.
  - split; [exact Hf|]. now exists e1.
  - destruct (Hh e w1) as (Hf2 & e2 & Hj2 & He2). split.
    + intros p Hp. rewrite Hf2, Hf by assumption. reflexivity.
    + exists (e1 ++ e2). rewrite Hj2, Hj, app_assoc. split; [reflexivity|].
      apply Forall_app. now split.
Qed.

Lemma reads_only_writes_only {A} path (m : M A) :
  reads_only m -> writes_only path m.
Proof.
  intros Hm w. destruct (Hm w) as [Hf Hj]. split.
  - intros p _. now rewrite Hf.
  - exists []. now rewrite app_nil_r.
Qed.

Lemma reads_only_ret {A} (a : A) : reads_only (ret a).
Proof. intros w. now split. Qed.

Lemma reads_only_throw {A} e : reads_only (@throw A e).
Proof. intros w. now split. Qed.

Lemma reads_only_lift {A} (r : Result A) : reads_only (lift r).
Proof. intros w. now split. Qed.

Lemma reads_only_now : reads_only now.
Proof. intros w. now split. Qed.

Lemma reads_only_clock_reads n : reads_only (clock_reads n).
Proof. intros w. now split. Qed.

Lemma reads_only_read_json p : reads_only (read_json p).
Proof.
  intros w. unfold read_json. now destruct (files w !! p) as [[| |]|].
Qed.

Lemma reads_only_bind {A B} (m : M A) (k : A -> M B) :
  reads_only m -> (forall a, reads_only (k a)) -> reads_only (bind m k).
Proof.
  intros Hm Hk w. unfold bind. destruct (Hm w) as [Hf Hj].
  destruct (m w) as [[a|e] w1]; simpl in *; [|now split].
  destruct (Hk a w1) as [Hf2 Hj2]. split; congruence.
Qed.

Lemma reads_only_catch {A} (m : M A) (h : Error -> M A) :
  reads_only m -> (forall e, reads_only (h e)) -> reads_only (catch m h).
Proof.
  intros Hm Hh w. unfold catch. destruct (Hm w) as [Hf Hj].
  destruct (m w) as [[a|e] w1]; simpl in *; [now split|].
  destruct (Hh e w1) as [Hf2 Hj2]. split; congruence.
Qed.

Lemma quiet_ret {A} (a : A) : quiet (ret a).
Proof. intros w. now repeat split. Qed.

Lemma quiet_throw {A} e : quiet (@throw A e).
Proof. intros w. now repeat split. Qed.

Lemma quiet_lift {A} (r : Result A) : quiet (lift r).
Proof. intros w. now repeat split. Qed.

Lemma quiet_now : quiet now.
Proof. intros w. now repeat split. Qed.

Lemma quiet_read_json p : quiet (read_json p).
Proof.
  intros w. unfold read_json. now destruct (files w !! p) as [[| |]|].
Qed.

Lemma quiet_bind {A B} (m : M A) (k : A -> M B) :
  quiet m -> (forall a, quiet (k a)) -> quiet (bind m k).
Proof.
  intros Hm Hk w. unfold bind. destruct (Hm w) as (Hf & Hj & Hc).
  destruct (m w) as [[a|e] w1]; simpl in *; [|now repeat split].
  destruct (Hk a w1) as (Hf2 & Hj2 & Hc2). repeat split; congruence.
Qed.

Lemma quiet_catch {A} (m : M A) (h : Error -> M A) :
  quiet m -> (forall e, quiet (h e)) -> quiet (catch m h).
Proof.
  intros Hm Hh w. unfold catch. destruct (Hm w) as (Hf & Hj & Hc).
  destruct (m w) as [[a|e] w1]; simpl in *; [now repeat split|].
  destruct (Hh e w1) as (Hf2 & Hj2 & Hc2). repeat split; congruence.
Qed.

Lemma quiet_reads_only {A} (m : M A) : quiet m -> reads_only m.
Proof. intros H w. destruct (H w) as (Hf & Hj & _). now split. Qed.

(** One step of a frame proof: peel the outermost monadic construct. *)
Ltac frame_step :=
  first
    [ apply writes_only_ret | apply writes_only_throw | apply writes_only_lift
    | apply writes_only_now | apply writes_only_clock_reads
    | apply writes_only_read_json | apply writes_only_write_json
    | apply reads_only_ret | apply reads_only_throw | apply reads_only_lift
    | apply reads_only_now | apply reads_only_clock_reads
    | apply reads_only_read_json
    | apply writes_only_bind; [|intros ?]
    | apply writes_only_catch; [|intros ?]
    | apply reads_only_bind; [|intros ?]
    | apply reads_only_catch; [|intros ?]
    | assumption
    | match goal with
      | |- writes_only _ (match ?x with _ => _ end) => destruct x
      | |- reads_only (match ?x with _ => _ end) => destruct x
      end
    | progress cbv zeta ].

Ltac frame := repeat frame_step.

Section Frames.

Context {engine : Engine}.

Lemma readStudentDb_quiet (s : string) : quiet (readStudentDb s).
Proof.
  unfold readStudentDb, createEmptyDb.
  apply quiet_catch; [apply quiet_read_json|]. intros e.
  destruct e; try apply quiet_throw.
  repeat (apply quiet_bind; [apply quiet_now|intros ?]). apply quiet_ret.
Qed.

Lemma readStudentDb_reads_only (s : string) : reads_only (readStudentDb s).
Proof. unfold readStudentDb, createEmptyDb. frame. Qed.

Lemma writeStudentDb_writes_only (s : string) (data : Doc) :
  writes_only (getDbPath s) (writeStudentDb s data).
Proof. unfold writeStudentDb. frame. Qed.

Lemma readStudentDb_writes_only path (s : string) : writes_only path (readStudentDb s).
Proof. apply reads_only_writes_only, readStudentDb_reads_only. Qed.

End Frames.

(** ** Statistics *)

Section Statistics.

Context {engine : Engine}.

Implicit Types (s : string) (w : World) (d : Doc) (k g : string)
  (keys : list string) (c : list (string * Count)).

Lemma occurrences_snoc k g keys :
  occurrences k (keys ++ [g])
  = occurrences k keys + (if decide (g = k) then 1 else 0).
Proof.
  unfold occurrences. rewrite filter_app, length_app.
  rewrite filter_cons, filter_nil.
  destruct (decide (g = k)); simpl; lia.
Qed.

Lemma occurrences_pos k keys : k ∈ keys -> 0 < occurrences k keys.
Proof.
  intros Hin. unfold occurrences.
  assert (Hk : k ∈ filter (fun x => x = k) keys)
    by (apply list_elem_of_filter; auto).
  destruct (filter (fun x => x = k) keys); [inversion Hk|simpl; lia].
Qed.

Lemma occurrences_absent k keys : k ∉ keys -> occurrences k keys = 0.
Proof.
  intros Hout. unfold occurrences.
  destruct (filter (fun x => x = k) keys) as [|y r] eqn:E; [reflexivity|].
  assert (Hy : y ∈ filter (fun x => x = k) keys) by (rewrite E; left).
  apply list_elem_of_filter in Hy as [-> Hy]. contradiction.
Qed.

Lemma own_assign c k v k' :
  own (assign c k v) k' = if decide (k' = k) then Some v else own c k'.
Proof.
  induction c as [|[k0 v0] c IH]; simpl.
  - destruct (String.eqb_spec k k'), (decide (k' = k)); congruence.
  - destruct (String.eqb_spec k0 k) as [->|Hne]; simpl.
    + destruct (String.eqb_spec k k'), (decide (k' = k)); congruence.
    + destruct (String.eqb_spec k0 k') as [->|Hne'].
      * now rewrite decide_False by congruence.
      * exact IH.
Qed.

Lemma own_keys c k : own c k = None <-> k ∉ map fst c.
Proof.
  induction c as [|[k0 v0] c IH]; simpl.
  - split; [intros _ H; inversion H|reflexivity].
  - destruct (String.eqb_spec k0 k) as [->|Hne].
    + split; [discriminate|]. intros H. destruct H. left.
    + rewrite IH. rewrite not_elem_of_cons. split; [auto|tauto].
Qed.

Lemma keys_assign c k v :
  map fst (assign c k v)
  = if decide (k ∈ map fst c) then map fst c else map fst c ++ [k].
Proof.
  induction c as [|[k0 v0] c IH]; simpl.
  - reflexivity.
  - destruct (String.eqb_spec k0 k) as [->|Hne]; simpl.
    + rewrite decide_True by left. reflexivity.
    + rewrite IH. destruct (decide (k ∈ map fst c)) as [Hin|Hout].
      * rewrite decide_True by (now right). reflexivity.
      * rewrite decide_False; [reflexivity|].
        intros [?|?]%elem_of_cons; [congruence|contradiction].
Qed.

Lemma tally_snoc keys g : tally (keys ++ [g]) = bump (tally keys) g.
Proof. unfold tally. now rewrite foldl_app. Qed.

Lemma first_seen_snoc keys g :
  first_seen (keys ++ [g])
  = if decide (g ∈ first_seen keys) then first_seen keys
    else first_seen keys ++ [g].
Proof. unfold first_seen. now rewrite foldl_app. Qed.

(** With no inherited name among the keys, the counting object holds, for
    each key, the number of its occurrences, and its properties were
    created in first-seen order. *)
Lemma tally_counts keys :
  Forall (fun k => inherited k = false) keys ->
  (forall k, own (tally keys) k
             = if decide (k ∈ keys) then Some (CNum (occurrences k keys))
               else None)
  /\ map fst (tally keys) = first_seen keys.
Proof.
  induction keys as [|g keys IH] using rev_ind; intros Hk.
  - split; [|reflexivity]. intros k. rewrite decide_False; [reflexivity|].
    intros H. inversion H.
  - apply Forall_app in Hk as [Hk Hg]. inversion Hg as [|? ? Hg' _]; subst.
    destruct (IH Hk) as [IHo IHk]. clear IH.
    rewrite tally_snoc, first_seen_snoc. unfold bump.
    rewrite (IHo g), Hg'.
    destruct (decide (g ∈ keys)) as [Hin|Hout].
    + split.
      * intros k. rewrite own_assign, (IHo k), occurrences_snoc.
        destruct (decide (k = g)) as [->|Hne].
        -- rewrite decide_True by (apply elem_of_app; now left).
           rewrite decide_True by reflexivity. reflexivity.
        -- rewrite (decide_False (P := g = k)) by congruence.
           rewrite Z.add_0_r.
           destruct (decide (k ∈ keys)) as [Hk1|Hk1].
           ++ rewrite decide_True by (apply elem_of_app; now left). reflexivity.
           ++ rewrite decide_False; [reflexivity|].
              intros [?|Hx]%elem_of_app; [contradiction|].
              apply list_elem_of_singleton in Hx. contradiction.
      * rewrite keys_assign, <- IHk. reflexivity.
    + split.
      * intros k. rewrite own_assign, (IHo k), occurrences_snoc.
        destruct (decide (k = g)) as [->|Hne].
        -- rewrite decide_True by (apply elem_of_app; right; left).
           rewrite decide_True by reflexivity.
           rewrite (occurrences_absent g keys Hout). reflexivity.
        -- rewrite (decide_False (P := g = k)) by congruence.
           rewrite Z.add_0_r.
           destruct (decide (k ∈ keys)) as [Hk1|Hk1].
           ++ rewrite decide_True by (apply elem_of_app; now left). reflexivity.
           ++ rewrite decide_False; [reflexivity|].
              intros [?|Hx]%elem_of_app; [contradiction|].
              apply list_elem_of_singleton in Hx. contradiction.
      * rewrite keys_assign, <- IHk. reflexivity.
Qed.


Lemma elem_of_insert_index e x l :
  e ∈ insert_index x l <-> e = x \/ e ∈ l.
Proof.
  induction l as [|y l IH]; simpl.
  - rewrite list_elem_of_singleton. split; [auto|]. intros [?|H]; [auto|inversion H].
  - destruct (x.1 <? y.1).
    + rewrite !elem_of_cons. tauto.
    + rewrite !elem_of_cons, IH. tauto.
Qed.

Lemma elem_of_sorted_indices e l :
  e ∈ foldr insert_index [] l <-> e ∈ l.
Proof.
  induction l as [|x l IH]; simpl; [reflexivity|].
  rewrite elem_of_insert_index, IH, elem_of_cons. reflexivity.
Qed.

Lemma elem_of_Object_keys c k : k ∈ Object_keys c <-> k ∈ map fst c.
Proof.
  unfold Object_keys. rewrite elem_of_app, list_elem_of_filter. split.
  - intros [Hidx|[_ H]]; [|exact H].
    apply list_elem_of_fmap in Hidx as ([n k'] & -> & He).
    apply elem_of_sorted_indices, list_elem_of_omap in He as (k0 & Hk0 & Hn).
    destruct (array_index k0); simpl in Hn; [|discriminate].
    injection Hn as <- <-. exact Hk0.
  - intros H. destruct (array_index k) as [n|] eqn:E; [left|right; auto].
    apply list_elem_of_fmap. exists (n, k). split; [reflexivity|].
    apply elem_of_sorted_indices, list_elem_of_omap. exists k.
    split; [exact H|]. now rewrite E.
Qed.

(** Without array-index keys, [Object.keys] is the creation order. *)
Lemma Object_keys_plain c :
  Forall (fun k => array_index k = None) (map fst c) ->
  Object_keys c = map fst c.
Proof.
  unfold Object_keys. generalize (map fst c). intros l Hl.
  induction Hl as [|k l Hk Hl IH]; [reflexivity|].
  simpl. rewrite Hk. simpl. rewrite filter_cons, decide_True by exact Hk.
  destruct (foldr insert_index [] _) eqn:E; simpl in *.
  - now rewrite IH.
  - exfalso.
    assert (Hin : p ∈ foldr insert_index []
                   (omap (fun k0 => (fun n => (n, k0)) <$> array_index k0) l))
      by (rewrite E; left).
    apply elem_of_sorted_indices, list_elem_of_omap in Hin as (k0 & Hk0 & Hn).
    rewrite Forall_forall in Hl. rewrite (Hl k0 Hk0) in Hn. discriminate.
Qed.

(** The [reduce] of [favorite] keeps the last of the keys with the highest
    count. *)
Lemma reduce_keeps_last_maximum c (f : string -> Z) k ks :
  (forall a, a ∈ k :: ks -> own c a = Some (CNum (f a))) ->
  let fav := foldl (fun a b => if count_gt (own c a) (own c b) then a else b)
               k ks in
  exists before after,
    k :: ks = before ++ fav :: after
    /\ Forall (fun x => f x <= f fav) before
    /\ Forall (fun x => f x < f fav) after.
Proof.
  induction ks as [|x ks IH] using rev_ind; intros Hown; simpl.
  - exists [], []. repeat split; constructor.
  - rewrite foldl_app. simpl.
    destruct IH as (before & after & Hsplit & Hb & Ha).
    { intros a Ha. apply Hown. rewrite app_comm_cons, elem_of_app. now left. }
    set (fav0 := foldl _ k ks) in *.
    assert (Hfav0 : fav0 ∈ k :: ks).
    { rewrite Hsplit, elem_of_app. right. left. }
    rewrite (Hown fav0) by (rewrite app_comm_cons, elem_of_app; now left).
    rewrite (Hown x)
      by (rewrite app_comm_cons, elem_of_app; right; apply list_elem_of_singleton;
          reflexivity).
    simpl. destruct (Z.ltb_spec (f x) (f fav0)) as [Hlt|Hge].
    + exists before, (after ++ [x]). split; [|split].
      * rewrite app_comm_cons, Hsplit, <- app_assoc. reflexivity.
      * exact Hb.
      * apply Forall_app. split; [exact Ha|]. now repeat constructor.
    + exists (k :: ks), []. split; [|split].
      * now rewrite app_comm_cons.
      * rewrite Hsplit. apply Forall_app. split.
        -- eapply Forall_impl; [exact Hb|]. simpl. intros; lia.
        -- constructor; [lia|]. eapply Forall_impl; [exact Ha|]. simpl. intros; lia.
      * constructor.
Qed.

Lemma favorite_last_maximum keys :
  Forall (fun k => inherited k = false) keys ->
  keys <> [] ->
  last_maximum keys (favorite (tally keys)).
Proof.
  intros Hk Hne. destruct (tally_counts keys Hk) as [Hown _].
  assert (Hmem : forall k, k ∈ Object_keys (tally keys) <-> k ∈ keys).
  { intros k. rewrite elem_of_Object_keys.
    pose proof (own_keys (tally keys) k) as Ho. rewrite (Hown k) in Ho.
    destruct (decide (k ∈ keys)) as [Hin|Hout].
    - split; [auto|]. intros _.
      destruct (decide (k ∈ map fst (tally keys))) as [?|Hn]; [assumption|].
      apply Ho in Hn. discriminate.
    - split; [|contradiction]. intros Hin. exfalso.
      now apply (proj1 Ho eq_refl). }
  unfold last_maximum, favorite.
  destruct (Object_keys (tally keys)) as [|k ks] eqn:E.
  - destruct keys as [|g keys]; [contradiction|].
    assert (Hg : g ∈ []) by (apply Hmem; left). inversion Hg.
  - destruct (reduce_keeps_last_maximum (tally keys)
                (fun x => occurrences x keys) k ks) as (before & after & Hs & Hb & Ha).
    { intros a Ha. rewrite (Hown a), decide_True; [reflexivity|].
      now apply Hmem. }
    set (fav := foldl _ k ks) in *.
    assert (Hfav : fav ∈ keys).
    { apply Hmem. rewrite Hs, elem_of_app. right. left. }
    exists before, after. split; [exact Hs|]. split; [exact Hfav|].
    split; [|exact Ha].
    intros x. destruct (decide (x ∈ keys)) as [Hin|Hout].
    + apply Hmem in Hin. rewrite Hs in Hin.
      apply elem_of_app in Hin as [Hin|Hin].
      * rewrite Forall_forall in Hb. now apply Hb.
      * apply elem_of_cons in Hin as [->|Hin]; [lia|].
        rewrite Forall_forall in Ha. specialize (Ha x Hin). simpl in Ha. lia.
    + rewrite (occurrences_absent x keys Hout).
      pose proof (occurrences_pos fav keys Hfav). lia.
Qed.

(** *** Conversions that succeed *)

Lemma ToString_converts (v : JValue) :
  converts (Some v) = true -> exists t, ToString v = Ok t.
Proof.
  unfold converts, to_primitive, of_lookup, value_text.
  destruct v as [|[]| | |l|m]; try (intros _; eexists; reflexivity).
  - destruct (ToString (JArr l)); [eauto|discriminate].
  - destruct (ToString (JObj m)); [eauto|discriminate].
Qed.

Lemma js_add_converts acc (v : JValue) :
  converts (Some v) = true -> exists p, js_add acc (VJson v) = Ok p.
Proof.
  intros H. destruct (ToString_converts v H) as [t Ht].
  destruct v as [|[]| | |l|m]; try (eexists; reflexivity);
    unfold js_add, value_text; rewrite Ht; eexists; reflexivity.
Qed.

Lemma sum_from_converts (values : list JValue) :
  Forall (fun v => converts (Some v) = true) values ->
  forall acc, exists p, sum_from acc (VJson <$> values) = Ok p.
Proof.
  induction 1 as [|v values Hv _ IH]; intros acc; [simpl; eauto|].
  rewrite fmap_cons. cbn [sum_from].
  destruct (js_add_converts acc v Hv) as [p ->]. simpl. apply IH.
Qed.

Lemma field_values_cons (field : string) (b : Book) (l : list Book) :
  field_values field (b :: l)
  = match b !! field with
    | Some v => if truthy v then VJson v :: field_values field l
                else field_values field l
    | None => field_values field l
    end.
Proof.
  unfold field_values. simpl.
  destruct (b !! field) as [v|]; [destruct (truthy v)|]; reflexivity.
Qed.

Lemma field_values_converts (field : string) (l : list Book) :
  Forall (fun b : Book => converts (b !! field) = true) l ->
  exists values,
    field_values field l = VJson <$> values
    /\ Forall (fun v => converts (Some v) = true) values.
Proof.
  induction 1 as [|b l Hb _ (values & Hv & Hall)].
  - exists []. split; [reflexivity|constructor].
  - rewrite field_values_cons, Hv.
    destruct (b !! field) as [v|] eqn:E; [|eauto].
    destruct (truthy v); [|eauto].
    exists (v :: values). split; [reflexivity|]. now constructor.
Qed.

Lemma sum_of_field (field : string) (l : list Book) :
  Forall (fun b : Book => converts (b !! field) = true) l ->
  exists p, sum_from (PNum (Finite 0)) (field_values field l) = Ok p.
Proof.
  intros H. destruct (field_values_converts field l H) as (values & -> & Hv).
  now apply sum_from_converts.
Qed.

Lemma genre_keys_cons (b : Book) (l : list Book) :
  genre_keys (b :: l)
  = match b !! "genre" with
    | Some g =>
        if truthy g
        then rbind (ToString g)
               (fun t => rbind (genre_keys l) (fun r => Ok (t :: r)))
        else genre_keys l
    | None => genre_keys l
    end.
Proof.
  unfold genre_keys. simpl.
  destruct (b !! "genre") as [g|]; [destruct (truthy g)|]; reflexivity.
Qed.

Lemma genre_keys_converts (l : list Book) :
  Forall (fun b : Book => converts (b !! "genre") = true) l ->
  exists keys, genre_keys l = Ok keys.
Proof.
  induction 1 as [|b l Hb _ [keys IH]]; [exists []; reflexivity|].
  rewrite genre_keys_cons, IH.
  destruct (b !! "genre") as [g|] eqn:E; [|eauto].
  destruct (truthy g); [|eauto].
  destruct (ToString_converts g Hb) as [t ->]. simpl. eauto.
Qed.

Lemma author_keys_cons (b : Book) (l : list Book) :
  author_keys (b :: l)
  = rbind (ToString_opt (b !! "author"))
      (fun t => rbind (author_keys l) (fun r => Ok (t :: r))).
Proof. reflexivity. Qed.

Lemma author_keys_converts (l : list Book) :
  Forall (fun b : Book => converts (b !! "author") = true) l ->
  exists keys, author_keys l = Ok keys.
Proof.
  induction 1 as [|b l Hb _ [keys IH]]; [exists []; reflexivity|].
  rewrite author_keys_cons, IH.
  destruct (b !! "author") as [a|] eqn:E; simpl; [|eauto].
  destruct (ToString_converts a Hb) as [t ->]. simpl. eauto.
Qed.

Lemma author_keys_length (l : list Book) keys :
  author_keys l = Ok keys -> length keys = length l.
Proof.
  revert keys. induction l as [|b l IH]; intros keys.
  - now intros [= <-].
  - rewrite author_keys_cons.
    destruct (ToString_opt (b !! "author")); simpl; [|discriminate].
    destruct (author_keys l) as [r|]; simpl; [|discriminate].
    intros [= <-]. simpl. f_equal. now apply IH.
Qed.

Lemma later_later w n m : later (later w n) m = later w (m + n).
Proof. unfold later. simpl. f_equal. lia. Qed.

Lemma count_dated_run (same : Value -> string -> bool) (l : list Book) :
  Forall (fun b : Book => converts (b !! "addedAt") = true) l ->
  forall w, exists n, count_dated same l w = (Ok n, later w (length l)).
Proof.
  induction 1 as [|b l Hb _ IH]; intros w; simpl.
  - exists 0. unfold ret, later. now destruct w.
  - unfold converts in Hb. unfold bind at 1, lift.
    destruct (to_primitive (of_lookup (b !! "addedAt"))) as [x|]; [|discriminate].
    unfold bind at 1, now. unfold bind, ret.
    destruct (IH {| files := files w; journal := journal w;
                    ticks := S (ticks w); clock := clock w |}) as [n ->].
    eexists. f_equal. unfold later. simpl. f_equal. lia.
Qed.

(** Whatever its outcome, counting the dated books only reads the clock. *)
Lemma count_dated_quiet (same : Value -> string -> bool) (l : list Book) :
  quiet (count_dated same l).
Proof.
  induction l as [|b l IH]; simpl; [apply quiet_ret|].
  apply quiet_bind; [apply quiet_lift|intros x].
  apply quiet_bind; [apply quiet_now|intros t].
  apply quiet_bind; [exact IH|intros n]. apply quiet_ret.
Qed.

Lemma getStats_quiet s : quiet (getStats s).
Proof.
  unfold getStats. apply quiet_bind; [apply readStudentDb_quiet|intros db].
  cbv zeta.
  repeat (apply quiet_bind;
          [first [apply quiet_lift | apply count_dated_quiet]|intros ?]).
  apply quiet_ret.
Qed.

Lemma getStats_stored s w d genres authors :
  stored w s d ->
  Forall (fun b => readable b = true) (books d) ->
  genre_keys (books d) = Ok genres ->
  author_keys (books d) = Ok authors ->
  exists st,
    getStats s w = (Ok st, later w (2 * length (books d)))
    /\ Stats.favoriteGenre (Stats.preferences st) = favorite (tally genres)
    /\ Stats.favoriteAuthor (Stats.preferences st) = favorite (tally authors).
Proof.
  intros H Hread Hg Ha.
  assert (Hp : Forall (fun b : Book => converts (b !! "pages") = true) (books d)).
  { eapply Forall_impl; [exact Hread|]. unfold readable. intros b Hb.
    apply andb_prop in Hb as [Hb _]. now apply andb_prop in Hb as [Hb _]. }
  assert (Hr : Forall (fun b : Book => converts (b !! "rating") = true) (books d)).
  { eapply Forall_impl; [exact Hread|]. unfold readable. intros b Hb.
    apply andb_prop in Hb as [Hb _]. now apply andb_prop in Hb as [_ Hb]. }
  assert (Hd : Forall (fun b : Book => converts (b !! "addedAt") = true) (books d)).
  { eapply Forall_impl; [exact Hread|]. unfold readable. intros b Hb.
    now apply andb_prop in Hb as [_ Hb]. }
  destruct (sum_of_field "pages" _ Hp) as [totalPages Hsp].
  destruct (sum_of_field "rating" _ Hr) as [totalRating Hsr].
  destruct (count_dated_run same_year _ Hd w) as [n1 H1].
  destruct (count_dated_run same_month _ Hd (later w (length (books d))))
    as [n2 H2].
  eexists. unfold getStats, bind at 1.
  rewrite (readStudentDb_stored _ _ _ H).
  unfold bind at 1, lift at 1. rewrite Hsp.
  unfold bind at 1, lift at 1. rewrite Hsr.
  unfold bind at 1. rewrite H1.
  unfold bind at 1. rewrite H2.
  unfold bind at 1, lift at 1. rewrite Hg.
  unfold bind at 1, lift at 1. rewrite Ha.
  unfold ret. rewrite later_later.
  replace (length (books d) + length (books d))%nat
    with (2 * length (books d))%nat by lia.
  split; [reflexivity|]. split; reflexivity.
Qed.

Lemma countable_fields (l : list Book) :
  Forall (fun b => countable b = true) l ->
  Forall (fun b => readable b = true) l
  /\ Forall (fun b : Book => converts (b !! "genre") = true) l
  /\ Forall (fun b : Book => converts (b !! "author") = true) l.
Proof.
  intros H. repeat split; (eapply Forall_impl; [exact H|]);
    unfold countable; intros b Hb;
    apply andb_prop in Hb as [Hb Ha]; apply andb_prop in Hb as [Hb Hg];
    assumption.
Qed.

(** C6, as amended. For a stored collection whose counted and added-up
    fields all convert to primitives, [getStats] returns statistics, and
    when no counted genre or author is the name of a member of
    [Object.prototype], the favourite genre is ["N/A"] when no book has a
    truthy genre and otherwise a genre with the highest occurrence count
    among those books; of several genres with that count the one that comes
    last in the key order of the counting object wins, where the keys were
    created in first-seen order and [Object.keys] lists array-index keys
    first. The favourite author is computed in the same way over the
    authors of all books and is ["N/A"] when the collection is empty. *)
Theorem favorites_are_last_maximum s w d :
  stored w s d ->
  Forall (fun b => countable b = true) (books d) ->
  exists st w' genres authors,
    getStats s w = (Ok st, w')
    /\ genre_keys (books d) = Ok genres
    /\ author_keys (books d) = Ok authors
    /\ (Forall (fun k => inherited k = false) (genres ++ authors) ->
        (genres = [] -> Stats.favoriteGenre (Stats.preferences st) = "N/A")
        /\ (genres <> [] ->
            last_maximum genres (Stats.favoriteGenre (Stats.preferences st)))
        /\ (books d = [] ->
            Stats.favoriteAuthor (Stats.preferences st) = "N/A")
        /\ (books d <> [] ->
            last_maximum authors
              (Stats.favoriteAuthor (Stats.preferences st)))
        /\ map fst (tally genres) = first_seen genres
        /\ map fst (tally authors) = first_seen authors).
Proof.
  intros H Hc. destruct (countable_fields _ Hc) as (Hread & Hgc & Hac).
  destruct (genre_keys_converts _ Hgc) as [genres Hgk].
  destruct (author_keys_converts _ Hac) as [authors Hak].
  destruct (getStats_stored s w d genres authors H Hread Hgk Hak)
    as (st & Hrun & Hfg & Hfa).
  exists st. eexists. exists genres, authors.
  split; [exact Hrun|]. split; [exact Hgk|]. split; [exact Hak|].
  intros Hk. apply Forall_app in Hk as [Hg Ha].
  rewrite Hfg, Hfa.
  split; [intros ->; reflexivity|].
  split; [now apply favorite_last_maximum|].
  split.
  { intros Hnil. pose proof (author_keys_length _ _ Hak) as Hlen.
    rewrite Hnil in Hlen. destruct authors; [reflexivity|discriminate]. }
  split.
  { intros Hne. apply favorite_last_maximum; [exact Ha|].
    pose proof (author_keys_length _ _ Hak) as Hlen.
    destruct (books d); [contradiction|]. destruct authors; discriminate. }
  split; [apply (tally_counts _ Hg)|apply (tally_counts _ Ha)].
Qed.

(** *** Statistics and storage *)

(** C9, as amended. [getStats] changes no file and writes nothing,
    whatever the state of the tenant's file and whether it returns or
    throws: the stored document, its [lastAccess] included, is after the
    call what it was before. Loading does not refresh [lastAccess]; only
    [writeStudentDb] stamps it (a tenant without a file gets a fresh
    [lastAccess] in the empty document built in memory, which is not
    persisted).  The call returns statistics for every stored document
    whose counted and added-up fields convert to primitives. *)
Theorem getStats_leaves_storage s w :
  files (getStats s w).2 = files w
  /\ journal (getStats s w).2 = journal w
  /\ clock (getStats s w).2 = clock w
  /\ (forall d, stored w s d ->
        stored (getStats s w).2 s d
        /\ (Forall (fun b => countable b = true) (books d) ->
            exists st, (getStats s w).1 = Ok st)).
Proof.
  pose proof (getStats_quiet s w) as Hfiles.
  destruct Hfiles as (Hf & Hj & Hc). repeat (split; [assumption|]).
  intros d Hd. split.
  - unfold stored. rewrite Hf. exact Hd.
  - intros Hcount. destruct (countable_fields _ Hcount) as (Hread & Hgc & Hac).
    destruct (genre_keys_converts _ Hgc) as [genres Hgk].
    destruct (author_keys_converts _ Hac) as [authors Hak].
    destruct (getStats_stored s w d genres authors Hd Hread Hgk Hak)
      as (st & Hrun & _).
    exists st. now rewrite Hrun.
Qed.

End Statistics.

Lemma favorites_are_last_maximum_witness :
  let all := Sample.library in
  exists st w' genres authors,
    getStats "SOFIA" (Sample.world (Sample.document all 12)) = (Ok st, w')
    /\ genre_keys all = Ok genres
    /\ author_keys all = Ok authors
    /\ (Forall (fun k => inherited k = false) (genres ++ authors) ->
        (genres = [] -> Stats.favoriteGenre (Stats.preferences st) = "N/A")
        /\ (genres <> [] ->
            last_maximum genres (Stats.favoriteGenre (Stats.preferences st)))
        /\ (all = [] -> Stats.favoriteAuthor (Stats.preferences st) = "N/A")
        /\ (all <> [] ->
            last_maximum authors
              (Stats.favoriteAuthor (Stats.preferences st)))
        /\ map fst (tally genres) = first_seen genres
        /\ map fst (tally authors) = first_seen authors).
Proof.
  apply (favorites_are_last_maximum "SOFIA"
           (Sample.world (Sample.document Sample.library 12))
           (Sample.document Sample.library 12)).
  - vm_compute. reflexivity.
  - unfold Sample.library.
    repeat (constructor; [vm_compute; reflexivity|]). constructor.
Defined.

(** C6 as stated fails on a tie: with one fantasy book followed by one
    science-fiction book, both genres occur once, ["Fantasy"] is seen first
    and the favourite genre is ["SciFi"]. *)
Lemma favorite_genre_tie_goes_to_last :
  let all := [Sample.hobbit; Sample.dune] in
  exists st,
    (getStats "SOFIA" (Sample.world (Sample.document all 3))).1 = Ok st
    /\ genre_keys all = Ok ["Fantasy"; "SciFi"]
    /\ occurrences "Fantasy" ["Fantasy"; "SciFi"] = 1
    /\ occurrences "SciFi" ["Fantasy"; "SciFi"] = 1
    /\ Stats.favoriteGenre (Stats.preferences st) = "SciFi"
    /\ Stats.favoriteGenre (Stats.preferences st) <> "Fantasy".
Proof.
  eexists. split; [vm_compute; reflexivity|].
  repeat (split; [vm_compute; reflexivity|]). vm_compute. discriminate.
Qed.

(** C9 as stated fails: after [getStats] on a stored document the stored
    [lastAccess] is the old one, and differs from every reading of the clock
    made during the call. *)
Lemma getStats_keeps_lastAccess :
  let w := Sample.world (Sample.document Sample.library 12) in
  let w' := (getStats "SOFIA" w).2 in
  exists d md,
    stored w' "SOFIA" d
    /\ metadata d = Some md
    /\ lastAccess md = Some "2024-11-05T08:30:00.000Z"
    /\ ticks w = 0%nat /\ ticks w' = 10%nat
    /\ forall n, (n < 10)%nat -> lastAccess md <> Some (clock w n).
Proof.
  eexists _, _. split; [vm_compute; reflexivity|].
  split; [reflexivity|]. split; [reflexivity|].
  split; [reflexivity|]. split; [vm_compute; reflexivity|].
  intros n Hn.
  do 10 (destruct n as [|n]; [vm_compute; discriminate|]). lia.
Qed.

(** ** Tenants and their files *)

Section Tenants.

Context {engine : Engine}.

Implicit Types (s a b : string) (w : World) (d : Doc).

Lemma upper_upper_ascii c : upper_ascii (upper_ascii c) = upper_ascii c.
Proof.
  destruct c as [[] [] [] [] [] [] [] []]; reflexivity.
Qed.

Lemma upper_lower_ascii c : upper_ascii (lower_ascii c) = upper_ascii c.
Proof.
  destruct c as [[] [] [] [] [] [] [] []]; reflexivity.
Qed.

Lemma lower_ascii_range c :
  (Ascii.N_of_ascii (lower_ascii c) <? 128)%N = (Ascii.N_of_ascii c <? 128)%N.
Proof.
  destruct c as [[] [] [] [] [] [] [] []]; reflexivity.
Qed.

Lemma upper_ascii_range c :
  (Ascii.N_of_ascii (upper_ascii c) <? 128)%N = (Ascii.N_of_ascii c <? 128)%N.
Proof.
  destruct c as [[] [] [] [] [] [] [] []]; reflexivity.
Qed.

Lemma is_ascii_uppercase s : is_ascii (uppercase_ascii s) = is_ascii s.
Proof.
  induction s as [|c r IH]; simpl; [reflexivity|].
  now rewrite upper_ascii_range, IH.
Qed.

Lemma is_ascii_lowercase s : is_ascii (lowercase_ascii s) = is_ascii s.
Proof.
  induction s as [|c r IH]; simpl; [reflexivity|].
  now rewrite lower_ascii_range, IH.
Qed.

Lemma uppercase_idempotent s :
  uppercase_ascii (uppercase_ascii s) = uppercase_ascii s.
Proof.
  induction s as [|c r IH]; simpl; [reflexivity|].
  now rewrite upper_upper_ascii, IH.
Qed.

Lemma uppercase_lowercase s :
  uppercase_ascii (lowercase_ascii s) = uppercase_ascii s.
Proof.
  induction s as [|c r IH]; simpl; [reflexivity|].
  now rewrite upper_lower_ascii, IH.
Qed.

(** On ASCII text the case mappings of every engine compose as the ASCII
    ones do. *)
Lemma toUpperCase_idempotent s :
  is_ascii s = true -> toUpperCase (toUpperCase s) = toUpperCase s.
Proof.
  intros H. rewrite (toUpperCase_ascii s H).
  rewrite toUpperCase_ascii by (now rewrite is_ascii_uppercase).
  apply uppercase_idempotent.
Qed.

Lemma toUpperCase_toLowerCase s :
  is_ascii s = true -> toUpperCase (toLowerCase s) = toUpperCase s.
Proof.
  intros H. rewrite (toLowerCase_ascii s H), (toUpperCase_ascii s H).
  rewrite toUpperCase_ascii by (now rewrite is_ascii_lowercase).
  apply uppercase_lowercase.
Qed.

(** An upper-cased name is never a name inherited from
    [Object.prototype]: each of those has a small letter. *)
Lemma upper_case_not_inherited s : inherited (toUpperCase s) = false.
Proof.
  unfold inherited. apply bool_decide_eq_false_2. intros Hin.
  pose proof (toUpperCase_capitals s) as Hcap.
  unfold object_prototype_names in Hin.
  repeat (apply elem_of_cons in Hin as [Hin|Hin];
          [rewrite Hin in Hcap; vm_compute in Hcap; discriminate|]).
  inversion Hin.
Qed.

Lemma property_STUDENTS sid config :
  property STUDENTS sid = Some config ->
  Student.id config = sid
  /\ getDbPath sid = ("data/" ++ Student.dbFile config)%string
  /\ sid ∈ ["ARGENIS"; "CALEB"; "KATHERINE"; "LUIS"; "SOFIA"].
Proof.
  unfold STUDENTS. cbn [property].
  repeat (match goal with
          | |- context [String.eqb ?k sid] =>
              destruct (String.eqb_spec k sid) as [<-|_];
              [intros [= <-]; split; [reflexivity|split;
                 [unfold getDbPath; rewrite toLowerCase_ascii by reflexivity;
                  reflexivity|]];
               set_solver|]
          end).
  discriminate.
Qed.

(** X2. A name that [validateStudent] lets through resolves to its
    upper-cased form, which is the [id] of the profile attached and one of
    the five students, and the path [getDbPath] computes for it is the
    [dbFile] the profile declares; for a name of ASCII characters the check
    does not depend on the case of the name. *)
Theorem validateStudent_accepts s :
  (is_ascii s = true ->
   validateStudent (toUpperCase s) = validateStudent s
   /\ validateStudent (toLowerCase s) = validateStudent s)
  /\ forall sid config,
       validateStudent s = inr (sid, config) ->
       sid = toUpperCase s
       /\ Student.id config = sid
       /\ getDbPath sid = ("data/" ++ Student.dbFile config)%string
       /\ sid ∈ ["ARGENIS"; "CALEB"; "KATHERINE"; "LUIS"; "SOFIA"].
Proof.
  split.
  - intros Hs. split.
    + unfold validateStudent. now rewrite toUpperCase_idempotent.
    + unfold validateStudent. now rewrite toUpperCase_toLowerCase.
  - intros sid config. unfold validateStudent.
    destruct (String.eqb (toUpperCase s) ""); [discriminate|].
    destruct (property STUDENTS (toUpperCase s)) as [c|] eqn:E; [|discriminate].
    intros [= <- <-]. split; [reflexivity|]. now apply property_STUDENTS.
Qed.

End Tenants.

(** ** Which operations write, and where *)

Section Isolation.

Context {engine : Engine}.

Implicit Types (s a b id uuid : string) (w : World) (d : Doc)
  (u body : gmap string JValue).

Lemma createUser_writes_only s userData :
  writes_only (getDbPath s) (createUser s userData).
Proof.
  unfold createUser. pose proof (readStudentDb_writes_only (getDbPath s) s).
  pose proof (writeStudentDb_writes_only s). frame.
Qed.

Lemma addBook_writes_only uuid s bookData :
  writes_only (getDbPath s) (addBook uuid s bookData).
Proof.
  unfold addBook. pose proof (readStudentDb_writes_only (getDbPath s) s).
  pose proof (writeStudentDb_writes_only s). frame.
Qed.

Lemma updateBook_writes_only s id u :
  writes_only (getDbPath s) (updateBook s id u).
Proof.
  unfold updateBook. pose proof (readStudentDb_writes_only (getDbPath s) s).
  pose proof (writeStudentDb_writes_only s). frame.
Qed.

Lemma deleteBook_writes_only s id :
  writes_only (getDbPath s) (deleteBook s id).
Proof.
  unfold deleteBook. pose proof (readStudentDb_writes_only (getDbPath s) s).
  pose proof (writeStudentDb_writes_only s). frame.
Qed.

Lemma resetDatabase_writes_only s :
  writes_only (getDbPath s) (resetDatabase s).
Proof.
  unfold resetDatabase. pose proof (readStudentDb_writes_only (getDbPath s) s).
  pose proof (writeStudentDb_writes_only s). frame.
Qed.

Lemma getUser_reads_only s : reads_only (getUser s).
Proof. unfold getUser. pose proof (readStudentDb_reads_only s). frame. Qed.

Lemma getBookById_reads_only s id : reads_only (getBookById s id).
Proof. unfold getBookById. pose proof (readStudentDb_reads_only s). frame. Qed.

Lemma getBooks_reads_only s filters pagination :
  reads_only (getBooks s filters pagination).
Proof. unfold getBooks. pose proof (readStudentDb_reads_only s). frame. Qed.

(** X3. Whatever the state of the storage and whatever the arguments, the
    mutating operations of a tenant and the routes built on them write to
    that tenant's path only: every other file is as it was, and every
    [writeFile] they make is for that path. *)
Theorem writes_stay_in_tenant_file s :
  (forall data, writes_only (getDbPath s) (writeStudentDb s data))
  /\ (forall userData, writes_only (getDbPath s) (createUser s userData))
  /\ (forall uuid bookData, writes_only (getDbPath s) (addBook uuid s bookData))
  /\ (forall id u, writes_only (getDbPath s) (updateBook s id u))
  /\ (forall id, writes_only (getDbPath s) (deleteBook s id))
  /\ writes_only (getDbPath s) (resetDatabase s)
  /\ (forall uuid bookData, writes_only (getDbPath s) (post_book uuid s bookData))
  /\ (forall id u, writes_only (getDbPath s) (put_book s id u))
  /\ (forall id, writes_only (getDbPath s) (delete_book s id))
  /\ (forall body, writes_only (getDbPath s) (delete_reset s body))
  /\ (forall hash config body,
         writes_only (getDbPath s) (register hash s config body)).
Proof.
  split_and!; intros.
  - apply writeStudentDb_writes_only.
  - apply createUser_writes_only.
  - apply addBook_writes_only.
  - apply updateBook_writes_only.
  - apply deleteBook_writes_only.
  - apply resetDatabase_writes_only.
  - unfold post_book. frame.
  - unfold put_book. frame.
  - unfold delete_book. frame.
  - unfold delete_reset. frame.
  - unfold register. frame.
Qed.

(** X4. The read paths never write: looking up the user or a book, listing
    books and verifying a token leave every file as it was and make no
    [writeFile], whether or not the tenant has a file and whether or not it
    can be read. *)
Theorem queries_never_write s :
  reads_only (readStudentDb s)
  /\ reads_only (getUser s)
  /\ (forall id, reads_only (getBookById s id))
  /\ (forall filters pagination, reads_only (getBooks s filters pagination))
  /\ (forall query, reads_only (get_books s query))
  /\ (forall id, reads_only (get_book s id))
  /\ (forall jwt_verify authorization,
         reads_only (verifyToken jwt_verify authorization s)).
Proof.
  split_and!; intros.
  - apply readStudentDb_reads_only.
  - apply getUser_reads_only.
  - apply getBookById_reads_only.
  - apply getBooks_reads_only.
  - unfold get_books. frame.
  - unfold get_book. frame.
  - unfold verifyToken. frame.
Qed.

End Isolation.

(** ** Accounts *)

Section AccountsFacts.

Context {engine : Engine}.

Implicit Types (s id : string) (w : World) (d : Doc)
  (body : gmap string JValue).

Lemma getUser_stored w s d : stored w s d -> getUser s w = (Ok (user d), w).
Proof.
  intros H. unfold getUser, bind. now rewrite (readStudentDb_stored _ _ _ H).
Qed.

Lemma createUser_taken w s d userData :
  stored w s d -> truthy (user d) = true ->
  createUser s userData w = (Ok UserExists, w).
Proof.
  intros H Hu. unfold createUser, bind.
  now rewrite (readStudentDb_stored _ _ _ H), Hu.
Qed.

(** X5. A tenant whose document already has a user cannot get another:
    [createUser] refuses, and [POST auth/register] answers 400, 409 or 500
    (409 for a well-formed request whose password can be hashed), never 201;
    in each case nothing is written and the world is left as it was. *)
Theorem one_user_per_tenant w s d :
  stored w s d ->
  truthy (user d) = true ->
  (forall userData, createUser s userData w = (Ok UserExists, w))
  /\ (forall hash config body,
        exists r, register hash s config body w = (Ok r, w)
                  /\ status r ∈ [400; 409; 500]%nat)
  /\ (forall hash config body name email password hashed,
        body !! "name" = Some name -> body !! "email" = Some email ->
        body !! "password" = Some password ->
        truthy name = true -> truthy email = true -> truthy password = true ->
        too_short password = Ok false -> hash password = Some hashed ->
        exists r, register hash s config body w = (Ok r, w) /\ status r = 409%nat).
Proof.
  intros H Hu. split; [|split].
  - intros userData. now apply createUser_taken with d.
  - intros hash config body. unfold register.
    destruct (body !! "name") as [name|]; [|eexists; split; [reflexivity|set_solver]].
    destruct (body !! "email") as [email|]; [|eexists; split; [reflexivity|set_solver]].
    destruct (body !! "password") as [password|];
      [|eexists; split; [reflexivity|set_solver]].
    destruct (negb (truthy name) || negb (truthy email) || negb (truthy password));
      [eexists; split; [reflexivity|set_solver]|].
    destruct (too_short password) as [[|]|];
      [eexists; split; [reflexivity|set_solver]| |
       eexists; split; [reflexivity|set_solver]].
    destruct (hash password) as [hashed|];
      [|eexists; split; [reflexivity|set_solver]].
    unfold catch, bind. rewrite (createUser_taken w s d _ H Hu).
    eexists; split; [reflexivity|set_solver].
  - intros hash config body name email password hashed Hn He Hp Tn Te Tp Hs Hh.
    unfold register. rewrite Hn, He, Hp, Tn, Te, Tp, Hs, Hh. simpl.
    unfold catch, bind. rewrite (createUser_taken w s d _ H Hu).
    eexists; split; reflexivity.
Qed.

(** The object [createUser] stores. *)
Lemma new_user_fields s userData t :
  let m := object_of [
      ("id", Some (JStr (toLowerCase s ++ "_001")));
      ("name", UserData.name userData);
      ("email", UserData.email userData);
      ("studentId", Some (JStr (toUpperCase s)));
      ("password", UserData.hashedPassword userData);
      ("createdAt", Some (JStr t));
      ("active", Some (JBool true)) ] in
  m !! "id" = Some (JStr (toLowerCase s ++ "_001"))
  /\ m !! "name" = UserData.name userData
  /\ m !! "email" = UserData.email userData
  /\ m !! "studentId" = Some (JStr (toUpperCase s))
  /\ m !! "password" = UserData.hashedPassword userData
  /\ m !! "createdAt" = Some (JStr t)
  /\ m !! "active" = Some (JBool true).
Proof.
  assert (Hnd : NoDup ["id"; "name"; "email"; "studentId"; "password";
                       "createdAt"; "active"]).
  { distinct_keys. }
  simpl. repeat split; rewrite object_of_lookup by exact Hnd; reflexivity.
Qed.

Lemma createUser_fresh w s d userData :
  stored w s d ->
  truthy (user d) = false ->
  exists m w' d',
    createUser s userData w = (Ok (Registered (JObj m)), w')
    /\ stored w' s d'
    /\ user d' = JObj m
    /\ books d' = books d
    /\ (- 2 ^ 53 <= operations d < 2 ^ 53 ->
        operations d' = operations d + 1)
    /\ m !! "id" = Some (JStr (toLowerCase s ++ "_001"))
    /\ m !! "studentId" = Some (JStr (toUpperCase s))
    /\ m !! "active" = Some (JBool true)
    /\ m !! "name" = UserData.name userData
    /\ m !! "email" = UserData.email userData
    /\ m !! "password" = UserData.hashedPassword userData
    /\ m !! "createdAt" = Some (JStr (clock w (ticks w)))
    /\ getUser s w' = (Ok (JObj m), w')
    /\ forall other, createUser s other w' = (Ok UserExists, w').
Proof.
  intros H Hu.
  destruct (new_user_fields s userData (clock w (ticks w)))
    as (Hid & Hname & Hemail & Hsid & Hpw & Hcr & Hact).
  eexists _, _, _. split.
  { unfold createUser, bind at 1. rewrite (readStudentDb_stored _ _ _ H), Hu.
    unfold bind, now.
    rewrite writeStudentDb_ok by exact (stored_not_denied _ _ _ H).
    reflexivity. }
  split; [apply stored_after_save|].
  split; [reflexivity|]. split; [reflexivity|].
  split; [intros Hsafe; unfold operations in *; simpl; apply num_succ_exact; lia|].
  split; [exact Hid|]. split; [exact Hsid|]. split; [exact Hact|].
  split; [exact Hname|]. split; [exact Hemail|]. split; [exact Hpw|].
  split; [exact Hcr|].
  split.
  - erewrite getUser_stored by apply stored_after_save. reflexivity.
  - intros other. eapply createUser_taken; [apply stored_after_save|reflexivity].
Qed.

(** X6. For a tenant whose stored document has no user, [createUser]
    persists a user whose [id] is the lower-cased tenant name followed by
    [_001], whose [studentId] is the upper-cased name, which is [active] and
    carries the name, email and password hash passed in; the books are
    untouched and the operation counter, when it is below [2^53], grows by
    one. [getUser] then returns that user, and a second [createUser] is
    refused. *)
Theorem createUser_registers_once w s d userData :
  stored w s d ->
  truthy (user d) = false ->
  exists m w' d',
    createUser s userData w = (Ok (Registered (JObj m)), w')
    /\ stored w' s d'
    /\ user d' = JObj m
    /\ books d' = books d
    /\ (- 2 ^ 53 <= operations d < 2 ^ 53 ->
        operations d' = operations d + 1)
    /\ m !! "id" = Some (JStr (toLowerCase s ++ "_001"))
    /\ m !! "studentId" = Some (JStr (toUpperCase s))
    /\ m !! "active" = Some (JBool true)
    /\ m !! "name" = UserData.name userData
    /\ m !! "email" = UserData.email userData
    /\ m !! "password" = UserData.hashedPassword userData
    /\ m !! "createdAt" = Some (JStr (clock w (ticks w)))
    /\ getUser s w' = (Ok (JObj m), w')
    /\ forall other, createUser s other w' = (Ok UserExists, w').
Proof. exact (createUser_fresh w s d userData). Qed.

(** X7. A well-formed registration for a tenant without a user stores the
    password hash, never the password, and the 201 response carries the
    stored user without its [password] property. When the name is not a
    string the user is stored all the same and the response is 500, because
    the welcome message is built after the user has been saved. *)
Theorem register_stores_hash_and_hides_it w s d hash config request
    name email password hashed :
  stored w s d ->
  truthy (user d) = false ->
  request !! "name" = Some name -> request !! "email" = Some email ->
  request !! "password" = Some password ->
  truthy name = true -> truthy email = true -> truthy password = true ->
  too_short password = Ok false ->
  hash password = Some hashed ->
  exists r w' d' m,
    register hash s config request w = (Ok r, w')
    /\ stored w' s d'
    /\ user d' = JObj m
    /\ books d' = books d
    /\ m !! "password" = Some (JStr hashed)
    /\ m !! "name" = Some name
    /\ m !! "email" = Some email
    /\ (forall n, name = JStr n ->
          r = {| status := 201;
                 body := JObj {[
                   "message" :=
                     JStr ("¡Bienvenido a tu biblioteca personal, "
                           ++ first_word n ++ "! "
                           ++ Theme.emoji (Student.theme config))%string;
                   "user" := JObj (delete "password" m);
                   "theme" := theme_json (Student.theme config) ]} |}
          /\ delete "password" m !! "password" = None
          /\ delete "password" m !! "id"
             = Some (JStr (toLowerCase s ++ "_001")%string))
    /\ ((forall n, name <> JStr n) -> r = internal_error_coded).
Proof.
  intros H Hu Hn He Hp Tn Te Tp Hs Hh.
  set (userData := {| UserData.name := Some name; UserData.email := Some email;
                      UserData.hashedPassword := Some (JStr hashed) |}).
  destruct (createUser_fresh w s d userData H Hu)
    as (m & w' & d' & Hrun & Hst & Hud & Hbooks & _ & Hid & _ & _ & Hname
        & Hemail & Hpw & _).
  assert (Hreg : register hash s config request w
                 = (Ok match name with
                    | JStr n =>
                           {| status := 201;
                              body := JObj {[
                                "message" :=
                                  JStr ("¡Bienvenido a tu biblioteca personal, "
                                        ++ first_word n ++ "! "
                                        ++ Theme.emoji (Student.theme config))%string;
                                "user" := JObj (delete "password" m);
                                "theme" := theme_json (Student.theme config) ]} |}
                    | _ => internal_error_coded
                    end, w')).
  { unfold register. rewrite Hn, He, Hp, Tn, Te, Tp, Hs, Hh. simpl.
    unfold catch, bind. fold userData. rewrite Hrun.
    destruct name; reflexivity. }
  eexists _, w', d', m. split; [exact Hreg|].
  split; [exact Hst|]. split; [exact Hud|]. split; [exact Hbooks|].
  split; [exact Hpw|]. split; [exact Hname|]. split; [exact Hemail|].
  split.
  - intros n ->. split; [reflexivity|]. split; [apply lookup_delete_eq|].
    rewrite lookup_delete_ne by discriminate. exact Hid.
  - intros Hns. destruct name; try reflexivity. now destruct (Hns s0).
Qed.

End AccountsFacts.

Lemma one_user_per_tenant_witness :
  let w := Sample.world (Sample.document Sample.library 12) in
  (forall userData, createUser "SOFIA" userData w = (Ok UserExists, w))
  /\ (forall hash config body,
        exists r, register hash "SOFIA" config body w = (Ok r, w)
                  /\ status r ∈ [400; 409; 500]%nat)
  /\ (forall hash config body name email password hashed,
        body !! "name" = Some name -> body !! "email" = Some email ->
        body !! "password" = Some password ->
        truthy name = true -> truthy email = true -> truthy password = true ->
        too_short password = Ok false -> hash password = Some hashed ->
        exists r, register hash "SOFIA" config body w = (Ok r, w)
                  /\ status r = 409%nat).
Proof.
  apply (one_user_per_tenant
           (Sample.world (Sample.document Sample.library 12)) "SOFIA"
           (Sample.document Sample.library 12)).
  - vm_compute. reflexivity.
  - reflexivity.
Defined.

Lemma createUser_registers_once_witness :
  let w := Sample.world {| user := JNull; books := Sample.library;
                           metadata := None |} in
  let userData := {| UserData.name := Some (JStr "Sofia Aguilar");
                     UserData.email := Some (JStr "sofia@biblioteca.com");
                     UserData.hashedPassword := Some (JStr "$2b$10$hash") |} in
  exists m w' d',
    createUser "SOFIA" userData w = (Ok (Registered (JObj m)), w')
    /\ stored w' "SOFIA" d'
    /\ user d' = JObj m
    /\ books d' = Sample.library
    /\ (- 2 ^ 53 <= 0 < 2 ^ 53 -> operations d' = 0 + 1)
    /\ m !! "id" = Some (JStr "sofia_001")
    /\ m !! "studentId" = Some (JStr "SOFIA")
    /\ m !! "active" = Some (JBool true)
    /\ m !! "name" = Some (JStr "Sofia Aguilar")
    /\ m !! "email" = Some (JStr "sofia@biblioteca.com")
    /\ m !! "password" = Some (JStr "$2b$10$hash")
    /\ m !! "createdAt" = Some (JStr (Sample.time 0))
    /\ getUser "SOFIA" w' = (Ok (JObj m), w')
    /\ forall other, createUser "SOFIA" other w' = (Ok UserExists, w').
Proof.
  refine (createUser_registers_once
            (Sample.world {| user := JNull; books := Sample.library;
                             metadata := None |}) "SOFIA"
            {| user := JNull; books := Sample.library; metadata := None |}
            {| UserData.name := Some (JStr "Sofia Aguilar");
               UserData.email := Some (JStr "sofia@biblioteca.com");
               UserData.hashedPassword := Some (JStr "$2b$10$hash") |} _ _).
  - vm_compute. reflexivity.
  - reflexivity.
Defined.

Lemma register_stores_hash_and_hides_it_witness :
  exists r w' d' m,
    register Fixture.hash "SOFIA" Fixture.sofia Fixture.signup
      (Sample.world Fixture.unregistered) = (Ok r, w')
    /\ stored w' "SOFIA" d'
    /\ user d' = JObj m
    /\ books d' = Sample.library
    /\ m !! "password" = Some (JStr "$2b$10$abcdefghijklmnopqrstuv")
    /\ m !! "name" = Some (JStr "Sofia Aguilar")
    /\ m !! "email" = Some (JStr "sofia@biblioteca.com")
    /\ (forall n, JStr "Sofia Aguilar" = JStr n ->
          r = {| status := 201;
                 body := JObj {[
                   "message" :=
                     JStr ("¡Bienvenido a tu biblioteca personal, "
                           ++ first_word n ++ "! "
                           ++ Theme.emoji (Student.theme Fixture.sofia))%string;
                   "user" := JObj (delete "password" m);
                   "theme" := theme_json (Student.theme Fixture.sofia) ]} |}
          /\ delete "password" m !! "password" = None
          /\ delete "password" m !! "id" = Some (JStr "sofia_001"))
    /\ ((forall n, JStr "Sofia Aguilar" <> JStr n) -> r = internal_error_coded).
Proof.
  refine (register_stores_hash_and_hides_it
            (Sample.world Fixture.unregistered) "SOFIA" Fixture.unregistered
            Fixture.hash Fixture.sofia Fixture.signup
            (JStr "Sofia Aguilar") (JStr "sofia@biblioteca.com")
            (JStr "secreto1") "$2b$10$abcdefghijklmnopqrstuv"
            _ _ _ _ _ _ _ _ _ _);
    vm_compute; reflexivity.
Defined.

(** ** Authentication *)

Section Authentication.

Context {engine : Engine}.

Implicit Types (s token : string) (w : World) (d : Doc).

Lemma strict_eq_text (x : option JValue) t :
  strict_eq x (Some (JStr t)) = true <-> x = Some (JStr t).
Proof.
  unfold strict_eq. destruct x as [[| | |y| |]|]; split; try discriminate.
  - intros H. apply String.eqb_eq in H. now subst.
  - intros [= ->]. apply String.eqb_refl.
Qed.

Lemma starts_with_split (p h : string) :
  starts_with p h = true ->
  h = (p ++ substring_from (String.length p) h)%string.
Proof.
  revert h. induction p as [|c p IH]; intros h H; [reflexivity|].
  destruct h as [|c' h]; [discriminate|]. simpl in H.
  apply andb_true_iff in H as [Hc Hp]. apply Ascii.eqb_eq in Hc. subst c'.
  change (String c h = String c (p ++ substring_from (String.length p) h))%string.
  f_equal. now apply IH.
Qed.

Lemma starts_with_append (p t : string) : starts_with p (p ++ t)%string = true.
Proof.
  induction p as [|c p IH]; [reflexivity|].
  change (starts_with (String c p) (String c (p ++ t)%string) = true).
  simpl. now rewrite Ascii.eqb_refl.
Qed.

Lemma substring_from_append (p t : string) :
  substring_from (String.length p) (p ++ t)%string = t.
Proof.
  induction p as [|c p IH]; [now destruct t|].
  change (substring_from (S (String.length p)) (String c (p ++ t)%string) = t).
  exact IH.
Qed.

Lemma readStudentDb_faulty w s :
  faulty w s -> exists e, readStudentDb s w = (Raise e, w).
Proof.
  unfold faulty, readStudentDb, catch, read_json.
  intros [-> | ->]; eexists; reflexivity.
Qed.

(** X8. [verifyToken] lets a request through only when the header is
    [Bearer] followed by a token that verifies, the payload names this
    tenant, and the tenant's stored user is an object whose [active]
    property is truthy; the user attached to the request is the stored
    one. *)
Theorem verifyToken_passes_only jwt_verify authorization s w user w' :
  verifyToken jwt_verify authorization s w = (Ok (inr user), w') ->
  exists token payload m,
    authorization = Some ("Bearer " ++ token)%string
    /\ jwt_verify token = Decoded payload
    /\ payload !! "studentId" = Some (JStr s)
    /\ getUser s w = (Ok user, w')
    /\ user = JObj m
    /\ truthy_opt (m !! "active") = true.
Proof.
  unfold verifyToken. destruct authorization as [h|]; [|discriminate].
  destruct (starts_with "Bearer " h) eqn:Hb; cbn [negb]; [|discriminate].
  destruct (jwt_verify (substring_from 7 h)) as [payload| |] eqn:Hj;
    try discriminate.
  destruct (strict_eq (payload !! "studentId") (Some (JStr s))) eqn:Hs;
    cbn [negb]; [|discriminate].
  unfold catch, bind at 1.
  destruct (getUser s w) as [[u|e] w1] eqn:Hu; [|discriminate].
  destruct (negb (truthy u) || negb (active u)) eqn:Hc; [discriminate|].
  intros [= <- <-].
  apply orb_false_iff in Hc as [_ Ha]. apply negb_false_iff in Ha.
  destruct u as [| | | | |m]; try discriminate.
  exists (substring_from 7 h), payload, m.
  split; [f_equal; now apply (starts_with_split "Bearer " h)|].
  split; [exact Hj|]. split; [now apply strict_eq_text|].
  split; [reflexivity|]. split; [reflexivity|exact Ha].
Qed.

(** X9. When the tenant's file cannot be read, a request with a valid token
    for the tenant is answered 401 [INVALID_TOKEN]: the storage error is
    caught by the handler of token errors. *)
Theorem verifyToken_storage_fault jwt_verify token payload s w :
  faulty w s ->
  jwt_verify token = Decoded payload ->
  payload !! "studentId" = Some (JStr s) ->
  verifyToken jwt_verify (Some ("Bearer " ++ token)%string) s w
  = (Ok (inl (auth_error 401 "Token inválido" "INVALID_TOKEN")), w).
Proof.
  intros Hf Hj Hs. unfold verifyToken.
  rewrite (starts_with_append "Bearer " token). cbn [negb].
  pose proof (substring_from_append "Bearer " token) as Hsub.
  cbn [String.length] in Hsub. rewrite Hsub, Hj.
  rewrite (proj2 (strict_eq_text _ _) Hs). cbn [negb].
  destruct (readStudentDb_faulty w s Hf) as [e He].
  unfold catch, getUser, bind. now rewrite He.
Qed.

End Authentication.

Lemma verifyToken_passes_only_witness :
  exists token payload m,
    Some "Bearer sofia.token" = Some ("Bearer " ++ token)%string
    /\ Fixture.jwt token = Decoded payload
    /\ payload !! "studentId" = Some (JStr "SOFIA")
    /\ getUser "SOFIA" (Sample.world (Sample.document Sample.library 12))
       = (Ok Sample.reader, Sample.world (Sample.document Sample.library 12))
    /\ Sample.reader = JObj m
    /\ truthy_opt (m !! "active") = true.
Proof.
  apply (verifyToken_passes_only Fixture.jwt (Some "Bearer sofia.token") "SOFIA"
           (Sample.world (Sample.document Sample.library 12)) Sample.reader
           (Sample.world (Sample.document Sample.library 12))).
  vm_compute. reflexivity.
Defined.

Lemma verifyToken_storage_fault_witness :
  verifyToken Fixture.jwt (Some ("Bearer " ++ "sofia.token")%string) "SOFIA"
    Fixture.corrupt
  = (Ok (inl (auth_error 401 "Token inválido" "INVALID_TOKEN")), Fixture.corrupt).
Proof.
  apply (verifyToken_storage_fault Fixture.jwt "sofia.token"
           {[ "userId" := JStr "sofia_001";
              "email" := JStr "sofia@biblioteca.com";
              "studentId" := JStr "SOFIA" ]} "SOFIA" Fixture.corrupt).
  - left. vm_compute. reflexivity.
  - reflexivity.
  - vm_compute. reflexivity.
Defined.

(** ** Books: create, look up, update, delete *)

Section BookFacts.

Context {engine : Engine}.

Implicit Types (s id uuid : string) (w : World) (d : Doc)
  (u bookData : gmap string JValue) (l : list Book).

Lemma find_findIndex {A} (p : A -> bool) (l : list A) :
  find p l = findIndex p l ≫= fun i => l !! i.
Proof.
  induction l as [|x l IH]; simpl; [reflexivity|].
  destruct (p x); [reflexivity|]. rewrite IH.
  now destruct (findIndex p l).
Qed.

Lemma findIndex_alter {A} (p : A -> bool) (f : A -> A) (l : list A) i :
  (forall x, p (f x) = p x) ->
  findIndex p (alter f i l) = findIndex p l.
Proof.
  intros Hf. revert i. induction l as [|x l IH]; intros [|i]; cbn;
    try reflexivity.
  - now rewrite Hf.
  - now rewrite IH.
Qed.

Lemma findIndex_fresh id l : fresh_id id l -> findIndex (has_id id) l = None.
Proof. apply findIndex_absent. Qed.

Lemma find_app_new id l (b : Book) :
  fresh_id id l -> b !! "id" = Some (JStr id) ->
  find (has_id id) (l ++ [b]) = Some b.
Proof.
  intros Hf Hb. induction Hf as [|x l Hx Hl IH]; simpl.
  - now rewrite (proj2 (has_id_true id b) Hb).
  - now rewrite (proj2 (has_id_false id x) Hx).
Qed.

Lemma find_app_other id l (b : Book) :
  b !! "id" <> Some (JStr id) ->
  find (has_id id) (l ++ [b]) = find (has_id id) l.
Proof.
  intros Hb. induction l as [|x l IH]; simpl.
  - now rewrite (proj2 (has_id_false id b) Hb).
  - destruct (has_id id x); [reflexivity|exact IH].
Qed.

Lemma new_book_lookup uuid bookData added updated f :
  new_book uuid bookData added updated !! f
  = default None
      (property
         [ ("id", Some (JStr uuid));
           ("title", bookData !! "title");
           ("author", bookData !! "author");
           ("genre", Some (or_else (bookData !! "genre") JNull));
           ("year", Some (or_else (bookData !! "year") JNull));
           ("pages", Some (or_else (bookData !! "pages") JNull));
           ("rating", Some (or_else (bookData !! "rating") JNull));
           ("status", Some (or_else (bookData !! "status") (JStr "to-read")));
           ("notes", Some (or_else (bookData !! "notes") (JStr "")));
           ("addedAt", Some (JStr added));
           ("updatedAt", Some (JStr updated)) ] f).
Proof. unfold new_book. apply object_of_lookup. simpl. distinct_keys. Qed.

Lemma addBook_stored w s d uuid bookData :
  stored w s d ->
  let b := new_book uuid bookData (clock w (ticks w)) (clock w (S (ticks w))) in
  let d' := saved_doc {| user := user d; books := books d ++ [b];
                         metadata := metadata d |}
              (clock w (S (S (ticks w)))) in
  addBook uuid s bookData w = (Ok b, after_save (tick (tick w)) s d').
Proof.
  intros H. simpl. unfold addBook, bind at 1.
  rewrite (readStudentDb_stored _ _ _ H). unfold bind, now.
  rewrite writeStudentDb_ok by exact (stored_not_denied _ _ _ H).
  reflexivity.
Qed.

(** X10. [addBook] on a stored document appends one record at the end of
    the sequence and persists it. The record has the identifier drawn, the
    title and author of the request, [null] for each of genre, year, pages
    and rating that the request leaves out or gives a falsy value (0, the
    empty string, false), status [to-read] and notes [""] by the same rule,
    and two successive readings of the clock as [addedAt] and [updatedAt];
    no other property of the request reaches the record. The user and the
    earlier books are untouched and the operation counter, when it is below
    [2^53], grows by one. *)
Theorem addBook_appends_with_defaults w s d uuid bookData :
  stored w s d ->
  exists (b : Book) w' d',
    addBook uuid s bookData w = (Ok b, w')
    /\ stored w' s d'
    /\ books d' = books d ++ [b]
    /\ user d' = user d
    /\ (- 2 ^ 53 <= operations d < 2 ^ 53 ->
        operations d' = operations d + 1)
    /\ b !! "id" = Some (JStr uuid)
    /\ b !! "title" = bookData !! "title"
    /\ b !! "author" = bookData !! "author"
    /\ (forall f, f ∈ ["genre"; "year"; "pages"; "rating"] ->
          b !! f = Some (or_else (bookData !! f) JNull)
          /\ (truthy_opt (bookData !! f) = false -> b !! f = Some JNull))
    /\ b !! "status" = Some (or_else (bookData !! "status") (JStr "to-read"))
    /\ b !! "notes" = Some (or_else (bookData !! "notes") (JStr ""))
    /\ b !! "addedAt" = Some (JStr (clock w (ticks w)))
    /\ b !! "updatedAt" = Some (JStr (clock w (S (ticks w))))
    /\ (forall f, f ∉ book_fields -> b !! f = None).
Proof.
  intros H. eexists _, _, _. split; [apply (addBook_stored w s d uuid bookData H)|].
  split; [apply stored_after_save|].
  split; [reflexivity|]. split; [reflexivity|].
  split; [intros Hsafe; unfold operations in *; simpl; apply num_succ_exact; lia|].
  split; [now rewrite new_book_lookup|].
  split; [now rewrite new_book_lookup|].
  split; [now rewrite new_book_lookup|].
  split.
  { intros f Hf. rewrite new_book_lookup.
    assert (Hcase : f = "genre" \/ f = "year" \/ f = "pages" \/ f = "rating").
    { repeat (apply elem_of_cons in Hf as [-> | Hf]; [tauto|]). inversion Hf. }
    destruct Hcase as [-> | [-> | [-> | ->]]]; (split; [reflexivity|]);
      cbn [property String.eqb Ascii.eqb Bool.eqb default];
      unfold or_else, truthy_opt;
      (destruct (bookData !! _) as [v|]; [intros ->|]; reflexivity). }
  split; [now rewrite new_book_lookup|].
  split; [now rewrite new_book_lookup|].
  split; [now rewrite new_book_lookup|].
  split; [now rewrite new_book_lookup|].
  intros f Hf. apply object_of_absent. exact Hf.
Qed.

End BookFacts.

Lemma addBook_appends_with_defaults_witness :
  let w := Sample.world (Sample.document Sample.library 12) in
  exists (b : Book) w' d',
    addBook "b6" "SOFIA" Fixture.moby w = (Ok b, w')
    /\ stored w' "SOFIA" d'
    /\ books d' = Sample.library ++ [b]
    /\ user d' = Sample.reader
    /\ (- 2 ^ 53 <= 12 < 2 ^ 53 -> operations d' = 12 + 1)
    /\ b !! "id" = Some (JStr "b6")
    /\ b !! "title" = Some (JStr "Moby Dick")
    /\ b !! "author" = Some (JStr "Melville")
    /\ (forall f, f ∈ ["genre"; "year"; "pages"; "rating"] ->
          b !! f = Some (or_else (Fixture.moby !! f) JNull)
          /\ (truthy_opt (Fixture.moby !! f) = false -> b !! f = Some JNull))
    /\ b !! "status" = Some (JStr "to-read")
    /\ b !! "notes" = Some (JStr "")
    /\ b !! "addedAt" = Some (JStr (Sample.time 0))
    /\ b !! "updatedAt" = Some (JStr (Sample.time 1))
    /\ (forall f, f ∉ book_fields -> b !! f = None).
Proof.
  refine (addBook_appends_with_defaults
            (Sample.world (Sample.document Sample.library 12)) "SOFIA"
            (Sample.document Sample.library 12) "b6" Fixture.moby _).
  vm_compute. reflexivity.
Defined.

Section BookRoundTrips.

Context {engine : Engine}.

Implicit Types (s id uuid : string) (w : World) (d : Doc)
  (u bookData : gmap string JValue) (l : list Book).

Lemma getBookById_stored w s d id :
  stored w s d -> getBookById s id w = (Ok (find (has_id id) (books d)), w).
Proof.
  intros H. unfold getBookById, bind. now rewrite (readStudentDb_stored _ _ _ H).
Qed.

Lemma new_book_id uuid bookData added updated :
  new_book uuid bookData added updated !! "id" = Some (JStr uuid).
Proof. now rewrite new_book_lookup. Qed.

(** X11. After [addBook] with an identifier that no stored book has,
    [getBookById] with that identifier returns the record just added, and
    with any other identifier what it returned before; [deleteBook] of the
    new identifier then brings the sequence of books back to what it
    was. *)
Theorem addBook_then_lookup w s d uuid bookData :
  stored w s d ->
  fresh_id uuid (books d) ->
  exists (b : Book) w',
    addBook uuid s bookData w = (Ok b, w')
    /\ getBookById s uuid w' = (Ok (Some b), w')
    /\ (forall id, id <> uuid ->
          (getBookById s id w').1 = (getBookById s id w).1)
    /\ exists w'' d'',
         deleteBook s uuid w' = (Ok (Some b), w'')
         /\ stored w'' s d''
         /\ books d'' = books d.
Proof.
  intros H Hfresh.
  pose proof (addBook_stored w s d uuid bookData H) as Hadd. simpl in Hadd.
  set (b := new_book uuid bookData (clock w (ticks w)) (clock w (S (ticks w))))
    in *.
  assert (Hb : b !! "id" = Some (JStr uuid)) by apply new_book_id.
  eexists b, _. split; [exact Hadd|].
  split.
  { erewrite getBookById_stored by apply stored_after_save. simpl.
    now rewrite (find_app_new uuid (books d) b Hfresh Hb). }
  split.
  { intros id Hid.
    erewrite getBookById_stored by apply stored_after_save.
    rewrite (getBookById_stored w s d id H). simpl. f_equal.
    apply find_app_other. rewrite Hb. congruence. }
  assert (Hidx : findIndex (has_id uuid) (books d ++ [b])
                 = Some (length (books d)))
    by (apply findIndex_unique; assumption).
  eexists _, _. split.
  { erewrite deleteBook_found; [|apply stored_after_save|exact Hidx].
    simpl. rewrite list_lookup_middle by reflexivity. reflexivity. }
  split; [apply stored_after_save|].
  simpl. rewrite delete_middle'. apply app_nil_r.
Qed.

(** X12. Identifiers that are pairwise distinct stay so under every
    mutation: an update or a delete, whatever its arguments, a reset, and an
    [addBook] whose identifier no stored book has. *)
Theorem unique_ids_invariant w s d :
  stored w s d ->
  unique_ids (books d) ->
  (forall id u d', stored (updateBook s id u w).2 s d' -> unique_ids (books d'))
  /\ (forall id d', stored (deleteBook s id w).2 s d' -> unique_ids (books d'))
  /\ (forall d', stored (resetDatabase s w).2 s d' -> unique_ids (books d'))
  /\ (forall uuid bookData d',
        fresh_id uuid (books d) ->
        stored (addBook uuid s bookData w).2 s d' -> unique_ids (books d')).
Proof.
  intros H Hu. unfold stored in *. split_and!.
  - intros id u d'. destruct (findIndex (has_id id) (books d)) as [i|] eqn:Hi.
    + rewrite (updateBook_found s id u w d i H Hi). simpl.
      rewrite lookup_insert_eq. intros [= <-]. simpl. unfold unique_ids.
      rewrite (list_fmap_alter _ _ (fun x => x)).
      * rewrite list_alter_id; [exact Hu|reflexivity].
      * apply Forall_forall. intros b _. apply updated_keeps_id.
    + rewrite (updateBook_missing s id u w d H Hi). simpl. rewrite H.
      now intros [= <-].
  - intros id d'. destruct (findIndex (has_id id) (books d)) as [i|] eqn:Hi.
    + rewrite (deleteBook_found s id w d i H Hi). simpl.
      rewrite lookup_insert_eq. intros [= <-]. simpl. unfold unique_ids.
      eapply sublist_NoDup; [exact Hu|]. apply fmap_sublist, sublist_delete.
    + rewrite (deleteBook_missing s id w d H Hi). simpl. rewrite H.
      now intros [= <-].
  - intros d'. rewrite (resetDatabase_stored w s d H). simpl.
    rewrite lookup_insert_eq. intros [= <-]. simpl. constructor.
  - intros uuid bookData d' Hfresh.
    rewrite (addBook_stored w s d uuid bookData H). simpl.
    rewrite lookup_insert_eq. intros [= <-]. simpl. unfold unique_ids.
    rewrite fmap_app. apply NoDup_app. split; [exact Hu|]. split.
    + intros x Hx Hin. apply list_elem_of_singleton in Hin.
      rewrite new_book_id in Hin. subst x.
      apply list_elem_of_fmap in Hx as (b & Hb & Hin).
      unfold fresh_id in Hfresh. rewrite Forall_forall in Hfresh.
      now apply (Hfresh b Hin).
    + apply NoDup_singleton.
Qed.

End BookRoundTrips.

Lemma addBook_then_lookup_witness :
  let w := Sample.world (Sample.document Sample.library 12) in
  exists (b : Book) w',
    addBook "b6" "SOFIA" Fixture.moby w = (Ok b, w')
    /\ getBookById "SOFIA" "b6" w' = (Ok (Some b), w')
    /\ (forall id, id <> "b6" ->
          (getBookById "SOFIA" id w').1 = (getBookById "SOFIA" id w).1)
    /\ exists w'' d'',
         deleteBook "SOFIA" "b6" w' = (Ok (Some b), w'')
         /\ stored w'' "SOFIA" d''
         /\ books d'' = Sample.library.
Proof.
  apply (addBook_then_lookup
           (Sample.world (Sample.document Sample.library 12)) "SOFIA"
           (Sample.document Sample.library 12) "b6" Fixture.moby).
  - vm_compute. reflexivity.
  - repeat constructor; vm_compute; discriminate.
Defined.

Lemma unique_ids_invariant_witness :
  let w := Sample.world (Sample.document Sample.library 12) in
  (forall id u d',
      stored (updateBook "SOFIA" id u w).2 "SOFIA" d' -> unique_ids (books d'))
  /\ (forall id d',
        stored (deleteBook "SOFIA" id w).2 "SOFIA" d' -> unique_ids (books d'))
  /\ (forall d',
        stored (resetDatabase "SOFIA" w).2 "SOFIA" d' -> unique_ids (books d'))
  /\ (forall uuid bookData d',
        fresh_id uuid Sample.library ->
        stored (addBook uuid "SOFIA" bookData w).2 "SOFIA" d' ->
        unique_ids (books d')).
Proof.
  apply (unique_ids_invariant
           (Sample.world (Sample.document Sample.library 12)) "SOFIA"
           (Sample.document Sample.library 12)).
  - vm_compute. reflexivity.
  - unfold unique_ids. vm_compute fmap. distinct_keys.
Defined.

Section BookRoutes.

Context {engine : Engine}.

Implicit Types (s id uuid : string) (w : World) (d : Doc)
  (u bookData : gmap string JValue) (l : list Book).

(** X13. [POST books] answers 400 without reading or writing anything
    when the title or the author is missing or falsy, and also when the
    status is truthy and not one of the four statuses. *)
Theorem post_book_validates uuid s bookData w :
  (truthy_opt (bookData !! "title") = false
   \/ truthy_opt (bookData !! "author") = false ->
   exists r, post_book uuid s bookData w = (Ok r, w) /\ status r = 400%nat)
  /\ (truthy_opt (bookData !! "status") = true ->
      valid_status (bookData !! "status") = false ->
      exists r, post_book uuid s bookData w = (Ok r, w) /\ status r = 400%nat).
Proof.
  unfold post_book, catch. split.
  - intros [Ht | Ha].
    + rewrite Ht. simpl. eexists. split; reflexivity.
    + rewrite Ha. rewrite orb_true_r. eexists. split; reflexivity.
  - intros Hs Hv. rewrite Hs, Hv.
    destruct (negb (truthy_opt (bookData !! "title"))
              || negb (truthy_opt (bookData !! "author")));
      simpl; eexists; split; reflexivity.
Qed.

Lemma valid_status_or_else (x : option JValue) :
  truthy_opt x && negb (valid_status x) = false ->
  valid_status (Some (or_else x (JStr "to-read"))) = true.
Proof.
  unfold or_else, truthy_opt. destruct x as [v|]; [|reflexivity].
  destruct (truthy v); [|reflexivity]. simpl.
  now intros ->%negb_false_iff.
Qed.

(** X14. Every book that [POST books] creates has a truthy title, a truthy
    author and one of the four statuses: when the route answers 201 for a
    stored document, the persisted sequence is the old one followed by the
    book returned, and that book satisfies the three conditions. *)
Theorem post_book_creates_valid_book uuid s bookData w d r w' :
  stored w s d ->
  post_book uuid s bookData w = (Ok r, w') ->
  status r = 201%nat ->
  exists (b : Book) d',
    stored w' s d'
    /\ books d' = books d ++ [b]
    /\ body r = JObj {[
         "message" := JStr "¡Libro agregado exitosamente a tu biblioteca! 📚";
         "book" := JObj b ]}
    /\ truthy_opt (b !! "title") = true
    /\ truthy_opt (b !! "author") = true
    /\ valid_status (b !! "status") = true
    /\ b !! "id" = Some (JStr uuid).
Proof.
  intros H. unfold post_book, catch.
  destruct (negb (truthy_opt (bookData !! "title"))
            || negb (truthy_opt (bookData !! "author"))) eqn:Hreq.
  { intros [= <- <-]. discriminate. }
  destruct (truthy_opt (bookData !! "status")
            && negb (valid_status (bookData !! "status"))) eqn:Hst.
  { intros [= <- <-]. discriminate. }
  unfold bind. rewrite (addBook_stored w s d uuid bookData H).
  intros [= <- <-] _.
  apply orb_false_iff in Hreq as [Ht Ha].
  apply negb_false_iff in Ht, Ha.
  eexists _, _. split; [apply stored_after_save|].
  split; [reflexivity|]. split; [reflexivity|].
  rewrite !new_book_lookup. cbn [property String.eqb Ascii.eqb Bool.eqb default].
  split; [exact Ht|]. split; [exact Ha|].
  split; [now apply valid_status_or_else|reflexivity].
Qed.

End BookRoutes.

Lemma post_book_creates_valid_book_witness :
  let w := Sample.world (Sample.document Sample.library 12) in
  let r := {| status := 201;
              body := JObj {[
                "message" := JStr "¡Libro agregado exitosamente a tu biblioteca! 📚";
                "book" := JObj (new_book "b6" Fixture.moby (Sample.time 0)
                                  (Sample.time 1)) ]} |} in
  exists (b : Book) d',
    stored (post_book "b6" "SOFIA" Fixture.moby w).2 "SOFIA" d'
    /\ books d' = Sample.library ++ [b]
    /\ body r = JObj {[
         "message" := JStr "¡Libro agregado exitosamente a tu biblioteca! 📚";
         "book" := JObj b ]}
    /\ truthy_opt (b !! "title") = true
    /\ truthy_opt (b !! "author") = true
    /\ valid_status (b !! "status") = true
    /\ b !! "id" = Some (JStr "b6").
Proof.
  apply (post_book_creates_valid_book "b6" "SOFIA" Fixture.moby
           (Sample.world (Sample.document Sample.library 12))
           (Sample.document Sample.library 12)).
  - vm_compute. reflexivity.
  - vm_compute. reflexivity.
  - reflexivity.
Defined.

Section BookUpdates.

Context {engine : Engine}.

Implicit Types (s id uuid : string) (w : World) (d : Doc)
  (u bookData : gmap string JValue) (l : list Book).

Lemma find_Some_findIndex {A} (p : A -> bool) (l : list A) (x : A) :
  find p l = Some x -> exists i, findIndex p l = Some i /\ l !! i = Some x.
Proof.
  rewrite find_findIndex. destruct (findIndex p l) as [i|]; [|discriminate].
  simpl. intros H. now exists i.
Qed.

Lemma find_alter_other {A} (p : A -> bool) (f : A -> A) (l : list A) i x :
  l !! i = Some x -> p x = false -> p (f x) = false ->
  find p (alter f i l) = find p l.
Proof.
  revert i. induction l as [|y l IH]; intros [|i]; cbn; try discriminate.
  - intros [= ->] -> ->. reflexivity.
  - intros Hx Hp Hf. destruct (p y); [reflexivity|]. now apply IH.
Qed.

Lemma has_id_updated id u t (b : Book) :
  has_id id (updated u t b) = has_id id b.
Proof. unfold has_id. now rewrite updated_keeps_id. Qed.

Lemma find_has_id id l (b : Book) :
  find (has_id id) l = Some b -> b !! "id" = Some (JStr id).
Proof.
  intros H. apply find_some in H as [_ H]. now apply has_id_true.
Qed.

(** X15. After [updateBook] of a book that is there, [getBookById] with
    the same identifier returns the record the update returned. That record
    has the clock reading of the update as [updatedAt], the request's value
    in every allow-listed field that the request defines, and the old
    record's value, or none, in every other field. A lookup with any other
    identifier returns what it returned before, the number of books and the
    user are as they were, and the operation counter, when it is below
    [2^53], is one higher. *)
Theorem updateBook_then_lookup w s d id u (b : Book) :
  stored w s d ->
  find (has_id id) (books d) = Some b ->
  exists w' d' (book' : Book),
    updateBook s id u w = (Ok (Some book'), w')
    /\ getBookById s id w' = (Ok (Some book'), w')
    /\ (forall f,
          book' !! f
          = if decide (f = "updatedAt") then Some (JStr (clock w (ticks w)))
            else if decide (f ∈ allowedFields)
                 then match u !! f with Some v => Some v | None => b !! f end
                 else b !! f)
    /\ (forall id', id' <> id ->
          (getBookById s id' w').1 = (getBookById s id' w).1)
    /\ stored w' s d'
    /\ length (books d') = length (books d)
    /\ user d' = user d
    /\ (- 2 ^ 53 <= operations d < 2 ^ 53 ->
        operations d' = operations d + 1).
Proof.
  intros H Hb.
  destruct (find_Some_findIndex _ _ _ Hb) as (i & Hi & Hlook).
  pose proof (find_has_id _ _ _ Hb) as Hid.
  pose proof (updateBook_found s id u w d i H Hi) as Hup. simpl in Hup.
  rewrite list_lookup_alter, Hlook, decide_True in Hup by reflexivity.
  simpl in Hup.
  eexists _, _, _. split; [exact Hup|].
  split.
  { erewrite getBookById_stored by apply stored_after_save. simpl.
    rewrite find_findIndex.
    rewrite findIndex_alter by (intros x; apply has_id_updated).
    rewrite Hi. simpl.
    now rewrite list_lookup_alter, Hlook, decide_True by reflexivity. }
  split; [apply updated_lookup|].
  split.
  { intros id' Hne.
    erewrite getBookById_stored by apply stored_after_save.
    rewrite (getBookById_stored w s d id' H). simpl. f_equal.
    assert (Hno : has_id id' b = false).
    { apply has_id_false. rewrite Hid. congruence. }
    apply (find_alter_other _ _ _ _ b Hlook Hno).
    now rewrite has_id_updated. }
  split; [apply stored_after_save|].
  split; [simpl; apply length_alter|].
  split; [reflexivity|].
  intros Hsafe. unfold operations in *. simpl. apply num_succ_exact. lia.
Qed.

(** X16. For an identifier that no stored book has, [GET], [PUT] and
    [DELETE] of the book answer 404 [BOOK_NOT_FOUND] and leave the world as
    it was: nothing is saved, the operation counter does not move and the
    clock is not read. A [PUT] whose status is truthy and not one of the
    four answers 400 instead, before looking the book up. *)
Theorem unknown_id_not_found w s d id u :
  stored w s d ->
  fresh_id id (books d) ->
  get_book s id w = (Ok book_not_found, w)
  /\ delete_book s id w = (Ok book_not_found, w)
  /\ put_book s id u w
     = (Ok (if truthy_opt (u !! "status") && negb (valid_status (u !! "status"))
            then invalid_status else book_not_found), w).
Proof.
  intros H Hfresh.
  pose proof (findIndex_fresh id (books d) Hfresh) as Hi.
  split_and!.
  - unfold get_book, catch, bind.
    rewrite (getBookById_stored w s d id H), find_findIndex, Hi. reflexivity.
  - unfold delete_book, catch, bind.
    now rewrite (deleteBook_missing s id w d H Hi).
  - unfold put_book, catch.
    destruct (truthy_opt (u !! "status") && negb (valid_status (u !! "status")));
      [reflexivity|].
    unfold bind. now rewrite (updateBook_missing s id u w d H Hi).
Qed.

End BookUpdates.

Lemma updateBook_then_lookup_witness :
  let w := Sample.world (Sample.document Sample.library 12) in
  let u : gmap string JValue := {[ "rating" := JNum 5; "id" := JStr "b9" ]} in
  exists w' d' (book' : Book),
    updateBook "SOFIA" "b2" u w = (Ok (Some book'), w')
    /\ getBookById "SOFIA" "b2" w' = (Ok (Some book'), w')
    /\ (forall f,
          book' !! f
          = if decide (f = "updatedAt") then Some (JStr (Sample.time 0))
            else if decide (f ∈ allowedFields)
                 then match u !! f with
                      | Some v => Some v
                      | None => Sample.emma !! f
                      end
                 else Sample.emma !! f)
    /\ (forall id', id' <> "b2" ->
          (getBookById "SOFIA" id' w').1 = (getBookById "SOFIA" id' w).1)
    /\ stored w' "SOFIA" d'
    /\ length (books d') = 5%nat
    /\ user d' = Sample.reader
    /\ (- 2 ^ 53 <= 12 < 2 ^ 53 -> operations d' = 12 + 1).
Proof.
  refine (updateBook_then_lookup
            (Sample.world (Sample.document Sample.library 12)) "SOFIA"
            (Sample.document Sample.library 12) "b2"
            {[ "rating" := JNum 5; "id" := JStr "b9" ]} Sample.emma _ _).
  - vm_compute. reflexivity.
  - vm_compute. reflexivity.
Defined.

Lemma unknown_id_not_found_witness :
  let w := Sample.world (Sample.document Sample.library 12) in
  let u : gmap string JValue := {[ "status" := JStr "lost" ]} in
  get_book "SOFIA" "b9" w = (Ok book_not_found, w)
  /\ delete_book "SOFIA" "b9" w = (Ok book_not_found, w)
  /\ put_book "SOFIA" "b9" u w
     = (Ok (if truthy_opt (u !! "status") && negb (valid_status (u !! "status"))
            then invalid_status else book_not_found), w).
Proof.
  apply (unknown_id_not_found
           (Sample.world (Sample.document Sample.library 12)) "SOFIA"
           (Sample.document Sample.library 12) "b9"
           {[ "status" := JStr "lost" ]}).
  - vm_compute. reflexivity.
  - repeat constructor; vm_compute; discriminate.
Defined.

Section Faults.

Context {engine : Engine}.

Implicit Types (s id uuid : string) (w : World) (d : Doc)
  (u bookData request query : gmap string JValue).

Lemma strict_eq_true (x : option JValue) :
  strict_eq x (Some (JBool true)) = true <-> x = Some (JBool true).
Proof.
  unfold strict_eq. destruct x as [[|[|]| | | |]|]; split;
    try discriminate; reflexivity.
Qed.

(** X17. When the tenant's file is there and cannot be read, because its
    content does not parse or it cannot be opened, every books route and
    the reset answer 500 once the request has passed their validation, the
    statistics raise, and the world stays as it was: the file is not
    replaced by an empty document. *)
Theorem storage_fault_answers_500 w s id uuid u bookData request query :
  faulty w s ->
  get_books s query w = (Ok internal_error, w)
  /\ get_book s id w = (Ok internal_error, w)
  /\ delete_book s id w = (Ok internal_error, w)
  /\ put_book s id u w
     = (Ok (if truthy_opt (u !! "status") && negb (valid_status (u !! "status"))
            then invalid_status else internal_error), w)
  /\ (truthy_opt (bookData !! "title") = true ->
      truthy_opt (bookData !! "author") = true ->
      truthy_opt (bookData !! "status")
      && negb (valid_status (bookData !! "status")) = false ->
      post_book uuid s bookData w = (Ok internal_error, w))
  /\ (request !! "confirmReset" = Some (JBool true) ->
      request !! "confirmation" = Some (JStr "DELETE_ALL_MY_DATA") ->
      delete_reset s request w = (Ok internal_error, w))
  /\ (exists e, getStats s w = (Raise e, w)).
Proof.
  intros Hf. destruct (readStudentDb_faulty w s Hf) as [e He].
  split_and!.
  - unfold get_books, catch, bind, getBooks, bind. now rewrite He.
  - unfold get_book, catch, bind, getBookById, bind. now rewrite He.
  - unfold delete_book, catch, bind, deleteBook, bind. now rewrite He.
  - unfold put_book, catch.
    destruct (truthy_opt (u !! "status") && negb (valid_status (u !! "status")));
      [reflexivity|].
    unfold bind, updateBook, bind. now rewrite He.
  - intros Ht Ha Hs. unfold post_book, catch. rewrite Ht, Ha, Hs. simpl.
    unfold bind, addBook, bind. now rewrite He.
  - intros Hc Hd. unfold delete_reset, catch. rewrite Hc, Hd. simpl.
    unfold bind, resetDatabase, bind. now rewrite He.
  - exists e. unfold getStats, bind. now rewrite He.
Qed.

(** X18. The reset route does nothing unless the body has [confirmReset]
    strictly equal to [true] and [confirmation] equal to the text
    [DELETE_ALL_MY_DATA]: otherwise it answers 400 and the world is as it
    was. With both, on a stored document, it answers 200, reports the number
    of books deleted and the operation count before the reset, and the stored
    document then has no book and the same user. *)
Theorem delete_reset_requires_confirmation w s request :
  (request !! "confirmReset" <> Some (JBool true)
   \/ request !! "confirmation" <> Some (JStr "DELETE_ALL_MY_DATA") ->
   exists r, delete_reset s request w = (Ok r, w) /\ status r = 400%nat)
  /\ (forall d,
        stored w s d ->
        request !! "confirmReset" = Some (JBool true) ->
        request !! "confirmation" = Some (JStr "DELETE_ALL_MY_DATA") ->
        exists r w' d' m,
          delete_reset s request w = (Ok r, w')
          /\ status r = 200%nat
          /\ body r = JObj m
          /\ m !! "deletedItems"
             = Some (JObj {[
                 "deletedBooks" := JNum (Z.of_nat (length (books d)));
                 "totalOperations" := JNum (operations d) ]})
          /\ stored w' s d'
          /\ books d' = []
          /\ user d' = user d).
Proof.
  split.
  - intros Hno. unfold delete_reset, catch.
    destruct (strict_eq (request !! "confirmReset") (Some (JBool true))) eqn:Hc;
      simpl; [|eexists; split; reflexivity].
    destruct (strict_eq (request !! "confirmation")
                (Some (JStr "DELETE_ALL_MY_DATA"))) eqn:Hd;
      simpl; [|eexists; split; reflexivity].
    apply strict_eq_true in Hc. apply strict_eq_text in Hd.
    destruct Hno as [Hno | Hno]; contradiction.
  - intros d H Hc Hd. unfold delete_reset, catch. rewrite Hc, Hd. simpl.
    unfold bind at 1.
    pose proof (resetDatabase_stored w s d H) as Hr. simpl in Hr. rewrite Hr.
    unfold bind, now, ret. simpl.
    eexists _, _, _, _. split; [reflexivity|].
    split; [reflexivity|]. split; [reflexivity|].
    split; [reflexivity|].
    split; [apply stored_after_save|]. split; reflexivity.
Qed.

End Faults.

Lemma storage_fault_answers_500_witness :
  let w := Fixture.corrupt in
  let u : gmap string JValue := {[ "status" := JStr "read" ]} in
  let request : gmap string JValue :=
    {[ "confirmReset" := JBool true;
       "confirmation" := JStr "DELETE_ALL_MY_DATA" ]} in
  get_books "SOFIA" ∅ w = (Ok internal_error, w)
  /\ get_book "SOFIA" "b1" w = (Ok internal_error, w)
  /\ delete_book "SOFIA" "b1" w = (Ok internal_error, w)
  /\ put_book "SOFIA" "b1" u w
     = (Ok (if truthy_opt (u !! "status") && negb (valid_status (u !! "status"))
            then invalid_status else internal_error), w)
  /\ (truthy_opt (Fixture.moby !! "title") = true ->
      truthy_opt (Fixture.moby !! "author") = true ->
      truthy_opt (Fixture.moby !! "status")
      && negb (valid_status (Fixture.moby !! "status")) = false ->
      post_book "b6" "SOFIA" Fixture.moby w = (Ok internal_error, w))
  /\ (request !! "confirmReset" = Some (JBool true) ->
      request !! "confirmation" = Some (JStr "DELETE_ALL_MY_DATA") ->
      delete_reset "SOFIA" request w = (Ok internal_error, w))
  /\ (exists e, getStats "SOFIA" w = (Raise e, w)).
Proof.
  apply (storage_fault_answers_500 Fixture.corrupt "SOFIA" "b1" "b6"
           {[ "status" := JStr "read" ]} Fixture.moby
           {[ "confirmReset" := JBool true;
              "confirmation" := JStr "DELETE_ALL_MY_DATA" ]} ∅).
  left. vm_compute. reflexivity.
Defined.

Section StatusCounts.

Context {engine : Engine}.

Implicit Types (s : string) (w : World) (d : Doc) (l : list Book).

Lemma count_status_cons (b : Book) l t :
  count_status (b :: l) t
  = (if strict_eq (b !! "status") (Some (JStr t)) then 1 else 0)
    + count_status l t.
Proof.
  unfold count_status. rewrite filter_cons.
  destruct (decide _) as [Hd|Hd]; cbn beta in Hd;
    destruct (strict_eq (b !! "status") (Some (JStr t)));
    try (now destruct Hd); try (now destruct (Hd I)).
  - simpl length. lia.
  - lia.
Qed.

Lemma status_indicator (b : Book) :
  (if strict_eq (b !! "status") (Some (JStr "read")) then 1 else 0)
  + (if strict_eq (b !! "status") (Some (JStr "reading")) then 1 else 0)
  + (if strict_eq (b !! "status") (Some (JStr "to-read")) then 1 else 0)
  + (if strict_eq (b !! "status") (Some (JStr "abandoned")) then 1 else 0)
  = if valid_status (b !! "status") then 1 else 0.
Proof.
  unfold valid_status, BOOK_STATUSES, strict_eq.
  destruct (b !! "status") as [[| | |t| |]|]; try reflexivity.
  cbn [existsb]. rewrite !(String.eqb_sym _ t).
  destruct (String.eqb_spec t "to-read") as [->|]; [reflexivity|].
  destruct (String.eqb_spec t "reading") as [->|]; [reflexivity|].
  destruct (String.eqb_spec t "read") as [->|]; [reflexivity|].
  destruct (String.eqb_spec t "abandoned") as [->|]; reflexivity.
Qed.

Lemma counted_cons (b : Book) l :
  counted (b :: l)
  = (if valid_status (b !! "status") then 1 else 0) + counted l.
Proof.
  unfold counted. rewrite !count_status_cons, <- status_indicator. lia.
Qed.

Lemma counted_bounds l :
  0 <= counted l <= Z.of_nat (length l)
  /\ (counted l = Z.of_nat (length l)
      <-> Forall (fun b : Book => valid_status (b !! "status") = true) l).
Proof.
  induction l as [|b l [IH1 IH2]].
  - split; [unfold counted, count_status; simpl; lia|].
    split; [constructor|reflexivity].
  - rewrite counted_cons. simpl length. rewrite Forall_cons.
    destruct (valid_status (b !! "status")).
    + split; [lia|]. rewrite <- IH2.
      split; [intros; split; [reflexivity|lia]|intros [_ ?]; lia].
    + split; [lia|]. split; [lia|intros [? _]; discriminate].
Qed.

Lemma getStats_library w s d st w' :
  stored w s d ->
  getStats s w = (Ok st, w') ->
  Stats.library st
  = {| Stats.totalBooks := Z.of_nat (length (books d));
       Stats.booksRead := count_status (books d) "read";
       Stats.booksReading := count_status (books d) "reading";
       Stats.booksToRead := count_status (books d) "to-read";
       Stats.booksAbandoned := count_status (books d) "abandoned" |}.
Proof.
  intros H. unfold getStats, bind at 1.
  rewrite (readStudentDb_stored _ _ _ H). cbv zeta.
  unfold bind at 1, lift at 1.
  destruct (sum_from _ (field_values "pages" _)) as [tp|]; [|discriminate].
  unfold bind at 1, lift at 1.
  destruct (sum_from _ (field_values "rating" _)) as [tr|]; [|discriminate].
  unfold bind at 1.
  destruct (count_dated same_year (books d) w) as [[n1|] w1]; [|discriminate].
  unfold bind at 1.
  destruct (count_dated same_month (books d) w1) as [[n2|] w2]; [|discriminate].
  unfold bind at 1, lift at 1.
  destruct (genre_keys (books d)) as [genres|]; [|discriminate].
  unfold bind at 1, lift at 1.
  destruct (author_keys (books d)) as [authors|]; [|discriminate].
  unfold ret. intros [= <- <-]. reflexivity.
Qed.

(** X19. In the statistics that [getStats] returns for a stored document,
    [totalBooks] is the number of books and the four status counters add up
    to at most that number; they add up to exactly [totalBooks] when, and
    only when, every book has one of the four statuses. *)
Theorem status_counters_partition w s d st w' :
  stored w s d ->
  getStats s w = (Ok st, w') ->
  Stats.totalBooks (Stats.library st) = Z.of_nat (length (books d))
  /\ (let total :=
        Stats.booksRead (Stats.library st)
        + Stats.booksReading (Stats.library st)
        + Stats.booksToRead (Stats.library st)
        + Stats.booksAbandoned (Stats.library st) in
      0 <= total <= Stats.totalBooks (Stats.library st)
      /\ (total = Stats.totalBooks (Stats.library st)
          <-> Forall (fun b : Book => valid_status (b !! "status") = true)
                (books d))).
Proof.
  intros H Hrun. rewrite (getStats_library w s d st w' H Hrun).
  split; [reflexivity|].
  cbn [Stats.library Stats.totalBooks Stats.booksRead Stats.booksReading
       Stats.booksToRead Stats.booksAbandoned].
  exact (counted_bounds (books d)).
Qed.

End StatusCounts.

Lemma status_counters_partition_witness :
  let w := Sample.world (Sample.document Sample.library 12) in
  exists st w',
    getStats "SOFIA" w = (Ok st, w')
    /\ Stats.totalBooks (Stats.library st) = 5
    /\ (let total :=
          Stats.booksRead (Stats.library st)
          + Stats.booksReading (Stats.library st)
          + Stats.booksToRead (Stats.library st)
          + Stats.booksAbandoned (Stats.library st) in
        0 <= total <= Stats.totalBooks (Stats.library st)
        /\ (total = Stats.totalBooks (Stats.library st)
            <-> Forall (fun b : Book => valid_status (b !! "status") = true)
                  Sample.library)).
Proof.
  intros w.
  assert (H : stored w "SOFIA" (Sample.document Sample.library 12))
    by (vm_compute; reflexivity).
  destruct (getStats "SOFIA" w) as [[st|e] w'] eqn:Hrun.
  - exists st, w'. split; [reflexivity|].
    exact (status_counters_partition w "SOFIA"
             (Sample.document Sample.library 12) st w' H Hrun).
  - vm_compute in Hrun. discriminate.
Defined.

Section FirstUse.

Context {engine : Engine}.

Implicit Types (s id uuid : string) (w : World) (d : Doc)
  (u bookData : gmap string JValue).

Lemma readStudentDb_created w s :
  files w !! getDbPath s = None ->
  readStudentDb s w
  = (Ok {| user := JNull; books := [];
           metadata := Some {| createdAt := Some (clock w (ticks w));
                               lastAccess := Some (clock w (S (ticks w)));
                               totalOperations := Some 0;
                               resetAt := None;
                               previousOperations := None |} |},
     tick (tick w)).
Proof.
  intros H. unfold readStudentDb, catch, read_json. rewrite H. reflexivity.
Qed.

(** X20. A tenant's file is created by the first save, not by reading:
    while the file is missing, the user reads as [null], every book lookup,
    update and delete finds nothing, and none of them creates the file;
    the first [addBook] creates it (the path being writable), holding that
    one book, no user, the creation time read at the start of the call and
    an operation count of 1. *)
Theorem file_created_by_first_save w s :
  files w !! getDbPath s = None ->
  ((getUser s w).1 = Ok JNull /\ files (getUser s w).2 = files w)
  /\ (forall id,
        (getBookById s id w).1 = Ok None
        /\ files (getBookById s id w).2 = files w)
  /\ (forall id u,
        (updateBook s id u w).1 = Ok None
        /\ files (updateBook s id u w).2 = files w)
  /\ (forall id,
        (deleteBook s id w).1 = Ok None
        /\ files (deleteBook s id w).2 = files w)
  /\ (forall uuid bookData,
        exists (b : Book) w' d',
          addBook uuid s bookData w = (Ok b, w')
          /\ stored w' s d'
          /\ books d' = [b]
          /\ user d' = JNull
          /\ operations d' = 1
          /\ metadata d' ≫= createdAt = Some (clock w (ticks w))).
Proof.
  intros H. pose proof (readStudentDb_created w s H) as Hr.
  split; [|split; [|split; [|split]]].
  - unfold getUser, bind. rewrite Hr. split; reflexivity.
  - intros id. unfold getBookById, bind. rewrite Hr. split; reflexivity.
  - intros id u. unfold updateBook, bind. rewrite Hr. split; reflexivity.
  - intros id. unfold deleteBook, bind. rewrite Hr. split; reflexivity.
  - intros uuid bookData. unfold addBook, bind at 1. rewrite Hr.
    unfold bind, now. cbn [ticks clock files journal tick].
    rewrite writeStudentDb_ok by (simpl; rewrite H; discriminate).
    eexists _, _, _. split; [reflexivity|].
    split; [apply stored_after_save|]. repeat split; reflexivity.
Qed.

End FirstUse.

Lemma file_created_by_first_save_witness :
  let w := Fixture.blank in
  let s := "SOFIA" in
  ((getUser s w).1 = Ok JNull /\ files (getUser s w).2 = files w)
  /\ (forall id,
        (getBookById s id w).1 = Ok None
        /\ files (getBookById s id w).2 = files w)
  /\ (forall id u,
        (updateBook s id u w).1 = Ok None
        /\ files (updateBook s id u w).2 = files w)
  /\ (forall id,
        (deleteBook s id w).1 = Ok None
        /\ files (deleteBook s id w).2 = files w)
  /\ (forall uuid bookData,
        exists (b : Book) w' d',
          addBook uuid s bookData w = (Ok b, w')
          /\ stored w' s d'
          /\ books d' = [b]
          /\ user d' = JNull
          /\ operations d' = 1
          /\ metadata d' ≫= createdAt = Some (Sample.time 0)).
Proof.
  apply (file_created_by_first_save Fixture.blank "SOFIA").
  vm_compute. reflexivity.
Defined.

Section Selection.

Context {engine : Engine}.

Implicit Types (s : string) (w : World) (d : Doc)
  (filters query : gmap string JValue) (l all : list Book).

Lemma Forall_sublist {A} (P : A -> Prop) (l1 l2 : list A) :
  sublist l1 l2 -> Forall P l2 -> Forall P l1.
Proof.
  induction 1 as [|x l1 l2 _ IH|x l1 l2 _ IH]; intros HP.
  - constructor.
  - inversion HP; subst. constructor; auto.
  - inversion HP; subst. auto.
Qed.

Lemma filter_r_sublist {A} (p : A -> Result bool) (l l' : list A) :
  filter_r p l = Ok l' ->
  sublist l' l /\ Forall (fun x => p x = Ok true) l'.
Proof.
  revert l'. induction l as [|x l IH]; simpl; intros l'.
  - intros [= <-]. split; constructor.
  - unfold rbind. destruct (p x) as [keep|] eqn:Hx; [|discriminate].
    destruct (filter_r p l) as [r|]; [|discriminate].
    destruct (IH r eq_refl) as [Hsub Hall].
    intros [= <-]. destruct keep.
    + split; [now apply sublist_skip|now constructor].
    + split; [now apply sublist_cons|exact Hall].
Qed.

Lemma filter_r_ext {A} (p q : A -> Result bool) (l : list A) :
  (forall x, p x = q x) -> filter_r p l = filter_r q l.
Proof.
  intros H. induction l as [|x l IH]; simpl; [reflexivity|].
  now rewrite H, IH.
Qed.

Lemma filter_r_raises {A} (p : A -> Result bool) (l : list A) (x : A) e :
  x ∈ l -> p x = Raise e ->
  (forall y e', p y = Raise e' -> e' = e) ->
  filter_r p l = Raise e.
Proof.
  intros Hin Hx Honly. induction l as [|y l IH]; [inversion Hin|].
  simpl. unfold rbind. destruct (p y) as [keep|e'] eqn:Hy.
  - apply elem_of_cons in Hin as [-> | Hin]; [congruence|].
    now rewrite (IH Hin).
  - now rewrite (Honly y e' Hy).
Qed.

Lemma stage_sublist (o : option JValue) (p : JValue -> Book -> Result bool)
    l l' :
  match o with
  | Some g => if truthy g then filter_r (p g) l else Ok l
  | None => Ok l
  end = Ok l' ->
  sublist l' l
  /\ forall g, o = Some g -> truthy g = true ->
       Forall (fun x => p g x = Ok true) l'.
Proof.
  destruct o as [g|].
  - destruct (truthy g) eqn:Hg.
    + intros H. destruct (filter_r_sublist _ _ _ H) as [Hs Ha].
      split; [exact Hs|]. now intros ? [= <-] _.
    + intros [= <-]. split; [reflexivity|]. intros ? [= <-]. congruence.
  - intros [= <-]. split; [reflexivity|]. discriminate.
Qed.

Lemma strict_eq_eq (x y : option JValue) : strict_eq x y = true -> x = y.
Proof.
  unfold strict_eq.
  destruct x as [[|a|a|a| |]|], y as [[|b|b|b| |]|]; try discriminate;
    try reflexivity.
  - intros H. apply Bool.eqb_prop in H. now subst.
  - intros H. apply Z.eqb_eq in H. now subst.
  - intros H. apply String.eqb_eq in H. now subst.
Qed.

Lemma field_includes_true field g (b : Book) :
  field_includes field (JStr g) b = Ok true ->
  exists t, b !! field = Some (JStr t)
            /\ includes (toLowerCase t) (toLowerCase g) = true.
Proof.
  unfold field_includes, call_toLowerCase, rbind.
  destruct (b !! field) as [[| | |t| |]|]; try discriminate.
  intros [= H]. now exists t.
Qed.

Lemma stage_sublist' (c : bool) (p : Book -> Result bool) l l' :
  (if c then filter_r p l else Ok l) = Ok l' -> sublist l' l.
Proof.
  destruct c; [|now intros [= <-]].
  intros H. now destruct (filter_r_sublist _ _ _ H).
Qed.

Lemma sublist_status_filter (p : Book -> bool) (c : bool) l :
  sublist (if c then filter p l else l) l.
Proof. destruct c; [apply sublist_filter|reflexivity]. Qed.

(** X21. Without a sort field, the selection of [getBooks] keeps books of
    the document in the order they have there and adds none. Every book
    kept has the status asked for, when a (truthy) status is asked for, and
    a text genre, or author, that contains the text asked for when the two
    are compared in lower case. *)
Theorem selection_is_filtered_sublist filters all l :
  truthy_opt (filters !! "sort") = false ->
  selectBooks filters all = Ok l ->
  sublist l all
  /\ (truthy_opt (filters !! "status") = true ->
      Forall (fun b : Book => b !! "status" = filters !! "status") l)
  /\ (forall field g,
        field ∈ ["genre"; "author"] ->
        filters !! field = Some (JStr g) -> g <> "" ->
        Forall (fun b : Book =>
                  exists t, b !! field = Some (JStr t)
                            /\ includes (toLowerCase t) (toLowerCase g) = true)
          l).
Proof.
  intros Hsort Hsel. unfold selectBooks, rbind in Hsel.
  lazymatch type of Hsel with
  | match ?X with _ => _ end = _ => destruct X as [l1|] eqn:E1; [|discriminate]
  end.
  lazymatch type of Hsel with
  | match ?X with _ => _ end = _ => destruct X as [l3|] eqn:E3; [|discriminate]
  end.
  lazymatch type of Hsel with
  | match ?X with _ => _ end = _ => destruct X as [l4|] eqn:E4; [|discriminate]
  end.
  lazymatch type of Hsel with
  | match ?X with _ => _ end = _ => destruct X as [l5|] eqn:E5; [|discriminate]
  end.
  apply stage_sublist in E1 as [S1 G1]. apply stage_sublist in E3 as [S3 A3].
  apply (stage_sublist (filters !! "year")
           (fun y book => js_loose_eq (of_lookup (book !! "year")) (VJson y)))
    in E4 as [S4 _].
  apply stage_sublist' in E5.
  assert (Hl : sublist l l3).
  { destruct (filters !! "sort") as [f|]; simpl in Hsort;
      [rewrite Hsort in Hsel|]; injection Hsel as <-;
      exact (transitivity E5 S4). }
  clear Hsel.
  assert (Hl1 : sublist l l1).
  { etrans; [exact Hl|]. etrans; [exact S3|]. apply sublist_status_filter. }
  assert (Htext : forall g, g <> "" -> truthy (JStr g) = true).
  { intros g Hg. simpl. now destruct (String.eqb_spec g ""). }
  split; [exact (transitivity Hl1 S1)|]. split.
  - intros Hst. rewrite Hst in S3.
    apply (Forall_sublist _ _ _ (transitivity Hl S3)).
    apply Forall_forall. intros b Hb.
    apply list_elem_of_filter in Hb as [Hb _].
    apply strict_eq_eq. now apply Is_true_true.
  - intros field g Hfield Hlook Hg.
    apply elem_of_cons in Hfield as [-> | Hfield];
      [|apply elem_of_cons in Hfield as [-> | Hfield]; [|inversion Hfield]].
    + apply (Forall_sublist _ _ _ Hl1).
      eapply Forall_impl; [exact (G1 _ Hlook (Htext g Hg))|].
      intros b. apply field_includes_true.
    + apply (Forall_sublist _ _ _ Hl).
      eapply Forall_impl; [exact (A3 _ Hlook (Htext g Hg))|].
      intros b. apply field_includes_true.
Qed.

Lemma field_includes_raises_only field g (b : Book) e :
  field_includes field g b = Raise e -> e = TypeError.
Proof.
  unfold field_includes, call_toLowerCase, rbind.
  destruct (b !! field) as [[| | |t| |]|]; try discriminate;
    try (now intros [= <-]).
  destruct g; try discriminate; now intros [= <-].
Qed.

(** X22. A stored genre that is neither [null] nor a text breaks the genre
    filter: with such a book in the stored document, every listing that asks
    for a (truthy) genre answers 500 and changes nothing, whatever the other
    filters are. *)
Theorem genre_filter_fails_on_non_text w s d query (b : Book) v g :
  stored w s d ->
  b ∈ books d ->
  b !! "genre" = Some v ->
  not_text v ->
  query !! "genre" = Some g ->
  truthy g = true ->
  get_books s query w = (Ok internal_error, w).
Proof.
  intros H Hb Hv [Hnull Htext] Hg Tg.
  assert (Hraise : field_includes "genre" g b = Raise TypeError).
  { unfold field_includes. rewrite Hv.
    destruct v as [| | |t| |]; try reflexivity; [now destruct Hnull|].
    now destruct (Htext t). }
  assert (Hsel : selectBooks query (books d) = Raise TypeError).
  { unfold selectBooks. rewrite Hg, Tg.
    rewrite (filter_r_raises _ _ b TypeError Hb Hraise); [reflexivity|].
    intros y e. apply field_includes_raises_only. }
  unfold get_books, catch, bind, getBooks, bind, lift.
  now rewrite (readStudentDb_stored _ _ _ H), Hsel.
Qed.

Lemma toLowerCase_empty_iff g : toLowerCase g = "" <-> g = "".
Proof.
  split; [apply toLowerCase_empty|]. intros ->.
  now rewrite toLowerCase_ascii.
Qed.

Lemma field_includes_case field g1 g2 (b : Book) :
  toLowerCase g1 = toLowerCase g2 ->
  field_includes field (JStr g1) b = field_includes field (JStr g2) b.
Proof.
  intros H. unfold field_includes, call_toLowerCase, rbind.
  destruct (b !! field) as [[| | |t| |]|]; try reflexivity. now rewrite H.
Qed.

(** X23. The genre and author filters do not see letter case in the text
    asked for: two requests that differ only in a genre, or only in an
    author, whose lower-case forms are equal select the same books. *)
Theorem filter_text_ignores_case filters all field g1 g2 :
  field ∈ ["genre"; "author"] ->
  toLowerCase g1 = toLowerCase g2 ->
  selectBooks (<[field := JStr g1]> filters) all
  = selectBooks (<[field := JStr g2]> filters) all.
Proof.
  intros Hfield Hcase.
  assert (Ht : truthy (JStr g1) = truthy (JStr g2)).
  { assert (Hempty : g1 = "" <-> g2 = "")
      by now rewrite <- (toLowerCase_empty_iff g1),
                     <- (toLowerCase_empty_iff g2), Hcase.
    simpl. f_equal.
    destruct (String.eqb_spec g1 ""), (String.eqb_spec g2 "");
      try reflexivity; exfalso; tauto. }
  apply elem_of_cons in Hfield as [-> | Hfield];
    [|apply elem_of_cons in Hfield as [-> | Hfield]; [|inversion Hfield]];
    unfold selectBooks;
    rewrite !lookup_insert_eq, !lookup_insert_ne by discriminate;
    rewrite Ht; destruct (truthy (JStr g2)); try reflexivity.
  - now rewrite (filter_r_ext _ _ _ (fun b => field_includes_case "genre" g1 g2 b Hcase)).
  - destruct (match filters !! "genre" with Some g => _ | None => _ end);
      [|reflexivity]. cbn [rbind].
    now rewrite (filter_r_ext _ _ _ (fun b => field_includes_case "author" g1 g2 b Hcase)).
Qed.

Lemma classic_text (o : option JValue) :
  (exists t, o = Some (JStr t)) \/ (forall t, o <> Some (JStr t)).
Proof.
  destruct o as [[| | |t| |]|]; try (right; intros ?; discriminate).
  left. now exists t.
Qed.

Lemma get_text (o : gmap string JValue) k t :
  get o k = VJson (JStr t) <-> o !! k = Some (JStr t).
Proof.
  unfold get. destruct (o !! k) as [v|].
  - split; congruence.
  - destruct (inherited k); split; discriminate.
Qed.

Lemma ToString_raises (v : JValue) e : ToString v = Raise e -> e = TypeError.
Proof.
  revert v e. fix IH 1. intros [|[]| | |l|m] e; simpl; try discriminate.
  - match goal with
    | |- context [rbind (?j l) _] => set (join := j)
    end.
    assert (Hj : forall e, join l = Raise e -> e = TypeError).
    { clear e. induction l as [|x l IHl]; intros e; simpl; [discriminate|].
      destruct (match x with JNull => Ok "" | _ => ToString x end) eqn:Hx;
        simpl.
      - destruct (join l) eqn:Hl; simpl; [discriminate|].
        intros [= <-]. now apply IHl.
      - intros [= <-]. apply (IH x). destruct x; try discriminate; exact Hx. }
    destruct (join l) eqn:E; simpl; [discriminate|].
    intros [= <-]. now apply Hj.
  - destruct (m !! "toString"); [now intros [= <-]|discriminate].
Qed.

Lemma to_primitive_raises (x : Value) e :
  to_primitive x = Raise e -> e = TypeError.
Proof.
  unfold to_primitive, value_text, rbind.
  destruct x as [|[| | | |l|m]|k]; try discriminate.
  - destruct (ToString (JArr l)) eqn:E; [discriminate|].
    intros [= <-]. now apply ToString_raises in E.
  - destruct (ToString (JObj m)) eqn:E; [discriminate|].
    intros [= <-]. now apply ToString_raises in E.
Qed.

Lemma converts_get (o : gmap string JValue) k :
  converts (o !! k) = true <-> exists p, to_primitive (get o k) = Ok p.
Proof.
  unfold converts, get, of_lookup. destruct (o !! k) as [v|].
  - destruct (to_primitive (VJson v)); split; eauto; try discriminate.
    intros [p Hp]. discriminate.
  - split; [|reflexivity]. intros _. destruct (inherited k); eexists; reflexivity.
Qed.

Lemma js_lt_outcome (x y : Value) :
  match js_lt x y with
  | Ok _ => (exists p, to_primitive x = Ok p) /\ (exists p, to_primitive y = Ok p)
  | Raise e =>
      e = TypeError
      /\ ((exists e', to_primitive x = Raise e')
          \/ (exists e', to_primitive y = Raise e'))
  end.
Proof.
  unfold js_lt, rbind.
  destruct (to_primitive x) as [px|ex] eqn:Hx.
  - destruct (to_primitive y) as [py|ey] eqn:Hy; [eauto|].
    split; [now apply to_primitive_raises in Hy|eauto].
  - split; [now apply to_primitive_raises in Hx|eauto].
Qed.

(** Once both operands convert, the two comparisons return. *)
Lemma compare_outcome (order : Z) (x y : Value) :
  let result :=
    rbind (js_lt x y)
      (fun less => if less then Ok (-1 * order)
                   else rbind (js_lt y x)
                          (fun more => if more then Ok (1 * order) else Ok 0)) in
  match result with
  | Ok r =>
      (r = - order \/ r = 0 \/ r = order)
      /\ (exists p, to_primitive x = Ok p) /\ (exists p, to_primitive y = Ok p)
  | Raise e =>
      e = TypeError
      /\ ((exists e', to_primitive x = Raise e')
          \/ (exists e', to_primitive y = Raise e'))
  end.
Proof.
  simpl. pose proof (js_lt_outcome x y) as Hxy.
  pose proof (js_lt_outcome y x) as Hyx.
  destruct (js_lt x y) as [[|]|e]; simpl.
  - destruct Hxy. repeat split; auto; lia.
  - destruct (js_lt y x) as [[|]|e]; simpl.
    + destruct Hxy. repeat split; auto; lia.
    + destruct Hxy. repeat split; auto; lia.
    + destruct Hyx as [-> Hyx]. split; [reflexivity|tauto].
  - exact Hxy.
Qed.

(** X24. The comparator of the sort raises exactly when the first book's
    sort field is a text and the second book's is not, or the first book's
    is not a text and one of the two is an array or an object whose
    conversion to a primitive throws; what it raises is a [TypeError]. In
    every other case it returns the order, its opposite or 0. *)
Theorem compareBooks_outcome f order (a b : Book) :
  ((exists e, compareBooks f order a b = Raise e)
   <-> ((exists t, a !! f = Some (JStr t))
        /\ (forall t, b !! f <> Some (JStr t)))
       \/ ((forall t, a !! f <> Some (JStr t))
           /\ (converts (a !! f) = false \/ converts (b !! f) = false)))
  /\ (forall e, compareBooks f order a b = Raise e -> e = TypeError)
  /\ (forall r, compareBooks f order a b = Ok r ->
        r = - order \/ r = 0 \/ r = order).
Proof.
  assert (Hconv : forall (o : Book),
            converts (o !! f) = false
            <-> exists e, to_primitive (get o f) = Raise e).
  { intros o. pose proof (converts_get o f) as Hc.
    destruct (converts (o !! f)).
    - split; [discriminate|]. intros [e He].
      destruct (proj1 Hc eq_refl) as [p Hp]. congruence.
    - split; [|reflexivity]. intros _.
      destruct (to_primitive (get o f)) as [p|e] eqn:E; [|eauto].
      assert (false = true) by (apply Hc; eauto). discriminate. }
  assert (Hplain :
            (forall t, a !! f <> Some (JStr t)) ->
            compareBooks f order a b
            = rbind (js_lt (get a f) (get b f))
                (fun less => if less then Ok (-1 * order)
                   else rbind (js_lt (get b f) (get a f))
                          (fun more => if more then Ok (1 * order) else Ok 0))).
  { intros Hno. unfold compareBooks.
    destruct (get a f) as [|[| | |t| |]|] eqn:Ha; try reflexivity.
    apply get_text in Ha. now destruct (Hno t). }
  destruct (classic_text (a !! f)) as [[t Ha]|Hno].
  - (* the first value is a text *)
    destruct (classic_text (b !! f)) as [[t' Hb]|Hnb].
    + assert (Hrun : compareBooks f order a b
                     = rbind (js_lt (VJson (JStr (toLowerCase t)))
                                (VJson (JStr (toLowerCase t'))))
                         (fun less => if less then Ok (-1 * order)
                            else rbind (js_lt (VJson (JStr (toLowerCase t')))
                                          (VJson (JStr (toLowerCase t))))
                                   (fun more => if more then Ok (1 * order)
                                                else Ok 0))).
      { unfold compareBooks.
        rewrite (proj2 (get_text a f t) Ha), (proj2 (get_text b f t') Hb).
        reflexivity. }
      rewrite Hrun. clear Hrun. unfold js_lt. simpl.
      split; [split|split].
      * intros [e He]. destruct (prim_lt _ _); [discriminate|].
        destruct (prim_lt _ _); discriminate.
      * intros [[_ Hx]|[Hx _]]; [now destruct (Hx t')|now destruct (Hx t)].
      * intros e. destruct (prim_lt _ _); [discriminate|].
        destruct (prim_lt _ _); discriminate.
      * intros r. destruct (prim_lt _ _); [intros [= <-]; lia|].
        destruct (prim_lt _ _); intros [= <-]; lia.
    + assert (Hrun : compareBooks f order a b = Raise TypeError).
      { unfold compareBooks. rewrite (proj2 (get_text a f t) Ha).
        destruct (get b f) as [|[| | |t'| |]|] eqn:Hb; try reflexivity.
        apply get_text in Hb. now destruct (Hnb t'). }
      rewrite Hrun. split; [split|split].
      * intros _. left. split; [now exists t|exact Hnb].
      * intros _. now exists TypeError.
      * now intros e [= <-].
      * discriminate.
  - (* the first value is not a text *)
    rewrite (Hplain Hno).
    pose proof (compare_outcome order (get a f) (get b f)) as Hout.
    simpl in Hout.
    destruct (rbind (js_lt (get a f) (get b f)) _) as [r|e].
    + destruct Hout as (Hr & [pa Hpa] & [pb Hpb]).
      split; [split|split].
      * intros [e He]. discriminate.
      * intros [[[t Ht] _]|[_ [Hc|Hc]]].
        -- now destruct (Hno t).
        -- apply Hconv in Hc as [e He]. congruence.
        -- apply Hconv in Hc as [e He]. congruence.
      * discriminate.
      * now intros ? [= <-].
    + destruct Hout as (-> & Hraise).
      split; [split|split].
      * intros _. right. split; [exact Hno|].
        destruct Hraise as [Hr|Hr]; [left|right]; now apply Hconv.
      * intros _. now exists TypeError.
      * now intros ? [= <-].
      * discriminate.
Qed.

End Selection.

Lemma selection_is_filtered_sublist_witness :
  let filters : gmap string JValue :=
    {[ "status" := JStr "read"; "author" := JStr "TOL" ]} in
  let l := [Sample.hobbit] in
  sublist l Sample.library
  /\ (truthy_opt (filters !! "status") = true ->
      Forall (fun b : Book => b !! "status" = filters !! "status") l)
  /\ (forall field g,
        field ∈ ["genre"; "author"] ->
        filters !! field = Some (JStr g) -> g <> "" ->
        Forall (fun b : Book =>
                  exists t, b !! field = Some (JStr t)
                            /\ includes (toLowerCase t) (toLowerCase g) = true)
          l).
Proof.
  apply (selection_is_filtered_sublist
           {[ "status" := JStr "read"; "author" := JStr "TOL" ]}
           Sample.library [Sample.hobbit]).
  - reflexivity.
  - vm_compute. reflexivity.
Defined.

Lemma genre_filter_fails_on_non_text_witness :
  let numbered : Book := <["genre" := JNum 7]> Sample.dune in
  let w := Sample.world (Sample.document [Sample.emma; numbered] 3) in
  get_books "SOFIA" {[ "genre" := JStr "novel" ]} w = (Ok internal_error, w).
Proof.
  apply (genre_filter_fails_on_non_text
           (Sample.world
              (Sample.document [Sample.emma; <["genre" := JNum 7]> Sample.dune] 3))
           "SOFIA"
           (Sample.document [Sample.emma; <["genre" := JNum 7]> Sample.dune] 3)
           {[ "genre" := JStr "novel" ]}
           (<["genre" := JNum 7]> Sample.dune) (JNum 7) (JStr "novel")).
  - vm_compute. reflexivity.
  - apply elem_of_cons. right. apply elem_of_cons. left. reflexivity.
  - vm_compute. reflexivity.
  - split; [discriminate|intros t; discriminate].
  - vm_compute. reflexivity.
  - reflexivity.
Defined.

Lemma filter_text_ignores_case_witness :
  selectBooks (<["genre" := JStr "SciFi"]> {[ "status" := JStr "to-read" ]})
    Sample.library
  = selectBooks (<["genre" := JStr "SCIFI"]> {[ "status" := JStr "to-read" ]})
      Sample.library.
Proof.
  apply (filter_text_ignores_case {[ "status" := JStr "to-read" ]}
           Sample.library "genre" "SciFi" "SCIFI").
  - apply elem_of_cons. left. reflexivity.
  - reflexivity.
Defined.

Section Sessions.

Context {engine : Engine}.

Implicit Types (s token : string) (w : World) (d : Doc).

Lemma verifyToken_decoded jwt_verify token payload s w :
  jwt_verify token = Decoded payload ->
  verifyToken jwt_verify (Some ("Bearer " ++ token)%string) s w
  = (if negb (strict_eq (payload !! "studentId") (Some (JStr s)))
     then ret (inl (auth_error 403 "Token no válido para este estudiante"
                      "TOKEN_MISMATCH"))
     else
       catch
         (let* user := getUser s in
          if negb (truthy user) || negb (active user)
          then ret (inl (auth_error 403 "Usuario no encontrado o inactivo"
                           "USER_INVALID"))
          else ret (inr user))
         (fun _ => ret (inl (auth_error 401 "Token inválido"
                               "INVALID_TOKEN")))) w.
Proof.
  intros Hj. unfold verifyToken.
  rewrite (starts_with_append "Bearer " token). cbn [negb].
  pose proof (substring_from_append "Bearer " token) as Hsub.
  cbn [String.length] in Hsub. now rewrite Hsub, Hj.
Qed.

Lemma verifyToken_active jwt_verify token payload s w d m :
  stored w s d ->
  user d = JObj m ->
  truthy_opt (m !! "active") = true ->
  jwt_verify token = Decoded payload ->
  payload !! "studentId" = Some (JStr s) ->
  verifyToken jwt_verify (Some ("Bearer " ++ token)%string) s w
  = (Ok (inr (user d)), w).
Proof.
  intros H Hu Ha Hj Hs. rewrite (verifyToken_decoded _ _ _ _ _ Hj).
  rewrite (proj2 (strict_eq_text _ _) Hs). cbn [negb].
  unfold catch, bind. rewrite (getUser_stored w s d H), Hu.
  cbn [truthy active negb orb]. now rewrite Ha.
Qed.

(** X25. [verifyToken] lets a request through, attaching the stored user
    and leaving the world as it was, whenever the header is [Bearer]
    followed by a token that verifies with a payload naming this tenant and
    the stored user is an object whose [active] property is truthy. *)
Theorem verifyToken_accepts_active_user jwt_verify token payload s w d m :
  stored w s d ->
  user d = JObj m ->
  truthy_opt (m !! "active") = true ->
  jwt_verify token = Decoded payload ->
  payload !! "studentId" = Some (JStr s) ->
  verifyToken jwt_verify (Some ("Bearer " ++ token)%string) s w
  = (Ok (inr (user d)), w).
Proof. exact (verifyToken_active jwt_verify token payload s w d m). Qed.

(** X26. The user that [createUser] stores for a tenant without one is
    accepted by [verifyToken]: a request that follows with a token for this
    tenant is let through with that user attached. Before the registration
    the same request is answered 403 [USER_INVALID]. *)
Theorem registered_user_is_accepted jwt_verify token payload s w d userData :
  stored w s d ->
  truthy (user d) = false ->
  jwt_verify token = Decoded payload ->
  payload !! "studentId" = Some (JStr s) ->
  verifyToken jwt_verify (Some ("Bearer " ++ token)%string) s w
  = (Ok (inl (auth_error 403 "Usuario no encontrado o inactivo"
                "USER_INVALID")), w)
  /\ exists u w',
       createUser s userData w = (Ok (Registered u), w')
       /\ verifyToken jwt_verify (Some ("Bearer " ++ token)%string) s w'
          = (Ok (inr u), w').
Proof.
  intros H Hu Hj Hs. split.
  - rewrite (verifyToken_decoded _ _ _ _ _ Hj).
    rewrite (proj2 (strict_eq_text _ _) Hs). cbn [negb].
    unfold catch, bind. rewrite (getUser_stored w s d H), Hu. reflexivity.
  - destruct (createUser_fresh w s d userData H Hu)
      as (m & w' & d' & Hrun & Hst & Hud & _ & _ & _ & _ & Hact & _).
    exists (JObj m), w'. split; [exact Hrun|].
    rewrite <- Hud.
    apply (verifyToken_active jwt_verify token payload s w' d' m Hst Hud);
      [now rewrite Hact|exact Hj|exact Hs].
Qed.

(** X27. [verifyToken] refuses without consulting the storage, so that the
    world is as it was even when the tenant's file is unreadable: 401
    [NO_TOKEN] when the header is missing or does not start with [Bearer ],
    401 [TOKEN_EXPIRED] or [INVALID_TOKEN] when the token does not verify,
    and 403 [TOKEN_MISMATCH] when the payload names another tenant. *)
Theorem verifyToken_refuses_before_storage jwt_verify s w :
  verifyToken jwt_verify None s w = (Ok (inl no_token), w)
  /\ (forall h, starts_with "Bearer " h = false ->
        verifyToken jwt_verify (Some h) s w = (Ok (inl no_token), w))
  /\ (forall token, jwt_verify token = TokenExpired ->
        verifyToken jwt_verify (Some ("Bearer " ++ token)%string) s w
        = (Ok (inl (auth_error 401 "Token expirado" "TOKEN_EXPIRED")), w))
  /\ (forall token, jwt_verify token = TokenRejected ->
        verifyToken jwt_verify (Some ("Bearer " ++ token)%string) s w
        = (Ok (inl (auth_error 401 "Token inválido" "INVALID_TOKEN")), w))
  /\ (forall token payload,
        jwt_verify token = Decoded payload ->
        payload !! "studentId" <> Some (JStr s) ->
        verifyToken jwt_verify (Some ("Bearer " ++ token)%string) s w
        = (Ok (inl (auth_error 403 "Token no válido para este estudiante"
                      "TOKEN_MISMATCH")), w)).
Proof.
  assert (Hsub : forall token, substring_from 7 ("Bearer " ++ token)%string = token)
    by (intros token; exact (substring_from_append "Bearer " token)).
  split_and!.
  - reflexivity.
  - intros h Hh. unfold verifyToken. now rewrite Hh.
  - intros token Hj. unfold verifyToken.
    rewrite (starts_with_append "Bearer " token). cbn [negb].
    now rewrite Hsub, Hj.
  - intros token Hj. unfold verifyToken.
    rewrite (starts_with_append "Bearer " token). cbn [negb].
    now rewrite Hsub, Hj.
  - intros token payload Hj Hs. rewrite (verifyToken_decoded _ _ _ _ _ Hj).
    destruct (strict_eq (payload !! "studentId") (Some (JStr s))) eqn:E;
      [|reflexivity].
    apply strict_eq_text in E. contradiction.
Qed.

End Sessions.

Lemma verifyToken_accepts_active_user_witness :
  let w := Sample.world (Sample.document Sample.library 12) in
  verifyToken Fixture.jwt (Some ("Bearer " ++ "sofia.token")%string) "SOFIA" w
  = (Ok (inr (user (Sample.document Sample.library 12))), w).
Proof.
  apply (verifyToken_accepts_active_user Fixture.jwt "sofia.token"
           {[ "userId" := JStr "sofia_001";
              "email" := JStr "sofia@biblioteca.com";
              "studentId" := JStr "SOFIA" ]} "SOFIA"
           (Sample.world (Sample.document Sample.library 12))
           (Sample.document Sample.library 12)
           match Sample.reader with JObj m => m | _ => ∅ end).
  - vm_compute. reflexivity.
  - vm_compute. reflexivity.
  - vm_compute. reflexivity.
  - reflexivity.
  - vm_compute. reflexivity.
Defined.

Lemma registered_user_is_accepted_witness :
  let w := Sample.world Fixture.unregistered in
  let userData := {| UserData.name := Some (JStr "Sofia Aguilar");
                     UserData.email := Some (JStr "sofia@biblioteca.com");
                     UserData.hashedPassword := Some (JStr "$2b$10$hash") |} in
  verifyToken Fixture.jwt (Some ("Bearer " ++ "sofia.token")%string) "SOFIA" w
  = (Ok (inl (auth_error 403 "Usuario no encontrado o inactivo"
                "USER_INVALID")), w)
  /\ exists u w',
       createUser "SOFIA" userData w = (Ok (Registered u), w')
       /\ verifyToken Fixture.jwt (Some ("Bearer " ++ "sofia.token")%string)
            "SOFIA" w'
          = (Ok (inr u), w').
Proof.
  apply (registered_user_is_accepted Fixture.jwt "sofia.token"
           {[ "userId" := JStr "sofia_001";
              "email" := JStr "sofia@biblioteca.com";
              "studentId" := JStr "SOFIA" ]} "SOFIA"
           (Sample.world Fixture.unregistered) Fixture.unregistered
           {| UserData.name := Some (JStr "Sofia Aguilar");
              UserData.email := Some (JStr "sofia@biblioteca.com");
              UserData.hashedPassword := Some (JStr "$2b$10$hash") |}).
  - vm_compute. reflexivity.
  - reflexivity.
  - reflexivity.
  - vm_compute. reflexivity.
Defined.
